(** * The per-tenant Alertmanager of Grafana's unified alerting

    A shallow embedding of [pkg/services/ngalert/notifier/alertmanager.go]:
    the save/apply operations of the [alertmanager] type, the matcher-usage
    aggregation, the configuration-hash gauge value and the message of
    [AlertValidationError].  The collaborators that live outside that file
    (the embedded [GrafanaAlertmanager], the alerting store, [json.Marshal],
    [md5.Sum], [Load], [PersistTemplates]) are interfaces here. *)

From Stdlib Require Import ZArith QArith Qpower List Lia.
From Stdlib Require Strings.Byte.
From Stdlib Require Import Floats.SpecFloat DecimalString.
From stdpp Require Import base option list gmap strings vector.

Local Close Scope Q_scope.
Local Open Scope Z_scope.

#[local] Set Warnings "-register-all".

(** * Go values *)

(** [[]byte]; a slice that may be [nil] is an [option bytes]. *)
Abbreviation byte := Init.Byte.byte.
Abbreviation bytes := (list byte).

#[global] Instance byte_eq_dec : EqDecision byte := Strings.Byte.byte_eq_dec.

(** The numeric value of a byte, [uint64(b)]. *)
Definition byte_val (b : byte) : Z := Z.of_N (Byte.to_N b).

(** [[]byte(s)] and [string(b)]. *)
Definition bytes_of_string (s : string) : bytes := String.list_byte_of_string s.
Definition string_of_bytes (b : bytes) : string := String.string_of_list_byte b.

(** Go's [int] on the 64-bit platforms Grafana ships for: two's complement
    wrap-around of the mathematical result. *)
Definition wrap_int (z : Z) : Z := (z + 2 ^ 63) mod 2 ^ 64 - 2 ^ 63.
Definition int_add (a b : Z) : Z := wrap_int (a + b).

(** [len] of a slice and of a map. *)
Definition len {A} (l : list A) : Z := Z.of_nat (length l).
Definition len_map {V} (m : gmap string V) : Z := Z.of_nat (size m).

(** [strconv.FormatInt(n, 10)] and the [%d] verb. *)
Definition FormatInt (n : Z) : string := NilZero.string_of_int (Z.to_int n).

(** ** Errors

    An [error] is an interface with one method, [Error() string].  The code
    meets errors made by the collaborators and errors it wraps itself with
    [fmt.Errorf("...: %w", err)]. *)
Inductive error : Type :=
| errorString (msg : string)
| wrapError (prefix : string) (err : error).

Fixpoint Error (e : error) : string :=
  match e with
  | errorString msg => msg
  | wrapError prefix err => prefix +:+ ": " +:+ Error err
  end.

(** [fmt.Errorf(prefix + ": %w", err)] *)
Definition Errorf (prefix : string) (err : error) : error := wrapError prefix err.

(** * AlertValidationError *)

(** [amv2.PostableAlert]: only carried around. *)
Record PostableAlert := { alert_labels : gmap string string }.

Record AlertValidationError := {
  Alerts : list PostableAlert;
  Errors : list error  (* Errors[i] refers to Alerts[i]. *)
}.

(** [func (e AlertValidationError) Error() string] *)
Definition AlertValidationError_Error (e : AlertValidationError) : string :=
  let errMsg := "" in
  match Errors e with
  | [] => errMsg
  | e0 :: rest =>
      let errMsg := Error e0 in
      fold_left (fun errMsg e => errMsg +:+ (";" +:+ Error e)) rest errMsg
  end.

(** * Numbers of the metrics *)

(** Go's [uint64]: results are taken modulo [2^64]. *)
Definition wrap_uint64 (z : Z) : Z := z mod 2 ^ 64.
Definition uint64_shl (x n : Z) : Z := wrap_uint64 (Z.shiftl x n).

(** [float64] is IEEE 754 binary64: 53 bits of precision, exponents below
    1024.  A conversion from an integer rounds to the nearest float, ties to
    even, which is what [binary_normalize] computes. *)
Abbreviation float64 := spec_float.
Definition float64_prec : Z := 53.
Definition float64_emax : Z := 1024.
Definition float64_of_uint64 (u : Z) : float64 :=
  binary_normalize float64_prec float64_emax u 0 false.
Definition float64_of_int (i : Z) : float64 :=
  binary_normalize float64_prec float64_emax i 0 false.

(** The rational number a float stands for; infinities and NaN stand for
    none. *)
Definition SF2Q (f : float64) : option Q :=
  match f with
  | S754_zero _ => Some (inject_Z 0)
  | S754_finite s m e => Some (Qmult (inject_Z (cond_Zopp s (Zpos m))) (Qpower (inject_Z 2) e))
  | S754_infinity _ | S754_nan => None
  end.

(** [make([]byte, n)] *)
Definition make_bytes (n : nat) : bytes := replicate n Byte.x00.

(** [copy(dst, src)]: the first [min(len(dst), len(src))] elements of [dst]
    are overwritten by those of [src]; the result is the new content of
    [dst]. *)
Definition copy (dst src : bytes) : bytes :=
  take (length dst) src ++ drop (length src) dst.

(** [binary.LittleEndian.Uint64(b)]; it panics ([None]) on a slice of fewer
    than 8 bytes. *)
Definition LittleEndian_Uint64 (b : bytes) : option Z :=
  match b with
  | b0 :: b1 :: b2 :: b3 :: b4 :: b5 :: b6 :: b7 :: _ =>
      Some (Z.lor (Z.lor (Z.lor (Z.lor (Z.lor (Z.lor (Z.lor
              (byte_val b0)
              (uint64_shl (byte_val b1) 8))
              (uint64_shl (byte_val b2) 16))
              (uint64_shl (byte_val b3) 24))
              (uint64_shl (byte_val b4) 32))
              (uint64_shl (byte_val b5) 40))
              (uint64_shl (byte_val b6) 48))
              (uint64_shl (byte_val b7) 56))
  | _ => None
  end.

(** [[16]byte], the type of an MD5 digest. *)
Abbreviation hash := (vec byte 16).

(** [func hashAsMetricValue(data [16]byte) float64] *)
Definition hashAsMetricValue (data : hash) : option float64 :=
  (* We only want 48 bits as a float64 only has a 53 bit mantissa. *)
  let smallSum := take 6 (vec_to_list data) in
  let bytes := make_bytes 8 in
  let bytes := copy bytes smallSum in
  u ← LittleEndian_Uint64 bytes;
  Some (float64_of_uint64 u).

(** The unsigned integer a byte sequence spells, least significant byte
    first. *)
Fixpoint le_uint (bs : bytes) : Z :=
  match bs with
  | [] => 0
  | b :: bs => byte_val b + 256 * le_uint bs
  end.

(** * Routes and matcher usage *)

(** [labels.Matcher] *)
Inductive MatchType := MatchEqual | MatchNotEqual | MatchRegexp | MatchNotRegexp.
Record Matcher := { matcher_Type : MatchType; matcher_Name : string; matcher_Value : string }.

(** [apimodels.Route].  A route owns its children: [Routes] is a slice of
    pointers to routes, none of them nil in a configuration that was loaded. *)
Module Route.
Inductive t := mk {
  Receiver : string;
  Matchers : list Matcher;
  MatchRE : gmap string string;
  Match : gmap string string;
  ObjectMatchers : list Matcher;
  Routes : list t
}.
End Route.
Abbreviation Route := Route.t.

(** [config.InhibitRule] *)
Record InhibitRule := {
  SourceMatch : gmap string string;
  SourceMatchRE : gmap string string;
  SourceMatchers : list Matcher;
  TargetMatch : gmap string string;
  TargetMatchRE : gmap string string;
  TargetMatchers : list Matcher
}.

Module AggregateMatchersUsage.
Record t := mk {
  Matchers : Z;
  MatchRE : Z;
  Match : Z;
  ObjectMatchers : Z
}.
(** [var amu AggregateMatchersUsage] *)
Definition zero : t := mk 0 0 0 0.
End AggregateMatchersUsage.
Abbreviation AggregateMatchersUsage := AggregateMatchersUsage.t.

(** [func (am *alertmanager) aggregateRouteMatchers(r *Route, amu *AggregateMatchersUsage)];
    the usage record behind [amu] is passed in and handed back. *)
Fixpoint aggregateRouteMatchers (r : Route) (amu : AggregateMatchersUsage)
  : AggregateMatchersUsage :=
  let amu :=
    AggregateMatchersUsage.mk
      (int_add (AggregateMatchersUsage.Matchers amu) (len (Route.Matchers r)))
      (int_add (AggregateMatchersUsage.MatchRE amu) (len_map (Route.MatchRE r)))
      (int_add (AggregateMatchersUsage.Match amu) (len_map (Route.Match r)))
      (int_add (AggregateMatchersUsage.ObjectMatchers amu) (len (Route.ObjectMatchers r))) in
  fold_left (fun amu next => aggregateRouteMatchers next amu) (Route.Routes r) amu.

(** [func (am *alertmanager) aggregateInhibitMatchers(rules []config.InhibitRule, amu *AggregateMatchersUsage)] *)
Definition aggregateInhibitMatchers (rules : list InhibitRule) (amu : AggregateMatchersUsage)
  : AggregateMatchersUsage :=
  fold_left
    (fun amu r =>
       let Matchers := int_add (AggregateMatchersUsage.Matchers amu) (len (SourceMatchers r)) in
       let Matchers := int_add Matchers (len (TargetMatchers r)) in
       let MatchRE := int_add (AggregateMatchersUsage.MatchRE amu) (len_map (SourceMatchRE r)) in
       let MatchRE := int_add MatchRE (len_map (TargetMatchRE r)) in
       let Match := int_add (AggregateMatchersUsage.Match amu) (len_map (SourceMatch r)) in
       let Match := int_add Match (len_map (TargetMatch r)) in
       AggregateMatchersUsage.mk Matchers MatchRE Match (AggregateMatchersUsage.ObjectMatchers amu))
    rules amu.

(** The root of a route tree and all its descendants. *)
Fixpoint routes_of (r : Route) : list Route :=
  r :: flat_map routes_of (Route.Routes r).

(** The sum, over the root and all descendant routes, of a count. *)
Definition total (count : Route -> Z) (r : Route) : Z :=
  fold_right Z.add 0 (map count (routes_of r)).

(** The four counts of one route. *)
Definition count_Matchers (r : Route) : Z := len (Route.Matchers r).
Definition count_MatchRE (r : Route) : Z := len_map (Route.MatchRE r).
Definition count_Match (r : Route) : Z := len_map (Route.Match r).
Definition count_ObjectMatchers (r : Route) : Z := len (Route.ObjectMatchers r).

(** The sum of a count over a list of trees. *)
Definition total_list (count : Route -> Z) (rs : list Route) : Z :=
  fold_right Z.add 0 (map count (flat_map routes_of rs)).

(** Adding [m], [mre], [ma] and [om] to the four counters, as Go's [+=] on
    [int] does. *)
Definition usage_add (amu : AggregateMatchersUsage) (m mre ma om : Z)
  : AggregateMatchersUsage :=
  AggregateMatchersUsage.mk
    (int_add (AggregateMatchersUsage.Matchers amu) m)
    (int_add (AggregateMatchersUsage.MatchRE amu) mre)
    (int_add (AggregateMatchersUsage.Match amu) ma)
    (int_add (AggregateMatchersUsage.ObjectMatchers amu) om).

(** The number of matchers of one style in an inhibit rule: source and
    target side together. *)
Definition rule_Matchers (r : InhibitRule) : Z :=
  len (SourceMatchers r) + len (TargetMatchers r).
Definition rule_MatchRE (r : InhibitRule) : Z :=
  len_map (SourceMatchRE r) + len_map (TargetMatchRE r).
Definition rule_Match (r : InhibitRule) : Z :=
  len_map (SourceMatch r) + len_map (TargetMatch r).

(** The sum of a count over the inhibit rules. *)
Definition rules_total (count : InhibitRule -> Z) (rules : list InhibitRule) : Z :=
  fold_right Z.add 0 (map count rules).

(** The values of Go's [int]. *)
Definition is_int (z : Z) : Prop := - 2 ^ 63 <= z < 2 ^ 63.

(** * Configuration documents and store commands *)

(** A receiver as the configuration document declares it, and as the
    embedded Alertmanager takes it.  Their content plays no part in what
    this file does with them. *)
Record PostableApiReceiver := { receiver_Name : string }.
Record APIReceiver := { apireceiver_Name : string }.

(** [apimodels.PostableApiAlertingConfig].  [Route] is a pointer that is not
    nil once the document has been loaded. *)
Module PostableApiAlertingConfig.
Record t := mk {
  Route : Route.t;
  InhibitRules : list InhibitRule;
  Templates : list string;
  Receivers : list PostableApiReceiver
}.
Definition set_Templates (paths : list string) (c : t) : t :=
  mk (Route c) (InhibitRules c) paths (Receivers c).
End PostableApiAlertingConfig.
Abbreviation PostableApiAlertingConfig := PostableApiAlertingConfig.t.

(** [apimodels.PostableUserConfig]; [TemplateFiles] is a Go map, [None]
    when nil. *)
Module PostableUserConfig.
Record t := mk {
  TemplateFiles : option (gmap string string);
  AlertmanagerConfig : PostableApiAlertingConfig
}.
Definition set_TemplateFiles (m : option (gmap string string)) (c : t) : t :=
  mk m (AlertmanagerConfig c).
Definition set_AlertmanagerConfig (a : PostableApiAlertingConfig) (c : t) : t :=
  mk (TemplateFiles c) a.
End PostableUserConfig.
Abbreviation PostableUserConfig := PostableUserConfig.t.

(** The [AlertingConfiguration] handed to the embedded Alertmanager.  Its
    fourth field, [receiverIntegrationsFunc], is the method
    [buildReceiverIntegrations]; the embedded Alertmanager calls it while it
    applies the configuration, so it is part of [Base.ApplyConfig] here. *)
Module AlertingConfiguration.
Record t := mk {
  rawAlertmanagerConfig : bytes;
  alertmanagerConfig : PostableApiAlertingConfig;
  receivers : list APIReceiver
}.
End AlertingConfiguration.
Abbreviation AlertingConfiguration := AlertingConfiguration.t.

(** [ngmodels.SaveAlertmanagerConfigurationCmd], the fields this file sets. *)
Module SaveAlertmanagerConfigurationCmd.
Record t := mk {
  AlertmanagerConfiguration : string;
  Default : bool;
  ConfigurationVersion : string;
  OrgID : Z;
  LastApplied : Z
}.
End SaveAlertmanagerConfigurationCmd.
Abbreviation SaveAlertmanagerConfigurationCmd := SaveAlertmanagerConfigurationCmd.t.

(** [ngmodels.MarkConfigurationAsAppliedCmd] *)
Module MarkConfigurationAsAppliedCmd.
Record t := mk {
  OrgID : Z;
  ConfigurationHash : string
}.
End MarkConfigurationAsAppliedCmd.
Abbreviation MarkConfigurationAsAppliedCmd := MarkConfigurationAsAppliedCmd.t.

(** [ngmodels.AlertConfiguration], a configuration record of the database;
    the fields this file reads. *)
Module AlertConfiguration.
Record t := mk {
  AlertmanagerConfiguration : string;
  ConfigurationHash : string
}.
End AlertConfiguration.
Abbreviation AlertConfiguration := AlertConfiguration.t.

(** [metrics.AlertmanagerConfigMetrics]: four gauges and a gauge per label
    value; a gauge is the value it was last set to. *)
Module AlertmanagerConfigMetrics.
Record t := mk {
  Matchers : float64;
  MatchRE : float64;
  Match : float64;
  ObjectMatchers : float64;
  ConfigHash : gmap string float64
}.
End AlertmanagerConfigMetrics.
Abbreviation AlertmanagerConfigMetrics := AlertmanagerConfigMetrics.t.

Inductive Gauge :=
| gauge_Matchers | gauge_MatchRE | gauge_Match | gauge_ObjectMatchers
| gauge_ConfigHash (label : string).

(** [Gauge.Set(v)] *)
Definition Gauge_Set_value (g : Gauge) (v : float64) (m : AlertmanagerConfigMetrics)
  : AlertmanagerConfigMetrics :=
  match g with
  | gauge_Matchers =>
      AlertmanagerConfigMetrics.mk v (AlertmanagerConfigMetrics.MatchRE m)
        (AlertmanagerConfigMetrics.Match m) (AlertmanagerConfigMetrics.ObjectMatchers m)
        (AlertmanagerConfigMetrics.ConfigHash m)
  | gauge_MatchRE =>
      AlertmanagerConfigMetrics.mk (AlertmanagerConfigMetrics.Matchers m) v
        (AlertmanagerConfigMetrics.Match m) (AlertmanagerConfigMetrics.ObjectMatchers m)
        (AlertmanagerConfigMetrics.ConfigHash m)
  | gauge_Match =>
      AlertmanagerConfigMetrics.mk (AlertmanagerConfigMetrics.Matchers m)
        (AlertmanagerConfigMetrics.MatchRE m) v (AlertmanagerConfigMetrics.ObjectMatchers m)
        (AlertmanagerConfigMetrics.ConfigHash m)
  | gauge_ObjectMatchers =>
      AlertmanagerConfigMetrics.mk (AlertmanagerConfigMetrics.Matchers m)
        (AlertmanagerConfigMetrics.MatchRE m) (AlertmanagerConfigMetrics.Match m) v
        (AlertmanagerConfigMetrics.ConfigHash m)
  | gauge_ConfigHash label =>
      AlertmanagerConfigMetrics.mk (AlertmanagerConfigMetrics.Matchers m)
        (AlertmanagerConfigMetrics.MatchRE m) (AlertmanagerConfigMetrics.Match m)
        (AlertmanagerConfigMetrics.ObjectMatchers m)
        (<[label := v]> (AlertmanagerConfigMetrics.ConfigHash m))
  end.

(** [setting.Cfg], the settings this file reads. *)
Record UnifiedAlertingSettings := { DefaultConfiguration : string }.
Record Cfg := { AppURL : string; UnifiedAlerting : UnifiedAlertingSettings }.

(** * Collaborators *)

(** ** The embedded Alertmanager, [alertingNotify.GrafanaAlertmanager]

    [G] is its state and [FS] the file system under its working directory,
    which it reads the persisted templates from. *)
Module Base.
Class Ops (G FS : Type) := {
  ConfigHash : G -> hash;
  WorkingDirectory : G -> string;
  ApplyConfig : AlertingConfiguration -> FS -> G -> G * option error
}.
End Base.

(** ** The alerting store, [AlertingStore]

    What a store does when asked to save with a callback: it works on the
    database, and it may run the callback, any number of times, and go on
    with what the callback returned.  It has no other access to the
    Alertmanager. *)
Inductive StoreProg (DB : Type) : Type :=
| store_return (db : DB) (err : option error)
| store_callback (k : option error -> StoreProg DB).
Arguments store_return {DB} db err.
Arguments store_callback {DB} k.

Module AlertingStore.
Class Ops (Ctx DB : Type) := {
  SaveAlertmanagerConfigurationWithCallback :
    Ctx -> SaveAlertmanagerConfigurationCmd -> DB -> StoreProg DB;
  MarkConfigurationAsApplied :
    Ctx -> MarkConfigurationAsAppliedCmd -> DB -> DB * option error
}.
End AlertingStore.

(** ** Functions and constants of other packages *)
Module Ext.
Record t (FS : Type) := mk {
  (** [md5.Sum] *)
  md5_Sum : bytes -> hash;
  (** [json.Marshal(&cfg)] and [json.Marshal(cfg.AlertmanagerConfig)] *)
  json_Marshal_user : PostableUserConfig -> error + bytes;
  json_Marshal_am : PostableApiAlertingConfig -> error + bytes;
  (** [Load], the parser and validator of configuration documents *)
  Load : bytes -> error + PostableUserConfig;
  (** [PersistTemplates(logger, cfg, path)]: writes the template files of
      [cfg] under [path] and returns their paths, whether anything on
      disk changed, and an error.  It reads [cfg] and does not change
      it. *)
  PersistTemplates :
    PostableUserConfig -> string -> FS -> FS * (list string * bool * option error);
  PostableApiAlertingConfigToApiReceivers :
    PostableApiAlertingConfig -> list APIReceiver;
  (** [alertingTemplates.DefaultTemplateString] *)
  DefaultTemplateString : string;
  (** [ngmodels.AlertConfigurationVersion] *)
  AlertConfigurationVersion : Z
}.
Arguments md5_Sum {FS}.
Arguments json_Marshal_user {FS}.
Arguments json_Marshal_am {FS}.
Arguments Load {FS}.
Arguments PersistTemplates {FS}.
Arguments PostableApiAlertingConfigToApiReceivers {FS}.
Arguments DefaultTemplateString {FS}.
Arguments AlertConfigurationVersion {FS}.
End Ext.

(** * The Alertmanager and the world around it *)

Section Model.

Context {G FS DB Ctx : Type}.

(** [type alertmanager struct]: the fields the operations below work on.
    [Base] is the state of the embedded Alertmanager, [ConfigMetrics] the
    state of the gauges, [Store] the state of the database. *)
Record alertmanager := mk_alertmanager {
  Base : G;
  ConfigMetrics : AlertmanagerConfigMetrics;
  Settings : Cfg;
  Store : DB;
  orgID : Z
}.

(** A call of a collaborator, with its arguments. *)
Inductive Call :=
| call_json_Marshal_user (cfg : PostableUserConfig)
| call_json_Marshal_am (c : PostableApiAlertingConfig)
| call_md5_Sum (b : bytes)
| call_Load (b : bytes)
| call_PersistTemplates (cfg : PostableUserConfig) (path : string)
| call_Base_ApplyConfig (c : AlertingConfiguration)
| call_Gauge_Set (g : Gauge) (v : float64)
| call_SaveAlertmanagerConfigurationWithCallback (ctx : Ctx) (cmd : SaveAlertmanagerConfigurationCmd)
| call_MarkConfigurationAsApplied (ctx : Ctx) (cmd : MarkConfigurationAsAppliedCmd)
| call_Debug (msg : string).

(** A [*apimodels.PostableUserConfig] is a location of the heap.  Every
    object holds its template-file map by value: two objects sharing one Go
    map are not modelled, so where an operation writes to the object it was
    given, the statements below say nothing of the other objects. *)
Definition ptr := nat.

(** Everything an operation can read or change: the Alertmanager, the file
    system under its working directory, the configuration objects that
    pointers refer to, the clock, and the calls of collaborators made so
    far (oldest first), which are kept to state what was and what was not
    invoked. *)
Record World := mk_World {
  am : alertmanager;
  fs : FS;
  heap : list PostableUserConfig;
  clock : Z;
  calls : list Call
}.

Definition set_am (a : alertmanager) (w : World) : World :=
  mk_World a (fs w) (heap w) (clock w) (calls w).
Definition set_fs (f : FS) (w : World) : World :=
  mk_World (am w) f (heap w) (clock w) (calls w).
Definition set_heap (h : list PostableUserConfig) (w : World) : World :=
  mk_World (am w) (fs w) h (clock w) (calls w).
Definition set_calls (c : list Call) (w : World) : World :=
  mk_World (am w) (fs w) (heap w) (clock w) c.
Definition set_Base (g : G) (a : alertmanager) : alertmanager :=
  mk_alertmanager g (ConfigMetrics a) (Settings a) (Store a) (orgID a).
Definition set_ConfigMetrics (m : AlertmanagerConfigMetrics) (a : alertmanager) : alertmanager :=
  mk_alertmanager (Base a) m (Settings a) (Store a) (orgID a).
Definition set_Store (db : DB) (a : alertmanager) : alertmanager :=
  mk_alertmanager (Base a) (ConfigMetrics a) (Settings a) db (orgID a).

(** ** Computations

    An operation takes a world and either returns a value and a world or
    panics. *)
Inductive Outcome (A : Type) : Type :=
| Ok (a : A) (w : World)
| Panic.
Arguments Ok {A} a w.
Arguments Panic {A}.

Definition M (A : Type) : Type := World -> Outcome A.

#[global] Instance M_ret : MRet M := fun A a w => Ok a w.
#[global] Instance M_bind : MBind M := fun A B k m w =>
  match m w with
  | Ok a w' => k a w'
  | Panic => Panic
  end.

Definition get : M World := fun w => Ok w w.
Definition modify (f : World -> World) : M unit := fun w => Ok tt (f w).
Definition panic {A} : M A := fun _ => Panic.

Definition log (c : Call) : M unit :=
  modify (fun w => set_calls (calls w ++ [c]) w).

(** [*p] *)
Definition deref (p : ptr) : M PostableUserConfig :=
  w ← get;
  match heap w !! p with
  | Some c => mret c
  | None => panic
  end.

(** [*p = c] *)
Definition assign (p : ptr) (c : PostableUserConfig) : M unit :=
  _ ← deref p;
  modify (fun w => set_heap (<[p := c]> (heap w)) w).

(** A pointer to a new object. *)
Definition new (c : PostableUserConfig) : M ptr :=
  w ← get;
  _ ← modify (set_heap (heap w ++ [c]));
  mret (length (heap w)).

(** [time.Now().UTC().Unix()] *)
Definition time_Now_Unix : M Z := w ← get; mret (clock w).

(** ** The collaborators, as operations *)

Context `{!Base.Ops G FS} `{!AlertingStore.Ops Ctx DB} (ext : Ext.t FS).

Definition md5_Sum (b : bytes) : M hash :=
  _ ← log (call_md5_Sum b);
  mret (Ext.md5_Sum ext b).

(** [json.Marshal(&cfg)], for a [cfg] that points to an object; a nil
    [cfg] is outside the model. *)
Definition json_Marshal_user (cfg : ptr) : M (error + bytes) :=
  c ← deref cfg;
  _ ← log (call_json_Marshal_user c);
  mret (Ext.json_Marshal_user ext c).

Definition json_Marshal_am (c : PostableApiAlertingConfig) : M (error + bytes) :=
  _ ← log (call_json_Marshal_am c);
  mret (Ext.json_Marshal_am ext c).

(** [Load(b)]: a pointer to the parsed document, or an error. *)
Definition Load (b : bytes) : M (error + ptr) :=
  _ ← log (call_Load b);
  match Ext.Load ext b with
  | inl err => mret (inl err)
  | inr c => p ← new c; mret (inr p)
  end.

Definition PersistTemplates (cfg : ptr) (path : string)
  : M (list string * bool * option error) :=
  c ← deref cfg;
  _ ← log (call_PersistTemplates c path);
  w ← get;
  let '(fs', r) := Ext.PersistTemplates ext c path (fs w) in
  _ ← modify (set_fs fs');
  mret r.

(** [am.Base.ConfigHash()] and [am.Base.WorkingDirectory()] *)
Definition Base_ConfigHash : M hash :=
  w ← get; mret (Base.ConfigHash (Base (am w))).
Definition Base_WorkingDirectory : M string :=
  w ← get; mret (Base.WorkingDirectory (Base (am w))).

(** [am.Base.ApplyConfig(c)] *)
Definition Base_ApplyConfig (c : AlertingConfiguration) : M (option error) :=
  _ ← log (call_Base_ApplyConfig c);
  w ← get;
  let '(g, err) := Base.ApplyConfig c (fs w) (Base (am w)) in
  _ ← modify (set_am (set_Base g (am w)));
  mret err.

(** [am.Base.WithLock(f)]: [f] runs while the lock is held; nothing else
    runs in between. *)
Definition Base_WithLock {A} (f : M A) : M A := f.

(** [gauge.Set(v)] on a gauge of [am.ConfigMetrics] *)
Definition Gauge_Set (g : Gauge) (v : float64) : M unit :=
  _ ← log (call_Gauge_Set g v);
  modify (fun w => set_am (set_ConfigMetrics (Gauge_Set_value g v (ConfigMetrics (am w))) (am w)) w).

(** [am.logger.Debug(msg)] *)
Definition logger_Debug (msg : string) : M unit := log (call_Debug msg).

(** Running what the store does, with the callback it was given. *)
Fixpoint run_store (p : StoreProg DB) (callback : M (option error)) : M (option error) :=
  match p with
  | store_return db err =>
      _ ← modify (fun w => set_am (set_Store db (am w)) w);
      mret err
  | store_callback k =>
      r ← callback;
      run_store (k r) callback
  end.

(** [am.Store.SaveAlertmanagerConfigurationWithCallback(ctx, cmd, callback)] *)
Definition Store_SaveAlertmanagerConfigurationWithCallback
  (ctx : Ctx) (cmd : SaveAlertmanagerConfigurationCmd) (callback : M (option error))
  : M (option error) :=
  _ ← log (call_SaveAlertmanagerConfigurationWithCallback ctx cmd);
  w ← get;
  run_store (AlertingStore.SaveAlertmanagerConfigurationWithCallback ctx cmd (Store (am w)))
            callback.

(** [am.Store.MarkConfigurationAsApplied(ctx, &cmd)] *)
Definition Store_MarkConfigurationAsApplied
  (ctx : Ctx) (cmd : MarkConfigurationAsAppliedCmd) : M (option error) :=
  _ ← log (call_MarkConfigurationAsApplied ctx cmd);
  w ← get;
  let '(db, err) := AlertingStore.MarkConfigurationAsApplied ctx cmd (Store (am w)) in
  _ ← modify (set_am (set_Store db (am w)));
  mret err.

(** ** The operations of [alertmanager.go] *)

(** [func (am *alertmanager) updateConfigMetrics(cfg *apimodels.PostableUserConfig)] *)
Definition updateConfigMetrics (cfg : ptr) : M unit :=
  c ← deref cfg;
  let amu := AggregateMatchersUsage.zero in
  let amu :=
    aggregateRouteMatchers
      (PostableApiAlertingConfig.Route (PostableUserConfig.AlertmanagerConfig c)) amu in
  let amu :=
    aggregateInhibitMatchers
      (PostableApiAlertingConfig.InhibitRules (PostableUserConfig.AlertmanagerConfig c)) amu in
  _ ← Gauge_Set gauge_Matchers (float64_of_int (AggregateMatchersUsage.Matchers amu));
  _ ← Gauge_Set gauge_MatchRE (float64_of_int (AggregateMatchersUsage.MatchRE amu));
  _ ← Gauge_Set gauge_Match (float64_of_int (AggregateMatchersUsage.Match amu));
  _ ← Gauge_Set gauge_ObjectMatchers (float64_of_int (AggregateMatchersUsage.ObjectMatchers amu));
  w ← get;
  h ← Base_ConfigHash;
  match hashAsMetricValue h with
  | Some v => Gauge_Set (gauge_ConfigHash (FormatInt (orgID (am w)))) v
  | None => panic
  end.

(** [func (am *alertmanager) applyConfig(cfg *apimodels.PostableUserConfig, rawConfig []byte) (bool, error)] *)
Definition applyConfig (cfg : ptr) (rawConfig : option bytes) : M (bool * option error) :=
  (* First, let's make sure this config is not already loaded *)
  enc ← match rawConfig with
        | None =>
            c ← deref cfg;
            json_Marshal_am (PostableUserConfig.AlertmanagerConfig c)
        | Some rawConfig => mret (inr rawConfig)
        end;
  match enc with
  | inl err =>
      (* In theory, this should never happen. *)
      mret (false, Some err)
  | inr rawConfig =>
      active ← Base_ConfigHash;
      sum ← md5_Sum rawConfig;
      let amConfigChanged := bool_decide (active ≠ sum) in
      c ← deref cfg;
      let TemplateFiles :=
        match PostableUserConfig.TemplateFiles c with
        | None => ∅
        | Some m => m
        end in
      _ ← assign cfg
            (PostableUserConfig.set_TemplateFiles
               (Some (<["__default__.tmpl" := Ext.DefaultTemplateString ext]> TemplateFiles)) c);
      (* next, we need to make sure we persist the templates to disk. *)
      path ← Base_WorkingDirectory;
      '(paths, templatesChanged, err) ← PersistTemplates cfg path;
      match err with
      | Some err => mret (false, Some err)
      | None =>
          c ← deref cfg;
          _ ← assign cfg
                (PostableUserConfig.set_AlertmanagerConfig
                   (PostableApiAlertingConfig.set_Templates paths
                      (PostableUserConfig.AlertmanagerConfig c)) c);
          (* If neither the configuration nor templates have changed, we've got nothing to do. *)
          if negb amConfigChanged && negb templatesChanged then
            _ ← logger_Debug "Neither config nor template have changed, skipping configuration sync.";
            mret (false, None)
          else
            c ← deref cfg;
            err ← Base_ApplyConfig
                    (AlertingConfiguration.mk rawConfig
                       (PostableUserConfig.AlertmanagerConfig c)
                       (Ext.PostableApiAlertingConfigToApiReceivers ext
                          (PostableUserConfig.AlertmanagerConfig c)));
            match err with
            | Some err => mret (false, Some err)
            | None =>
                _ ← updateConfigMetrics cfg;
                mret (true, None)
            end
      end
  end.

(** [func (am *alertmanager) applyAndMarkConfig(ctx, hash string, cfg *apimodels.PostableUserConfig, rawConfig []byte) error] *)
Definition applyAndMarkConfig (ctx : Ctx) (hash : string) (cfg : ptr) (rawConfig : option bytes)
  : M (option error) :=
  '(configChanged, err) ← applyConfig cfg rawConfig;
  match err with
  | Some err => mret (Some err)
  | None =>
      if configChanged : bool then
        w ← get;
        let markConfigCmd := MarkConfigurationAsAppliedCmd.mk (orgID (am w)) hash in
        Store_MarkConfigurationAsApplied ctx markConfigCmd
      else mret None
  end.

(** The closure both save operations hand to the store:
    [func() error { _, err := am.applyConfig(cfg, rawConfig); return err }] *)
Definition applyConfig_callback (cfg : ptr) (rawConfig : bytes) : M (option error) :=
  '(_, err) ← applyConfig cfg (Some rawConfig);
  mret err.

(** [func (am *alertmanager) SaveAndApplyDefaultConfig(ctx context.Context) error];
    the value of the closure is [outerErr] as the closure leaves it. *)
Definition SaveAndApplyDefaultConfig (ctx : Ctx) : M (option error) :=
  let outerErr : option error := None in
  Base_WithLock (
    w ← get;
    let DefaultConfiguration := DefaultConfiguration (UnifiedAlerting (Settings (am w))) in
    LastApplied ← time_Now_Unix;
    let cmd :=
      SaveAlertmanagerConfigurationCmd.mk
        DefaultConfiguration
        true
        ("v" +:+ FormatInt (Ext.AlertConfigurationVersion ext))
        (orgID (am w))
        LastApplied in
    r ← Load (bytes_of_string DefaultConfiguration);
    match r with
    | inl err => mret (Some err)            (* outerErr = err *)
    | inr cfg =>
        err ← Store_SaveAlertmanagerConfigurationWithCallback ctx cmd
                (applyConfig_callback cfg (bytes_of_string DefaultConfiguration));
        match err with
        | Some _ => mret None               (* outerErr = nil *)
        | None => mret outerErr
        end
    end).

(** [func (am *alertmanager) SaveAndApplyConfig(ctx context.Context, cfg *apimodels.PostableUserConfig) error] *)
Definition SaveAndApplyConfig (ctx : Ctx) (cfg : ptr) : M (option error) :=
  r ← json_Marshal_user cfg;
  match r with
  | inl err => mret (Some (Errorf "failed to serialize to the Alertmanager configuration" err))
  | inr rawConfig =>
      let outerErr : option error := None in
      Base_WithLock (
        w ← get;
        LastApplied ← time_Now_Unix;
        let cmd :=
          SaveAlertmanagerConfigurationCmd.mk
            (string_of_bytes rawConfig)
            false
            ("v" +:+ FormatInt (Ext.AlertConfigurationVersion ext))
            (orgID (am w))
            LastApplied in
        err ← Store_SaveAlertmanagerConfigurationWithCallback ctx cmd
                (applyConfig_callback cfg rawConfig);
        match err with
        | Some err => mret (Some err)       (* outerErr = err *)
        | None => mret outerErr
        end)
  end.

(** [func (am *alertmanager) ApplyConfig(ctx context.Context, dbCfg *ngmodels.AlertConfiguration) error];
    [dbCfg] is only read. *)
Definition ApplyConfig (ctx : Ctx) (dbCfg : AlertConfiguration) : M (option error) :=
  r ← Load (bytes_of_string (AlertConfiguration.AlertmanagerConfiguration dbCfg));
  match r with
  | inl err => mret (Some (Errorf "failed to parse Alertmanager config" err))
  | inr cfg =>
      let outerErr : option error := None in
      Base_WithLock (
        err ← applyAndMarkConfig ctx (AlertConfiguration.ConfigurationHash dbCfg) cfg None;
        match err with
        | Some err => mret (Some (Errorf "unable to apply configuration" err))
        | None => mret outerErr
        end)
  end.

End Model.

Arguments Ok {G FS DB Ctx A} a w.
Arguments Panic {G FS DB Ctx A}.

(** * Parts of the operations, named for the statements below *)

Section Parts.

Context {G FS DB Ctx : Type} `{!Base.Ops G FS} (ext : Ext.t FS).

(** The configuration object after the default template was put into its
    template files ([applyConfig], the lines before the templates are
    persisted). *)
Definition with_default_template (c : PostableUserConfig) : PostableUserConfig :=
  PostableUserConfig.set_TemplateFiles
    (Some (<["__default__.tmpl" := Ext.DefaultTemplateString ext]>
             (default ∅ (PostableUserConfig.TemplateFiles c)))) c.

(** The configuration object after [cfg.AlertmanagerConfig.Templates = paths]. *)
Definition with_Templates (paths : list string) (c : PostableUserConfig) : PostableUserConfig :=
  PostableUserConfig.set_AlertmanagerConfig
    (PostableApiAlertingConfig.set_Templates paths (PostableUserConfig.AlertmanagerConfig c)) c.

(** The [AlertingConfiguration] that [applyConfig] builds from the
    configuration object. *)
Definition alerting_configuration (rawConfig : bytes) (c : PostableUserConfig)
  : AlertingConfiguration :=
  AlertingConfiguration.mk rawConfig
    (PostableUserConfig.AlertmanagerConfig c)
    (Ext.PostableApiAlertingConfigToApiReceivers ext (PostableUserConfig.AlertmanagerConfig c)).

(** The matcher usage that [updateConfigMetrics] computes. *)
Definition config_usage (c : PostableUserConfig) : AggregateMatchersUsage :=
  aggregateInhibitMatchers
    (PostableApiAlertingConfig.InhibitRules (PostableUserConfig.AlertmanagerConfig c))
    (aggregateRouteMatchers
       (PostableApiAlertingConfig.Route (PostableUserConfig.AlertmanagerConfig c))
       AggregateMatchersUsage.zero).

(** The gauges that [updateConfigMetrics] sets, in its order, with their
    values: [v] is the value for the configuration-hash gauge of tenant
    [org]. *)
Definition metrics_updates (org : Z) (c : PostableUserConfig) (v : float64)
  : list (Gauge * float64) :=
  [ (gauge_Matchers, float64_of_int (AggregateMatchersUsage.Matchers (config_usage c)));
    (gauge_MatchRE, float64_of_int (AggregateMatchersUsage.MatchRE (config_usage c)));
    (gauge_Match, float64_of_int (AggregateMatchersUsage.Match (config_usage c)));
    (gauge_ObjectMatchers, float64_of_int (AggregateMatchersUsage.ObjectMatchers (config_usage c)));
    (gauge_ConfigHash (FormatInt org), v) ].

Definition apply_updates (us : list (Gauge * float64)) (m : AlertmanagerConfigMetrics)
  : AlertmanagerConfigMetrics :=
  fold_left (fun m u => Gauge_Set_value (fst u) (snd u) m) us m.

Definition calls_of_updates (us : list (Gauge * float64)) : list (@Call Ctx) :=
  map (fun u => call_Gauge_Set (fst u) (snd u)) us.

(** Kinds of calls. *)
Definition is_Base_ApplyConfig (c : @Call Ctx) : bool :=
  match c with call_Base_ApplyConfig _ => true | _ => false end.
Definition is_Gauge_Set (c : @Call Ctx) : bool :=
  match c with call_Gauge_Set _ _ => true | _ => false end.
Definition is_MarkConfigurationAsApplied (c : @Call Ctx) : bool :=
  match c with call_MarkConfigurationAsApplied _ _ => true | _ => false end.
Definition is_json_Marshal (c : @Call Ctx) : bool :=
  match c with call_json_Marshal_user _ | call_json_Marshal_am _ => true | _ => false end.
Definition is_Save (c : @Call Ctx) : bool :=
  match c with call_SaveAlertmanagerConfigurationWithCallback _ _ => true | _ => false end.
Definition is_PersistTemplates (c : @Call Ctx) : bool :=
  match c with call_PersistTemplates _ _ => true | _ => false end.

End Parts.

(** A call that the callback of [SaveAndApplyConfig] may make when it works
    on the raw bytes [raw]: no serialization, no save, and no digest of
    anything but [raw]. *)
Definition callback_call {Ctx : Type} (raw : bytes) (k : @Call Ctx) : Prop :=
  match k with
  | call_md5_Sum b => b = raw
  | call_json_Marshal_user _ | call_json_Marshal_am _
  | call_SaveAlertmanagerConfigurationWithCallback _ _ => False
  | _ => True
  end.

(** * An example installation

    One tenant with concrete collaborators, small enough to run the
    operations in; the statements below are tried on it. *)
Module Example.

(** A stand-in for the digest: the first 16 bytes, padded with zeros. *)
Definition digest (b : bytes) : hash :=
  vmap (fun i => nth i b Byte.x00)
       [# 0; 1; 2; 3; 4; 5; 6; 7; 8; 9; 10; 11; 12; 13; 14; 15 ]%nat.

(** An embedded Alertmanager whose state is its active configuration hash.
    It refuses a configuration without receivers and keeps its state then. *)
#[export] Instance base_ops : Base.Ops hash (gmap string string) := {|
  Base.ConfigHash g := g;
  Base.WorkingDirectory _ := "/var/lib/grafana/alerting/1";
  Base.ApplyConfig c _ g :=
    match AlertingConfiguration.receivers c with
    | [] => (g, Some (errorString "no receivers"))
    | _ :: _ => (digest (AlertingConfiguration.rawAlertmanagerConfig c), None)
    end
|}.

(** Modelled from the spec: the alerting store of the database contract
    ([SaveConfigurationWithCallback] and [MarkConfigurationApplied]), whose
    implementation lives in the store package.  The callback runs inside
    the save; when it fails the save does not commit, and when the database
    cannot be written the callback does not run. *)
Record Database := mk_Database {
  saved : list SaveAlertmanagerConfigurationCmd;
  applied : list MarkConfigurationAsAppliedCmd;
  unavailable : option error
}.

#[export] Instance store_ops : AlertingStore.Ops unit Database := {|
  AlertingStore.SaveAlertmanagerConfigurationWithCallback _ cmd db :=
    match unavailable db with
    | Some err => store_return db (Some err)
    | None =>
        store_callback (fun r =>
          match r with
          | Some err => store_return db (Some err)
          | None => store_return (mk_Database (cmd :: saved db) (applied db) None) None
          end)
    end;
  AlertingStore.MarkConfigurationAsApplied _ cmd db :=
    match unavailable db with
    | Some err => (db, Some err)
    | None => (mk_Database (saved db) (cmd :: applied db) None, None)
    end
|}.

(** The file system is the set of template files, by name.  A template
    name that leaves the working directory is refused. *)
Definition ext : Ext.t (gmap string string) := {|
  Ext.md5_Sum := digest;
  Ext.json_Marshal_user c :=
    inr (bytes_of_string
           ("{alertmanager_config:{templates:[" +:+
            String.concat ","
              (PostableApiAlertingConfig.Templates (PostableUserConfig.AlertmanagerConfig c)) +:+
            "]}}"));
  Ext.json_Marshal_am a :=
    inr (bytes_of_string
           ("{templates:[" +:+ String.concat "," (PostableApiAlertingConfig.Templates a) +:+ "]}"));
  Ext.Load b :=
    match b with
    | [] => inl (errorString "unexpected end of JSON input")
    | _ :: _ =>
        inr (PostableUserConfig.mk None
               (PostableApiAlertingConfig.mk
                  (Route.mk "grafana-default-email" [] ∅ ∅ [] []) [] []
                  [Build_PostableApiReceiver "grafana-default-email"]))
    end;
  Ext.PersistTemplates c path files :=
    match PostableUserConfig.TemplateFiles c with
    | None => (files, ([], false, None))
    | Some m =>
        if bool_decide (is_Some (m !! "../outside.tmpl"))
        then (files, ([], false, Some (errorString "template file name is not valid")))
        else (m, (map (fun kv => path +:+ "/" +:+ fst kv) (map_to_list m),
                  bool_decide (files ≠ m), None))
    end;
  Ext.PostableApiAlertingConfigToApiReceivers a :=
    map (fun r => Build_APIReceiver (receiver_Name r)) (PostableApiAlertingConfig.Receivers a);
  Ext.DefaultTemplateString := "{{ define default.title }}alert{{ end }}";
  Ext.AlertConfigurationVersion := 1
|}.

Definition raw : bytes := bytes_of_string "{}".

Definition config (templateFiles : option (gmap string string)) (templates : list string)
  : PostableUserConfig :=
  PostableUserConfig.mk templateFiles
    (PostableApiAlertingConfig.mk
       (Route.mk "grafana-default-email" [] ∅ ∅ [] []) [] templates
       [Build_PostableApiReceiver "grafana-default-email"]).

Definition metrics0 : AlertmanagerConfigMetrics :=
  AlertmanagerConfigMetrics.mk (S754_zero false) (S754_zero false) (S754_zero false)
    (S754_zero false) ∅.

(** A tenant whose active configuration is [active], with the template
    files [files] on disk, one configuration object [c] at location 0, and
    a database that is down when [down] says so. *)
Definition world (active : hash) (files : gmap string string) (c : PostableUserConfig)
    (down : option error) : @World hash (gmap string string) Database unit :=
  mk_World
    (mk_alertmanager active metrics0
       (Build_Cfg "http://localhost:3000/" (Build_UnifiedAlertingSettings "{}"))
       (mk_Database [] [] down) 1)
    files [c] 1700000000 [].

(** The template files on disk once the default template was persisted. *)
Definition default_files : gmap string string :=
  {[ "__default__.tmpl" := Ext.DefaultTemplateString ext ]}.

(** A tenant that already runs the configuration [raw], default template
    on disk. *)
Definition settled : @World hash (gmap string string) Database unit :=
  world (digest raw) default_files (config None []) None.

(** A tenant that already runs what the parsed default configuration
    serializes to. *)
Definition settled_loaded : @World hash (gmap string string) Database unit :=
  world (digest (bytes_of_string "{templates:[]}")) default_files (config None []) None.

(** A tenant that runs no configuration yet. *)
Definition fresh : @World hash (gmap string string) Database unit :=
  world (digest []) ∅ (config None []) None.

(** The same with a database that cannot be written. *)
Definition database_down : @World hash (gmap string string) Database unit :=
  world (digest []) ∅ (config None []) (Some (errorString "database is locked")).

(** A tenant whose configuration object names a template file outside the
    working directory, and lists a template path from an earlier apply. *)
Definition invalid_template : @World hash (gmap string string) Database unit :=
  world (digest []) ∅
    (config (Some {[ "../outside.tmpl" := "{{ define x }}{{ end }}" ]}) ["stale.tmpl"]) None.

(** A tenant whose configuration object declares no receiver, which the
    embedded Alertmanager refuses, and lists a template path from an
    earlier apply. *)
Definition no_receivers : @World hash (gmap string string) Database unit :=
  world (digest []) ∅
    (PostableUserConfig.mk None
       (PostableApiAlertingConfig.mk
          (Route.mk "grafana-default-email" [] ∅ ∅ [] []) [] ["stale.tmpl"] []))
    None.

End Example.

(** More kinds of calls. *)
Definition is_Load {Ctx : Type} (c : @Call Ctx) : bool :=
  match c with call_Load _ => true | _ => false end.

(** * The folder-UID migration

    [FolderUIDMigration] of [package migrations] is a code migration that
    populates the [folder_uid] column of the dashboard table. *)
Module FolderUIDMigration.

(** [migrator.Dialect]: the methods [Exec] calls. *)
Record Dialect := { DriverName : string; BooleanStr : bool -> string }.

(** [migrator.Migrator]: [Exec] reads its dialect and writes to its logger;
    what was logged is part of the events below. *)
Record Migrator := { mgrtr_Dialect : Dialect }.

(** What [Exec] does to the world around it, oldest first: the statements
    it sends through the session, and the lines it logs. *)
Inductive Event :=
| sess_Exec (q : string) (args : list string)
| Logger_Error (msg : string) (err : error)
| Logger_Debug (msg : string) (dashboards_rows folder_rows : Z).

(** [func (m *FolderUIDMigration) SQL(dialect migrator.Dialect) string] *)
Definition SQL (dialect : Dialect) : string := "code migration".

Section Exec.

(** [S] is the state of the database behind the [xorm.Session] and [R] an
    [sql.Result]; [Session_Exec q args] sends a statement, and
    [RowsAffected] is the method of the result. *)
Context {S R : Type}.
Context (Session_Exec : string -> list string -> S -> S * (error + R)).
Context (RowsAffected : R -> Z * option error).
(** [migrator.MySQL], the driver name of MySQL *)
Context (MySQL : string).

(** [func (m *FolderUIDMigration) Exec(sess *xorm.Session, mgrtr *migrator.Migrator) error] *)
Definition Exec (sess : S) (mgrtr : Migrator) : S * list Event * option error :=
  (* for dashboards the source of truth is the  dashboard table *)
  let q := "UPDATE dashboard
	SET folder_uid = folder.uid
	FROM dashboard folder
	WHERE dashboard.folder_id = folder.id
	  AND dashboard.is_folder = ?" in
  let q :=
    if String.eqb (DriverName (mgrtr_Dialect mgrtr)) MySQL
    then "UPDATE dashboard AS d
		LEFT JOIN dashboard AS folder ON d.folder_id = folder.id
		SET d.folder_uid = folder.uid
		WHERE d.is_folder = ?"
    else q in
  let args := [BooleanStr (mgrtr_Dialect mgrtr) false] in
  let '(sess, r) := Session_Exec q args sess in
  let log := [sess_Exec q args] in
  match r with
  | inl err =>
      (sess,
       log ++ [Logger_Error "Failed to migrate dashboard folder_uid for dashboards" err],
       Some err)
  | inr r =>
      let '(dashboardRowsAffected, dashboardRowsAffectedErr) := RowsAffected r in
      let log :=
        match dashboardRowsAffectedErr with
        | Some e => log ++ [Logger_Error "Failed to get dashboard rows affected" e]
        | None => log
        end in
      (* for folders the source of truth is the folder table *)
      let q := "UPDATE dashboard
	SET folder_uid = folder.parent_uid
	FROM folder
	WHERE dashboard.uid = folder.uid AND dashboard.org_id = folder.org_id
	AND dashboard.is_folder = ?" in
      let q :=
        if String.eqb (DriverName (mgrtr_Dialect mgrtr)) MySQL
        then "UPDATE dashboard
		SET folder_uid = (
		    SELECT folder.parent_uid
		    FROM folder
		    WHERE dashboard.uid = folder.uid AND dashboard.org_id = folder.org_id
		)
		WHERE is_folder = ?"
        else q in
      let args := [BooleanStr (mgrtr_Dialect mgrtr) true] in
      let '(sess, r) := Session_Exec q args sess in
      let log := log ++ [sess_Exec q args] in
      match r with
      | inl err =>
          (sess,
           log ++ [Logger_Error "Failed to migrate dashboard folder_uid for folders" err],
           Some err)
      | inr r =>
          let '(folderRowsAffected, folderRowsAffectedErr) := RowsAffected r in
          let log :=
            match folderRowsAffectedErr with
            | Some e => log ++ [Logger_Error "Failed to get folder rows affected" e]
            | None => log
            end in
          (sess,
           log ++ [Logger_Debug "Migrating dashboard data"
                     dashboardRowsAffected folderRowsAffected],
           None)
      end
  end.

End Exec.

(** The statements among the events, with their arguments. *)
Definition statements (log : list Event) : list (string * list string) :=
  omap (fun ev => match ev with sess_Exec q args => Some (q, args) | _ => None end) log.

Import Stdlib.Strings.Ascii.

(** The number of [?] placeholders of a statement. *)
Fixpoint placeholders (q : string) : nat :=
  match q with
  | EmptyString => 0%nat
  | String ch q => ((if Ascii.eqb ch "?"%char then 1 else 0) + placeholders q)%nat
  end.

End FolderUIDMigration.

(** * Theorems *)

Lemma append_nil_l (a : string) : "" +:+ a = a.
Proof. reflexivity. Qed.

Lemma append_cons (ch : Ascii.ascii) (a b : string) :
  String ch a +:+ b = String ch (a +:+ b).
Proof. reflexivity. Qed.

Lemma append_assoc (a b c : string) : (a +:+ b) +:+ c = a +:+ (b +:+ c).
Proof.
  induction a as [|ch a IH]; [reflexivity |].
  now rewrite !append_cons, IH.
Qed.

Lemma append_nil_r (a : string) : a +:+ "" = a.
Proof.
  induction a as [|ch a IH]; [reflexivity |].
  now rewrite append_cons, IH.
Qed.

(** The loop of [Error] appends, to what it has so far, each remaining
    message behind a separator. *)
Lemma Error_loop (rest : list error) (acc : string) :
  fold_left (fun errMsg e => errMsg +:+ (";" +:+ Error e)) rest acc =
  acc +:+ String.concat "" (map (fun e => ";" +:+ Error e) rest).
Proof.
  revert acc. induction rest as [|e rest IH]; intros acc.
  - simpl. now rewrite append_nil_r.
  - cbn [fold_left map]. rewrite IH, append_assoc. f_equal.
    destruct rest as [|e' rest]; [simpl; now rewrite append_nil_r | reflexivity].
Qed.

Lemma concat_sep_cons (x : string) (xs : list string) :
  String.concat ";" (x :: xs) =
  x +:+ String.concat "" (map (fun s => ";" +:+ s) xs).
Proof.
  revert x. induction xs as [|y ys IH]; intros x.
  - simpl. now rewrite append_nil_r.
  - change (String.concat ";" (x :: y :: ys))
      with (x +:+ ";" +:+ String.concat ";" (y :: ys)).
    rewrite IH. f_equal.
    destruct ys as [|z zs]; [simpl; now rewrite append_nil_r |].
    cbn [map]. 
    change (String.concat "" ((";" +:+ y) :: ?a :: ?b))
      with ((";" +:+ y) +:+ "" +:+ String.concat "" (a :: b)).
    now rewrite append_nil_l, append_assoc.
Qed.
(** C9. The message of an [AlertValidationError] is empty when it carries no
    error; otherwise it is the messages of its errors, in their order, joined
    by [";"]: the first message, then a [";"] in front of every later one, so
    nothing follows the last message. *)
Theorem AlertValidationError_Error_join (e : AlertValidationError) :
  (Errors e = [] -> AlertValidationError_Error e = "") /\
  AlertValidationError_Error e = String.concat ";" (map Error (Errors e)) /\
  (forall e0 rest, Errors e = e0 :: rest ->
     AlertValidationError_Error e =
     Error e0 +:+ String.concat "" (map (fun x => ";" +:+ Error x) rest)).
Proof.
  unfold AlertValidationError_Error.
  destruct (Errors e) as [|e0 rest] eqn:E.
  - split; [reflexivity | split; [reflexivity | intros ? ? [=]]].
  - split; [intros [=] |].
    rewrite Error_loop. split.
    + change (map Error (e0 :: rest)) with (Error e0 :: map Error rest).
      rewrite concat_sep_cons, map_map. reflexivity.
    + intros ? ? [= <- <-]. reflexivity.
Qed.

(** ** The configuration-hash gauge value *)

Lemma byte_val_range (b : byte) : 0 <= byte_val b < 256.
Proof.
  unfold byte_val. pose proof (Strings.Byte.to_N_bounded b). lia.
Qed.

(** Below [2^k] nothing overlaps what was shifted left by [k] bits, so the
    bitwise or is the sum. *)
Lemma lor_shiftl_add (a b k : Z) :
  0 <= k -> 0 <= a < 2 ^ k -> 0 <= b ->
  Z.lor a (Z.shiftl b k) = a + b * 2 ^ k.
Proof.
  intros Hk Ha Hb.
  rewrite <- (Z.shiftl_mul_pow2 b k Hk).
  rewrite <- (Zbitwise.Z.add_lor_land a (Z.shiftl b k)).
  assert (Z.land a (Z.shiftl b k) = 0) as ->; [| lia].
  apply Z.bits_inj'. intros n Hn.
  rewrite Z.land_spec, Z.bits_0.
  destruct (Z_lt_le_dec n k) as [Hlt | Hge].
  - rewrite (Z.shiftl_spec_low b k n Hlt). apply andb_false_r.
  - assert (Z.testbit a n = false) as ->; [| reflexivity].
    destruct (Z.eq_dec a 0) as [-> | Hnz]; [apply Z.bits_0 |].
    apply Z.bits_above_log2; [lia |].
    apply Z.log2_lt_pow2; [lia |].
    apply Z.lt_le_trans with (2 ^ k); [lia |].
    apply Z.pow_le_mono_r; lia.
Qed.

Lemma uint64_shl_byte (b : byte) (k : Z) :
  0 <= k <= 56 -> uint64_shl (byte_val b) k = byte_val b * 2 ^ k.
Proof.
  intros Hk. unfold uint64_shl, wrap_uint64.
  rewrite Z.shiftl_mul_pow2 by lia.
  pose proof (byte_val_range b) as Hb.
  apply Z.mod_small. split; [apply Z.mul_nonneg_nonneg; lia |].
  apply Z.lt_le_trans with (256 * 2 ^ k).
  - apply Z.mul_lt_mono_pos_r; lia.
  - change 256 with (2 ^ 8). rewrite <- Z.pow_add_r by lia.
    apply Z.pow_le_mono_r; lia.
Qed.

(** What [binary.LittleEndian.Uint64] reads from 8 bytes is the number they
    spell. *)
Lemma LittleEndian_Uint64_le_uint (b0 b1 b2 b3 b4 b5 b6 b7 : byte) :
  LittleEndian_Uint64 [b0; b1; b2; b3; b4; b5; b6; b7] =
  Some (le_uint [b0; b1; b2; b3; b4; b5; b6; b7]).
Proof.
  unfold LittleEndian_Uint64. f_equal.
  rewrite !uint64_shl_byte by lia.
  pose proof (byte_val_range b0). pose proof (byte_val_range b1).
  pose proof (byte_val_range b2). pose proof (byte_val_range b3).
  pose proof (byte_val_range b4). pose proof (byte_val_range b5).
  pose proof (byte_val_range b6). pose proof (byte_val_range b7).
  rewrite <- !Z.shiftl_mul_pow2 by lia.
  rewrite (lor_shiftl_add (byte_val b0) _ 8) by lia.
  rewrite (lor_shiftl_add _ _ 16) by lia.
  rewrite (lor_shiftl_add _ _ 24) by lia.
  rewrite (lor_shiftl_add _ _ 32) by lia.
  rewrite (lor_shiftl_add _ _ 40) by lia.
  rewrite (lor_shiftl_add _ _ 48) by lia.
  rewrite (lor_shiftl_add _ _ 56) by lia.
  cbn [le_uint]. lia.
Qed.

Lemma le_uint_range (bs : bytes) : 0 <= le_uint bs < 256 ^ Z.of_nat (length bs).
Proof.
  induction bs as [|b bs IH].
  - simpl. lia.
  - cbn [le_uint length]. rewrite Nat2Z.inj_succ, Z.pow_succ_r by lia.
    pose proof (byte_val_range b). lia.
Qed.

(** *** Conversion of a small integer to [float64] is exact *)

Lemma digits2_pos_iter_xO (p k : positive) :
  digits2_pos (Pos.iter xO p k) = (digits2_pos p + k)%positive.
Proof.
  induction k as [|k IH] using Pos.peano_ind.
  - simpl. lia.
  - rewrite Pos.iter_succ. cbn [digits2_pos]. rewrite IH. lia.
Qed.

Lemma iter_xO_val (p k : positive) :
  Zpos (Pos.iter xO p k) = Zpos p * 2 ^ Zpos k.
Proof.
  induction k as [|k IH] using Pos.peano_ind.
  - simpl. lia.
  - rewrite Pos.iter_succ, (Pos2Z.inj_xO (Pos.iter xO p k)), IH, Pos2Z.inj_succ, Z.pow_succ_r by lia.
    lia.
Qed.

Lemma digits2_pos_lower (p : positive) : 2 ^ (Zpos (digits2_pos p) - 1) <= Zpos p.
Proof.
  induction p as [p IH | p IH |]; cbn [digits2_pos].
  - rewrite Pos2Z.inj_succ, (Pos2Z.inj_xI p).
    replace (Z.succ (Zpos (digits2_pos p)) - 1) with (Z.succ (Zpos (digits2_pos p) - 1)) by lia.
    rewrite Z.pow_succ_r by lia. lia.
  - rewrite Pos2Z.inj_succ, (Pos2Z.inj_xO p).
    replace (Z.succ (Zpos (digits2_pos p)) - 1) with (Z.succ (Zpos (digits2_pos p) - 1)) by lia.
    rewrite Z.pow_succ_r by lia. lia.
  - simpl. lia.
Qed.

Lemma digits2_pos_le_53 (p : positive) :
  Zpos p < 2 ^ 53 -> Zpos (digits2_pos p) <= 53.
Proof.
  intros Hp. destruct (Z_le_gt_dec (Zpos (digits2_pos p)) 53) as [H | H]; [exact H |].
  pose proof (digits2_pos_lower p) as Hl.
  assert (2 ^ 53 <= 2 ^ (Zpos (digits2_pos p) - 1)) by (apply Z.pow_le_mono_r; lia).
  lia.
Qed.

(** A mantissa of exactly 53 digits with an exponent in range is kept as it
    is: nothing is shifted out and nothing is rounded. *)
Lemma binary_round_aux_canonical (m : positive) (e : Z) :
  Zpos (digits2_pos m) = 53 -> -1074 <= e <= 971 ->
  binary_round_aux float64_prec float64_emax false (Zpos m) e loc_Exact =
  S754_finite false m e.
Proof.
  intros Hd He.
  assert (Hshift : forall l,
    shr_fexp float64_prec float64_emax (Zpos m) e l =
    (shr_record_of_loc (Zpos m) l, e)).
  { intros l. unfold shr_fexp, fexp, emin, float64_prec, float64_emax.
    cbn [Zdigits2]. rewrite Hd.
    replace (Z.max (53 + e - 53) (3 - 1024 - 53) - e) with 0 by lia.
    reflexivity. }
  unfold binary_round_aux. rewrite Hshift. cbn [shr_record_of_loc shr_m loc_of_shr_record round_nearest_even].
  rewrite Hshift. cbn [shr_record_of_loc shr_m].
  unfold float64_emax, float64_prec.
  destruct (Z.leb_spec e (1024 - 53)); [reflexivity | lia].
Qed.

Lemma float64_of_uint64_pos (p : positive) :
  Zpos p < 2 ^ 53 ->
  exists m e, float64_of_uint64 (Zpos p) = S754_finite false m e /\
              Zpos (digits2_pos m) = 53 /\ -52 <= e <= 0 /\
              Zpos m = Zpos p * 2 ^ (- e).
Proof.
  intros Hp. pose proof (digits2_pos_le_53 p Hp) as Hd.
  unfold float64_of_uint64, binary_normalize, binary_round, shl_align, fexp, emin,
    float64_prec, float64_emax.
  replace (Z.max (Zpos (digits2_pos p) + 0 - 53) (3 - 1024 - 53) - 0)
    with (Zpos (digits2_pos p) - 53) by lia.
  replace (Z.max (Zpos (digits2_pos p) + 0 - 53) (3 - 1024 - 53))
    with (Zpos (digits2_pos p) - 53) by lia.
  destruct (Zpos (digits2_pos p) - 53) as [|k|k] eqn:Hk; [| lia |].
  - exists p, 0. split; [| split; [lia | split; [lia | simpl; lia]]].
    apply (binary_round_aux_canonical p 0); lia.
  - exists (Pos.iter xO p k), (Zneg k).
    assert (Zpos (digits2_pos (Pos.iter xO p k)) = 53) as Hd'.
    { rewrite digits2_pos_iter_xO, Pos2Z.inj_add. lia. }
    split; [| split; [exact Hd' | split; [lia |]]].
    + apply (binary_round_aux_canonical _ (Zneg k)); [exact Hd' | lia].
    + rewrite iter_xO_val. reflexivity.
Qed.

Lemma float64_of_uint64_exact (v : Z) :
  0 <= v < 2 ^ 53 ->
  exists q, SF2Q (float64_of_uint64 v) = Some q /\ Qeq q (inject_Z v) /\
            valid_binary float64_prec float64_emax (float64_of_uint64 v) = true.
Proof.
  intros Hv. destruct v as [|p|p]; [| | lia].
  - exists (inject_Z 0). repeat split; reflexivity.
  - destruct (float64_of_uint64_pos p) as (m & e & -> & Hd & He & Hm); [lia |].
    eexists. split; [reflexivity |]. split.
    + cbn [cond_Zopp]. rewrite Hm, inject_Z_mult, Zpower_Qpower by lia.
      assert (Hinv : Qeq (Qpower (inject_Z 2) e) (Qinv (Qpower (inject_Z 2) (- e)))).
      { rewrite <- Qpower_opp. now rewrite Z.opp_involutive. }
      rewrite Hinv, <- Qmult_assoc, Qmult_inv_r, Qmult_1_r; [reflexivity |].
      apply Qpower_not_0. discriminate.
    + cbn [valid_binary]. unfold bounded, canonical_mantissa, fexp, emin,
        float64_prec, float64_emax.
      rewrite Hd. apply andb_true_intro. split.
      * apply Z.eqb_eq. lia.
      * apply Z.leb_le. lia.
Qed.

(** The two bytes that [copy] leaves at zero add nothing. *)
Lemma hashAsMetricValue_low_bytes (data : hash) :
  hashAsMetricValue data =
  Some (float64_of_uint64 (le_uint (take 6 (vec_to_list data)))).
Proof.
  unfold hashAsMetricValue.
  inv_vec data. intros b0 b1 b2 b3 b4 b5 b6 b7 b8 b9 b10 b11 b12 b13 b14 b15.
  cbn [vec_to_list take make_bytes replicate copy length drop app].
  rewrite LittleEndian_Uint64_le_uint. cbn [mbind option_bind].
  replace (le_uint [b0; b1; b2; b3; b4; b5; Byte.x00; Byte.x00])
    with (le_uint [b0; b1; b2; b3; b4; b5]); [reflexivity |].
  cbn [le_uint]. change (byte_val Byte.x00) with 0. lia.
Qed.

(** C8. For every 16-byte hash, [hashAsMetricValue] returns the [float64]
    conversion of the unsigned little-endian integer spelled by the first 6
    bytes, the other 10 bytes playing no part; that integer is non-negative
    and below [2^48], and the float is a valid binary64 number whose value is
    exactly that integer: nothing is lost to rounding. *)
Theorem hashAsMetricValue_exact (data : hash) :
  exists f q,
    hashAsMetricValue data = Some f /\
    f = float64_of_uint64 (le_uint (take 6 (vec_to_list data))) /\
    0 <= le_uint (take 6 (vec_to_list data)) < 2 ^ 48 /\
    SF2Q f = Some q /\
    Qeq q (inject_Z (le_uint (take 6 (vec_to_list data)))) /\
    valid_binary float64_prec float64_emax f = true.
Proof.
  assert (Hr : 0 <= le_uint (take 6 (vec_to_list data)) < 2 ^ 48).
  { pose proof (le_uint_range (take 6 (vec_to_list data))) as H.
    rewrite length_take, length_vec_to_list in H.
    change (Z.of_nat (6 `min` 16)) with 6 in H. change (256 ^ 6) with (2 ^ 48) in H.
    exact H. }
  destruct (float64_of_uint64_exact (le_uint (take 6 (vec_to_list data))))
    as (q & Hq & Heq & Hvalid); [lia |].
  exists (float64_of_uint64 (le_uint (take 6 (vec_to_list data)))), q.
  split; [apply hashAsMetricValue_low_bytes |].
  repeat split; solve [assumption | lia].
Qed.

(** ** Matcher usage of a route tree *)

(** Induction over a route tree: a property holds of a route when it holds
    of all its children. *)
Lemma Route_tree_ind (P : Route -> Prop) :
  (forall rcv ms mre m oms rs, Forall P rs -> P (Route.mk rcv ms mre m oms rs)) ->
  forall r, P r.
Proof.
  intros step. fix go 1. intros [rcv ms mre m oms rs]. apply step.
  induction rs as [|x l IH]; constructor; [apply go | exact IH].
Qed.

Lemma wrap_int_idem_l (a b : Z) : wrap_int (wrap_int a + b) = wrap_int (a + b).
Proof.
  unfold wrap_int.
  replace ((a + 2 ^ 63) mod 2 ^ 64 - 2 ^ 63 + b + 2 ^ 63)
    with ((a + 2 ^ 63) mod 2 ^ 64 + b) by lia.
  rewrite Zplus_mod_idemp_l. f_equal. f_equal. lia.
Qed.

Lemma int_add_assoc (a b c : Z) : int_add (int_add a b) c = int_add a (b + c).
Proof. unfold int_add. rewrite wrap_int_idem_l. f_equal. lia. Qed.

Lemma wrap_int_small (z : Z) : - 2 ^ 63 <= z < 2 ^ 63 -> wrap_int z = z.
Proof. intros H. unfold wrap_int. rewrite Z.mod_small; lia. Qed.

Lemma total_list_cons count r rs :
  total_list count (r :: rs) = total count r + total_list count rs.
Proof.
  unfold total_list, total. cbn [flat_map].
  rewrite map_app. generalize (map count (routes_of r)) as l.
  induction l as [|x l IH]; cbn [app fold_right]; [reflexivity | rewrite IH; lia].
Qed.

Lemma total_unfold count r :
  total count r = count r + total_list count (Route.Routes r).
Proof. destruct r. reflexivity. Qed.

Lemma usage_add_add amu m mre ma om m' mre' ma' om' :
  usage_add (usage_add amu m mre ma om) m' mre' ma' om' =
  usage_add amu (m + m') (mre + mre') (ma + ma') (om + om').
Proof. unfold usage_add. cbn. now rewrite !int_add_assoc. Qed.

Lemma aggregateRouteMatchers_children (rs : list Route) :
  Forall (fun r => forall amu,
            aggregateRouteMatchers r amu =
            usage_add amu (total count_Matchers r) (total count_MatchRE r)
                          (total count_Match r) (total count_ObjectMatchers r)) rs ->
  forall m mre ma om amu,
    fold_left (fun amu next => aggregateRouteMatchers next amu) rs
              (usage_add amu m mre ma om) =
    usage_add amu (m + total_list count_Matchers rs) (mre + total_list count_MatchRE rs)
                  (ma + total_list count_Match rs) (om + total_list count_ObjectMatchers rs).
Proof.
  induction 1 as [|r rs Hr _ IH]; intros m mre ma om amu.
  - cbn [fold_left]. unfold total_list. cbn. now rewrite !Z.add_0_r.
  - cbn [fold_left]. rewrite Hr, usage_add_add, IH, !total_list_cons.
    f_equal; lia.
Qed.

Lemma aggregateRouteMatchers_usage_add (r : Route) :
  forall amu,
    aggregateRouteMatchers r amu =
    usage_add amu (total count_Matchers r) (total count_MatchRE r)
                  (total count_Match r) (total count_ObjectMatchers r).
Proof.
  induction r as [rcv ms mre m oms rs IH] using Route_tree_ind. intros amu.
  cbn [aggregateRouteMatchers Route.Matchers Route.MatchRE Route.Match
       Route.ObjectMatchers Route.Routes].
  change (AggregateMatchersUsage.mk
            (int_add (AggregateMatchersUsage.Matchers amu) (len ms))
            (int_add (AggregateMatchersUsage.MatchRE amu) (len_map mre))
            (int_add (AggregateMatchersUsage.Match amu) (len_map m))
            (int_add (AggregateMatchersUsage.ObjectMatchers amu) (len oms)))
    with (usage_add amu (len ms) (len_map mre) (len_map m) (len oms)).
  rewrite (aggregateRouteMatchers_children rs IH).
  rewrite !total_unfold. reflexivity.
Qed.

(** C6. [aggregateRouteMatchers] adds to each of the four counters of the
    accumulator (with the wrap-around of Go's [int]) the sum, over the root
    and all descendant routes, of the number of matchers of that style, an
    exact sum as long as it fits an [int]; a root with 2 object matchers
    whose single child has 1 legacy match and 1 regex match gives
    ObjectMatchers 2, Match 1, MatchRE 1 and Matchers 0. *)
Theorem aggregateRouteMatchers_totals (r : Route) (amu : AggregateMatchersUsage) :
  aggregateRouteMatchers r amu =
    AggregateMatchersUsage.mk
      (int_add (AggregateMatchersUsage.Matchers amu) (total count_Matchers r))
      (int_add (AggregateMatchersUsage.MatchRE amu) (total count_MatchRE r))
      (int_add (AggregateMatchersUsage.Match amu) (total count_Match r))
      (int_add (AggregateMatchersUsage.ObjectMatchers amu) (total count_ObjectMatchers r))
  /\ (forall a t, - 2 ^ 63 <= a + t < 2 ^ 63 -> int_add a t = a + t)
  /\ (forall rcv rcv' om1 om2 k v k' v',
        aggregateRouteMatchers
          (Route.mk rcv [] ∅ ∅ [om1; om2]
             [Route.mk rcv' [] {[k' := v']} {[k := v]} [] []])
          AggregateMatchersUsage.zero =
        AggregateMatchersUsage.mk 0 1 1 2).
Proof.
  split; [apply aggregateRouteMatchers_usage_add |].
  split; [intros a t H; apply wrap_int_small; exact H |].
  intros. rewrite aggregateRouteMatchers_usage_add.
  unfold usage_add, total, count_Matchers, count_MatchRE, count_Match,
    count_ObjectMatchers, len, len_map.
  cbn [routes_of flat_map Route.Routes Route.Matchers Route.MatchRE Route.Match
       Route.ObjectMatchers app map fold_right length].
  rewrite !map_size_singleton, !map_size_empty. reflexivity.
Qed.


(** ** Matcher usage of the inhibit rules, and of a route's children *)

Lemma wrap_int_is_int (z : Z) : is_int (wrap_int z).
Proof.
  unfold is_int, wrap_int.
  pose proof (Z.mod_pos_bound (z + 2 ^ 63) (2 ^ 64) ltac:(lia)). lia.
Qed.

Lemma aggregateInhibitMatchers_wrapped (rules : list InhibitRule) :
  forall a b c om,
    aggregateInhibitMatchers rules
      (AggregateMatchersUsage.mk (wrap_int a) (wrap_int b) (wrap_int c) om) =
    AggregateMatchersUsage.mk
      (wrap_int (a + rules_total rule_Matchers rules))
      (wrap_int (b + rules_total rule_MatchRE rules))
      (wrap_int (c + rules_total rule_Match rules))
      om.
Proof.
  unfold aggregateInhibitMatchers.
  induction rules as [|r rules IH]; intros a b c om.
  - unfold rules_total. cbn. now rewrite !Z.add_0_r.
  - cbn [fold_left AggregateMatchersUsage.Matchers AggregateMatchersUsage.MatchRE
         AggregateMatchersUsage.Match AggregateMatchersUsage.ObjectMatchers].
    unfold int_add. rewrite !wrap_int_idem_l, IH.
    unfold rules_total, rule_Matchers, rule_MatchRE, rule_Match. cbn [map fold_right].
    f_equal; rewrite <- !Z.add_assoc, wrap_int_idem_l; reflexivity.
Qed.

(** X1. [aggregateInhibitMatchers] adds to the Matchers, MatchRE and Match
    counters, for all inhibit rules together, the number of source and of
    target matchers of that style (as Go's [int] adds), and leaves the
    ObjectMatchers counter as it is: inhibit rules have no object matchers.
    With no rule the usage record is unchanged. *)
Theorem aggregateInhibitMatchers_totals
    (rules : list InhibitRule) (amu : AggregateMatchersUsage) :
  is_int (AggregateMatchersUsage.Matchers amu) ->
  is_int (AggregateMatchersUsage.MatchRE amu) ->
  is_int (AggregateMatchersUsage.Match amu) ->
  aggregateInhibitMatchers rules amu =
    AggregateMatchersUsage.mk
      (int_add (AggregateMatchersUsage.Matchers amu) (rules_total rule_Matchers rules))
      (int_add (AggregateMatchersUsage.MatchRE amu) (rules_total rule_MatchRE rules))
      (int_add (AggregateMatchersUsage.Match amu) (rules_total rule_Match rules))
      (AggregateMatchersUsage.ObjectMatchers amu) /\
  aggregateInhibitMatchers [] amu = amu.
Proof.
  intros Hm Hre Hma. split; [| reflexivity].
  destruct amu as [m mre ma om]. cbn in Hm, Hre, Hma |- *.
  rewrite <- (wrap_int_small m Hm) at 1.
  rewrite <- (wrap_int_small mre Hre) at 1.
  rewrite <- (wrap_int_small ma Hma) at 1.
  apply aggregateInhibitMatchers_wrapped.
Qed.

Lemma aggregateInhibitMatchers_totals_witness :
  aggregateInhibitMatchers
    [Build_InhibitRule {[ "alertname" := "NodeDown" ]} ∅
       [Build_Matcher MatchEqual "severity" "critical"]
       {[ "severity" := "warning" ]} {[ "instance" := ".+" ]} []]
    AggregateMatchersUsage.zero =
  AggregateMatchersUsage.mk 1 1 2 0.
Proof.
  destruct (aggregateInhibitMatchers_totals
              [Build_InhibitRule {[ "alertname" := "NodeDown" ]} ∅
                 [Build_Matcher MatchEqual "severity" "critical"]
                 {[ "severity" := "warning" ]} {[ "instance" := ".+" ]} []]
              AggregateMatchersUsage.zero) as [Hsum _];
    [unfold is_int, AggregateMatchersUsage.zero; simpl; lia.. |].
  rewrite Hsum. vm_compute. reflexivity.
Defined.

Lemma total_list_sum (count : Route -> Z) (rs : list Route) :
  total_list count rs = fold_right Z.add 0 (map (total count) rs).
Proof.
  induction rs as [|r rs IH]; [reflexivity |].
  rewrite total_list_cons, IH. reflexivity.
Qed.

Lemma sum_Permutation (l l' : list Z) :
  Permutation l l' -> fold_right Z.add 0 l = fold_right Z.add 0 l'.
Proof.
  induction 1 as [| x l l' _ IH | x y l | l l' l'' _ IH1 _ IH2]; cbn [fold_right]; lia.
Qed.

Lemma total_list_Permutation (count : Route -> Z) (rs rs' : list Route) :
  Permutation rs rs' -> total_list count rs = total_list count rs'.
Proof.
  intros HP. rewrite !total_list_sum. apply sum_Permutation, Permutation_map, HP.
Qed.

(** X2. The usage counted for a route does not depend on the order of its
    child routes: any rearrangement of [Routes] gives the same four
    counters. *)
Theorem aggregateRouteMatchers_child_order
    (rcv : string) (ms : list Matcher) (mre m : gmap string string) (oms : list Matcher)
    (rs rs' : list Route) (amu : AggregateMatchersUsage) :
  Permutation rs rs' ->
  aggregateRouteMatchers (Route.mk rcv ms mre m oms rs) amu =
  aggregateRouteMatchers (Route.mk rcv ms mre m oms rs') amu.
Proof.
  intros HP. rewrite !aggregateRouteMatchers_usage_add, !total_unfold.
  cbn [Route.Routes].
  rewrite (total_list_Permutation count_Matchers rs rs' HP),
          (total_list_Permutation count_MatchRE rs rs' HP),
          (total_list_Permutation count_Match rs rs' HP),
          (total_list_Permutation count_ObjectMatchers rs rs' HP).
  reflexivity.
Qed.

Lemma aggregateRouteMatchers_child_order_witness :
  aggregateRouteMatchers
    (Route.mk "root" [] ∅ ∅ []
       [Route.mk "a" [] ∅ {[ "team" := "a" ]} [] [];
        Route.mk "b" [Build_Matcher MatchEqual "team" "b"] ∅ ∅ [] []])
    AggregateMatchersUsage.zero =
  aggregateRouteMatchers
    (Route.mk "root" [] ∅ ∅ []
       [Route.mk "b" [Build_Matcher MatchEqual "team" "b"] ∅ ∅ [] [];
        Route.mk "a" [] ∅ {[ "team" := "a" ]} [] []])
    AggregateMatchersUsage.zero.
Proof.
  apply (aggregateRouteMatchers_child_order "root" [] ∅ ∅ []).
  apply perm_swap.
Defined.

(** ** The configuration-hash gauge value, again *)

Lemma byte_val_inj (b1 b2 : byte) : byte_val b1 = byte_val b2 -> b1 = b2.
Proof.
  unfold byte_val. intros H. apply N2Z.inj in H.
  pose proof (Strings.Byte.of_to_N b1) as H1. rewrite H, Strings.Byte.of_to_N in H1.
  congruence.
Qed.

Lemma le_uint_inj (bs1 bs2 : bytes) :
  length bs1 = length bs2 -> le_uint bs1 = le_uint bs2 -> bs1 = bs2.
Proof.
  revert bs2. induction bs1 as [|b1 bs1 IH]; intros [|b2 bs2]; cbn [length le_uint];
    try discriminate; [reflexivity |].
  intros [= Hl] H.
  pose proof (byte_val_range b1). pose proof (byte_val_range b2).
  assert (byte_val b1 = byte_val b2 /\ le_uint bs1 = le_uint bs2) as [Hb Hr] by lia.
  f_equal; [apply byte_val_inj, Hb | apply IH; assumption].
Qed.

Lemma float64_of_uint64_inj (u v : Z) :
  0 <= u < 2 ^ 53 -> 0 <= v < 2 ^ 53 ->
  float64_of_uint64 u = float64_of_uint64 v -> u = v.
Proof.
  intros Hu Hv Heq.
  destruct (float64_of_uint64_exact u Hu) as (q & Hq & Hqu & _).
  destruct (float64_of_uint64_exact v Hv) as (q' & Hq' & Hqv & _).
  rewrite Heq, Hq' in Hq. injection Hq as ->.
  apply inject_Z_injective. rewrite <- Hqu, <- Hqv. reflexivity.
Qed.

(** X3. Two hashes give the same configuration-hash gauge value exactly
    when they agree on their first six bytes: on those 48 bits the value
    loses nothing, and the other ten bytes play no part. *)
Theorem hashAsMetricValue_same_iff (d1 d2 : hash) :
  hashAsMetricValue d1 = hashAsMetricValue d2 <->
  take 6 (vec_to_list d1) = take 6 (vec_to_list d2).
Proof.
  rewrite !hashAsMetricValue_low_bytes. split.
  - intros [= Heq].
    assert (Hr : forall d : hash, 0 <= le_uint (take 6 (vec_to_list d)) < 2 ^ 53).
    { intros d. pose proof (le_uint_range (take 6 (vec_to_list d))) as H.
      rewrite length_take, length_vec_to_list in H.
      change (Z.of_nat (6 `min` 16)) with 6 in H. lia. }
    apply le_uint_inj.
    + rewrite !length_take, !length_vec_to_list. reflexivity.
    + apply float64_of_uint64_inj; [apply Hr | apply Hr | exact Heq].
  - intros ->. reflexivity.
Qed.

(** ** Running a computation step by step *)

Section Run.

Context {G FS DB Ctx : Type} `{!Base.Ops G FS} `{!AlertingStore.Ops Ctx DB} (ext : Ext.t FS).

Local Abbreviation World := (@World G FS DB Ctx).
Local Abbreviation M := (@M G FS DB Ctx).

Ltac world_norm :=
  cbn [set_am set_fs set_heap set_calls set_Base set_ConfigMetrics set_Store
       am fs heap clock calls Base ConfigMetrics Settings Store orgID].

Lemma bind_run {A B} (m : M A) (k : A -> M B) (w : World) :
  (m ≫= k) w = match m w with Ok a w' => k a w' | Panic => Panic end.
Proof. reflexivity. Qed.

Lemma mret_run {A} (a : A) (w : World) : (mret a : M A) w = Ok a w.
Proof. reflexivity. Qed.

Lemma get_run (w : World) : get w = Ok w w.
Proof. reflexivity. Qed.

Lemma modify_run (f : World -> World) (w : World) : modify f w = Ok tt (f w).
Proof. reflexivity. Qed.

Lemma log_run (c : Call) (w : World) : log c w = Ok tt (set_calls (calls w ++ [c]) w).
Proof. reflexivity. Qed.

Lemma deref_run (p : ptr) (c : PostableUserConfig) (w : World) :
  heap w !! p = Some c -> deref p w = Ok c w.
Proof. intros Hp. unfold deref. rewrite bind_run, get_run, Hp. reflexivity. Qed.

Lemma deref_panic (p : ptr) (w : World) :
  heap w !! p = None -> deref p w = Panic.
Proof. intros Hp. unfold deref. rewrite bind_run, get_run, Hp. reflexivity. Qed.

Lemma assign_run (p : ptr) (c0 c : PostableUserConfig) (w : World) :
  heap w !! p = Some c0 ->
  assign p c w = Ok tt (set_heap (<[p := c]> (heap w)) w).
Proof.
  intros Hp. unfold assign. rewrite bind_run, (deref_run p c0 w Hp). reflexivity.
Qed.

Lemma heap_lookup_assign (p : ptr) (c0 c : PostableUserConfig) (h : list PostableUserConfig) :
  h !! p = Some c0 -> <[p := c]> h !! p = Some c.
Proof. intros Hp. apply list_lookup_insert_eq. eapply lookup_lt_Some, Hp. Qed.

Lemma md5_Sum_run (b : bytes) (w : World) :
  md5_Sum ext b w = Ok (Ext.md5_Sum ext b) (set_calls (calls w ++ [call_md5_Sum b]) w).
Proof. reflexivity. Qed.

Lemma json_Marshal_am_run (c : PostableApiAlertingConfig) (w : World) :
  json_Marshal_am ext c w =
  Ok (Ext.json_Marshal_am ext c) (set_calls (calls w ++ [call_json_Marshal_am c]) w).
Proof. reflexivity. Qed.

Lemma json_Marshal_user_run (p : ptr) (c : PostableUserConfig) (w : World) :
  heap w !! p = Some c ->
  json_Marshal_user ext p w =
  Ok (Ext.json_Marshal_user ext c) (set_calls (calls w ++ [call_json_Marshal_user c]) w).
Proof.
  intros Hp. unfold json_Marshal_user. rewrite bind_run, (deref_run p c w Hp). reflexivity.
Qed.

Lemma Base_ConfigHash_run (w : World) :
  Base_ConfigHash w = Ok (Base.ConfigHash (Base (am w))) w.
Proof. reflexivity. Qed.

Lemma Base_WorkingDirectory_run (w : World) :
  Base_WorkingDirectory w = Ok (Base.WorkingDirectory (Base (am w))) w.
Proof. reflexivity. Qed.

Lemma PersistTemplates_run (p : ptr) (path : string) (c : PostableUserConfig) (w : World) fs' r :
  heap w !! p = Some c ->
  Ext.PersistTemplates ext c path (fs w) = (fs', r) ->
  PersistTemplates ext p path w =
  Ok r (set_fs fs' (set_calls (calls w ++ [call_PersistTemplates c path]) w)).
Proof.
  intros Hp Hr. unfold PersistTemplates.
  rewrite bind_run, (deref_run p c w Hp), bind_run, log_run, bind_run, get_run.
  cbn [fs set_calls]. rewrite Hr. reflexivity.
Qed.

Lemma Base_ApplyConfig_run (c : AlertingConfiguration) (w : World) g err :
  Base.ApplyConfig c (fs w) (Base (am w)) = (g, err) ->
  Base_ApplyConfig c w =
  Ok err (set_am (set_Base g (am w)) (set_calls (calls w ++ [call_Base_ApplyConfig c]) w)).
Proof.
  intros Hr. unfold Base_ApplyConfig.
  rewrite bind_run, log_run, bind_run, get_run. cbn [fs am set_calls]. rewrite Hr.
  reflexivity.
Qed.

Lemma Gauge_Set_run (g : Gauge) (v : float64) (w : World) :
  Gauge_Set g v w =
  Ok tt (set_am (set_ConfigMetrics (Gauge_Set_value g v (ConfigMetrics (am w))) (am w))
           (set_calls (calls w ++ [call_Gauge_Set g v]) w)).
Proof. reflexivity. Qed.

Lemma Store_MarkConfigurationAsApplied_run ctx cmd (w : World) db err :
  AlertingStore.MarkConfigurationAsApplied ctx cmd (Store (am w)) = (db, err) ->
  Store_MarkConfigurationAsApplied ctx cmd w =
  Ok err (set_am (set_Store db (am w))
            (set_calls (calls w ++ [call_MarkConfigurationAsApplied ctx cmd]) w)).
Proof.
  intros Hr. unfold Store_MarkConfigurationAsApplied.
  rewrite bind_run, log_run, bind_run, get_run. cbn [am set_calls]. rewrite Hr.
  reflexivity.
Qed.

Ltac mrun1 :=
  first [ rewrite bind_run | rewrite mret_run | rewrite get_run | rewrite modify_run
        | rewrite log_run | rewrite Gauge_Set_run | rewrite md5_Sum_run
        | rewrite json_Marshal_am_run | rewrite Base_ConfigHash_run
        | rewrite Base_WorkingDirectory_run ].
Ltac mrun := repeat (mrun1; world_norm).

Lemma hashAsMetricValue_total (h : hash) : exists v, hashAsMetricValue h = Some v.
Proof. eexists. apply hashAsMetricValue_low_bytes. Qed.

(** [updateConfigMetrics] sets the five gauges and nothing else. *)
Lemma updateConfigMetrics_run (p : ptr) (c : PostableUserConfig) (w : World) :
  heap w !! p = Some c ->
  exists v,
    hashAsMetricValue (Base.ConfigHash (Base (am w))) = Some v /\
    updateConfigMetrics p w =
    Ok tt (mk_World
             (set_ConfigMetrics
                (apply_updates (metrics_updates (orgID (am w)) c v) (ConfigMetrics (am w)))
                (am w))
             (fs w) (heap w) (clock w)
             (calls w ++ calls_of_updates (metrics_updates (orgID (am w)) c v))).
Proof.
  intros Hp. destruct (hashAsMetricValue_total (Base.ConfigHash (Base (am w)))) as [v Hv].
  exists v. split; [exact Hv |].
  unfold updateConfigMetrics.
  rewrite bind_run, (deref_run p c w Hp).
  mrun. rewrite Hv. mrun.
  unfold metrics_updates, calls_of_updates, apply_updates, config_usage.
  cbn [map fold_left fst snd]. rewrite <- !app_assoc. reflexivity.
Qed.


(** ** The ways through [applyConfig] *)

(** The raw bytes [applyConfig] goes on with: the ones it was given, or
    else the serialized [cfg.AlertmanagerConfig]; and the call this takes. *)
Lemma applyConfig_paths (cfg : ptr) (rawConfig : option bytes)
      (c : PostableUserConfig) (w : World) :
  heap w !! cfg = Some c ->
  let enc := match rawConfig with
             | None => Ext.json_Marshal_am ext (PostableUserConfig.AlertmanagerConfig c)
             | Some raw => inr raw
             end in
  let pre := match rawConfig with
             | None => [call_json_Marshal_am (PostableUserConfig.AlertmanagerConfig c)]
             | Some _ => []
             end in
  let c1 := with_default_template ext c in
  let path := Base.WorkingDirectory (Base (am w)) in
  match enc with
  | inl err =>
      applyConfig ext cfg rawConfig w = Ok (false, Some err) (set_calls (calls w ++ pre) w)
  | inr raw =>
      let '(fs', (paths, templatesChanged, perr)) := Ext.PersistTemplates ext c1 path (fs w) in
      let seen := calls w ++ pre ++ [call_md5_Sum raw; call_PersistTemplates c1 path] in
      match perr with
      | Some err =>
          applyConfig ext cfg rawConfig w =
          Ok (false, Some err)
             (mk_World (am w) fs' (<[cfg := c1]> (heap w)) (clock w) seen)
      | None =>
          let c2 := with_Templates paths c1 in
          let heap2 := <[cfg := c2]> (<[cfg := c1]> (heap w)) in
          if negb (bool_decide (Base.ConfigHash (Base (am w)) ≠ Ext.md5_Sum ext raw))
             && negb templatesChanged
          then
            applyConfig ext cfg rawConfig w =
            Ok (false, None)
               (mk_World (am w) fs' heap2 (clock w)
                  (seen ++ [call_Debug "Neither config nor template have changed, skipping configuration sync."]))
          else
            let ac := alerting_configuration ext raw c2 in
            let '(g, aerr) := Base.ApplyConfig ac fs' (Base (am w)) in
            match aerr with
            | Some err =>
                applyConfig ext cfg rawConfig w =
                Ok (false, Some err)
                   (mk_World (set_Base g (am w)) fs' heap2 (clock w)
                      (seen ++ [call_Base_ApplyConfig ac]))
            | None =>
                exists v,
                  hashAsMetricValue (Base.ConfigHash g) = Some v /\
                  applyConfig ext cfg rawConfig w =
                  Ok (true, None)
                     (mk_World
                        (set_ConfigMetrics
                           (apply_updates (metrics_updates (orgID (am w)) c2 v)
                              (ConfigMetrics (am w)))
                           (set_Base g (am w)))
                        fs' heap2 (clock w)
                        (seen ++ [call_Base_ApplyConfig ac]
                              ++ calls_of_updates (metrics_updates (orgID (am w)) c2 v)))
            end
      end
  end.
Proof.
  intros Hc. cbv zeta.
  unfold applyConfig.
  rewrite bind_run.
  assert (Hfirst :
    (match rawConfig with
     | None => c0 ← deref cfg; json_Marshal_am ext (PostableUserConfig.AlertmanagerConfig c0)
     | Some raw => mret (inr raw)
     end : M (error + bytes)) w =
    Ok (match rawConfig with
        | None => Ext.json_Marshal_am ext (PostableUserConfig.AlertmanagerConfig c)
        | Some raw => inr raw
        end)
       (set_calls (calls w ++ match rawConfig with
                              | None => [call_json_Marshal_am (PostableUserConfig.AlertmanagerConfig c)]
                              | Some _ => []
                              end) w)).
  { destruct rawConfig as [raw |].
    - rewrite mret_run. unfold set_calls. rewrite app_nil_r. destruct w; reflexivity.
    - rewrite bind_run, (deref_run cfg c w Hc), json_Marshal_am_run. reflexivity. }
  rewrite Hfirst. clear Hfirst.
  set (pre := match rawConfig with None => _ | Some _ => [] end).
  destruct (match rawConfig with None => _ | Some raw => inr raw end) as [err | raw];
    [mrun; reflexivity |].
  mrun.
  rewrite (deref_run cfg c) by exact Hc. mrun.
  erewrite assign_run by (world_norm; exact Hc). mrun.
  fold (with_default_template ext c).
  destruct (Ext.PersistTemplates ext (with_default_template ext c)
              (Base.WorkingDirectory (Base (am w))) (fs w))
    as [fs' [[paths templatesChanged] perr]] eqn:Hpersist.
  erewrite PersistTemplates_run;
    [| world_norm; eapply heap_lookup_assign, Hc | world_norm; exact Hpersist].
  world_norm.
  destruct perr as [err |].
  { mrun. rewrite <- !app_assoc. reflexivity. }
  mrun.
  erewrite deref_run by (world_norm; eapply heap_lookup_assign, Hc). mrun.
  erewrite assign_run by (world_norm; eapply heap_lookup_assign, Hc). mrun.
  fold (with_Templates paths (with_default_template ext c)).
  destruct (negb (bool_decide (Base.ConfigHash (Base (am w)) ≠ Ext.md5_Sum ext raw))
            && negb templatesChanged).
  { unfold logger_Debug. mrun. rewrite <- !app_assoc. reflexivity. }
  mrun.
  erewrite deref_run by (world_norm; eapply heap_lookup_assign, heap_lookup_assign, Hc). mrun.
  fold (alerting_configuration ext raw (with_Templates paths (with_default_template ext c))).
  destruct (Base.ApplyConfig
              (alerting_configuration ext raw (with_Templates paths (with_default_template ext c)))
              fs' (Base (am w))) as [g aerr] eqn:Happly.
  erewrite Base_ApplyConfig_run by (world_norm; exact Happly). world_norm.
  destruct aerr as [err |].
  { mrun. rewrite <- !app_assoc. reflexivity. }
  mrun.
  match goal with
  | |- context [updateConfigMetrics cfg ?w1] =>
      destruct (updateConfigMetrics_run cfg
                  (with_Templates paths (with_default_template ext c)) w1) as (v & Hv & Hrun);
        [world_norm; eapply heap_lookup_assign, heap_lookup_assign, Hc |]
  end.
  exists v. split; [exact Hv |].
  rewrite Hrun. mrun. world_norm. rewrite <- !app_assoc. reflexivity.
Qed.

Lemma applyConfig_panic (cfg : ptr) (rawConfig : option bytes) (w : World) :
  heap w !! cfg = None -> applyConfig ext cfg rawConfig w = Panic.
Proof.
  intros Hc. unfold applyConfig. destruct rawConfig as [raw |].
  - mrun. rewrite deref_panic by (world_norm; exact Hc). reflexivity.
  - rewrite !bind_run, deref_panic by exact Hc. reflexivity.
Qed.

(** C2. When the digest of the raw bytes given to [applyConfig] is the
    active configuration hash and template persistence reports no change,
    [applyConfig] returns (false, nil); the Alertmanager (its embedded
    Alertmanager, its gauges, its store) is as it was; the only collaborators
    called are [md5.Sum], [PersistTemplates] and the debug log, so neither
    [Base.ApplyConfig] nor a gauge is touched; and applying the same bytes
    again, templates still unchanged, is again such a no-op. *)
Theorem applyConfig_unchanged_is_noop
    (cfg : ptr) (raw : bytes) (c : PostableUserConfig) (w : World)
    (fs' : FS) (paths : list string) :
  heap w !! cfg = Some c ->
  Ext.md5_Sum ext raw = Base.ConfigHash (Base (am w)) ->
  Ext.PersistTemplates ext (with_default_template ext c)
    (Base.WorkingDirectory (Base (am w))) (fs w) = (fs', (paths, false, None)) ->
  exists w' c',
    applyConfig ext cfg (Some raw) w = Ok (false, None) w' /\
    am w' = am w /\
    calls w' =
      calls w ++
      [call_md5_Sum raw;
       call_PersistTemplates (with_default_template ext c)
         (Base.WorkingDirectory (Base (am w)));
       call_Debug "Neither config nor template have changed, skipping configuration sync."] /\
    Forall (fun k => is_Base_ApplyConfig k = false /\ is_Gauge_Set k = false)
           (drop (length (calls w)) (calls w')) /\
    heap w' !! cfg = Some c' /\
    (forall fs'' paths',
       Ext.PersistTemplates ext (with_default_template ext c')
         (Base.WorkingDirectory (Base (am w))) fs' = (fs'', (paths', false, None)) ->
       exists w'',
         applyConfig ext cfg (Some raw) w' = Ok (false, None) w'' /\
         am w'' = am w /\
         Forall (fun k => is_Base_ApplyConfig k = false /\ is_Gauge_Set k = false)
                (drop (length (calls w')) (calls w''))).
Proof.
  intros Hc Hsum Hpersist.
  assert (Hstep : forall (w0 : World) c0 f0 p0,
    heap w0 !! cfg = Some c0 ->
    Ext.md5_Sum ext raw = Base.ConfigHash (Base (am w0)) ->
    Ext.PersistTemplates ext (with_default_template ext c0)
      (Base.WorkingDirectory (Base (am w0))) (fs w0) = (f0, (p0, false, None)) ->
    applyConfig ext cfg (Some raw) w0 =
    Ok (false, None)
       (mk_World (am w0) f0
          (<[cfg := with_Templates p0 (with_default_template ext c0)]>
             (<[cfg := with_default_template ext c0]> (heap w0)))
          (clock w0)
          (calls w0 ++
           [call_md5_Sum raw;
            call_PersistTemplates (with_default_template ext c0)
              (Base.WorkingDirectory (Base (am w0)));
            call_Debug "Neither config nor template have changed, skipping configuration sync."]))).
  { intros w0 c0 f0 p0 H0c H0sum H0persist.
    pose proof (applyConfig_paths cfg (Some raw) c0 w0 H0c) as Hpaths.
    cbv zeta in Hpaths. rewrite H0persist in Hpaths.
    rewrite bool_decide_eq_false_2 in Hpaths by (intros Hne; apply Hne; symmetry; exact H0sum).
    cbn [negb andb app] in Hpaths. rewrite Hpaths, <- app_assoc. reflexivity. }
  assert (Hnew : forall (l : list (@Call Ctx)) a b d,
    Forall (fun k => is_Base_ApplyConfig k = false /\ is_Gauge_Set k = false)
      (drop (length l) (l ++ [call_md5_Sum a; call_PersistTemplates b d; call_Debug
        "Neither config nor template have changed, skipping configuration sync."]))).
  { intros l a b d. rewrite drop_app_length. repeat constructor. }
  eexists _, (with_Templates paths (with_default_template ext c)).
  split; [apply (Hstep w c fs' paths Hc Hsum Hpersist) |].
  cbn [am calls heap].
  split; [reflexivity |]. split; [reflexivity |]. split; [apply Hnew |].
  split; [eapply heap_lookup_assign, heap_lookup_assign, Hc |].
  intros fs'' paths' Hagain.
  eexists. split.
  - apply Hstep; cbn [am fs heap calls];
      [eapply heap_lookup_assign, heap_lookup_assign, Hc | exact Hsum | exact Hagain].
  - cbn [am calls]. split; [reflexivity | apply Hnew].
Qed.


Lemma applyAndMarkConfig_run (ctx : Ctx) (hash : string) (cfg : ptr)
      (rawConfig : option bytes) (w : World) :
  applyAndMarkConfig ext ctx hash cfg rawConfig w =
  match applyConfig ext cfg rawConfig w with
  | Ok (_, Some err) w' => Ok (Some err) w'
  | Ok (true, None) w' =>
      Store_MarkConfigurationAsApplied ctx
        (MarkConfigurationAsAppliedCmd.mk (orgID (am w')) hash) w'
  | Ok (false, None) w' => Ok None w'
  | Panic => Panic
  end.
Proof.
  unfold applyAndMarkConfig. rewrite bind_run.
  destruct (applyConfig ext cfg rawConfig w) as [[[] [err |]] w' |]; reflexivity.
Qed.

Lemma Forall_calls_of_updates (P : @Call Ctx -> Prop) (us : list (Gauge * float64)) :
  (forall g v, P (call_Gauge_Set g v)) -> Forall P (calls_of_updates us).
Proof.
  intros HP. unfold calls_of_updates. induction us as [|u us IH]; constructor; auto.
Qed.

(** C3, as the code has it.  Whichever stage of [applyConfig] fails, it
    returns false with that stage's error, no gauge is set,
    [MarkConfigurationAsApplied] is not called, and [applyAndMarkConfig]
    hands the same error on without marking.  What was done before the
    failure is not undone.  When serializing fails, nothing else happened.
    When persisting the templates fails, the embedded Alertmanager was not
    called and is as it was, but the caller's object already holds the
    default template and the files are as [PersistTemplates] left them.
    When [Base.ApplyConfig] fails, the caller's object also lists the
    persisted paths, the files are the persisted ones, and the embedded
    Alertmanager is in the state that failed call left it in.  An error
    never comes with true. *)
Theorem applyConfig_failure_is_clean
    (ctx : Ctx) (hash : string) (cfg : ptr) (rawConfig : option bytes)
    (c : PostableUserConfig) (w : World) (err : error) :
  heap w !! cfg = Some c ->
  (rawConfig = None ->
   Ext.json_Marshal_am ext (PostableUserConfig.AlertmanagerConfig c) = inl err ->
   exists w',
     applyConfig ext cfg rawConfig w = Ok (false, Some err) w' /\
     applyAndMarkConfig ext ctx hash cfg rawConfig w = Ok (Some err) w' /\
     am w' = am w /\ fs w' = fs w /\ heap w' = heap w /\
     calls w' = calls w ++ [call_json_Marshal_am (PostableUserConfig.AlertmanagerConfig c)]) /\
  (forall raw fs' paths templatesChanged,
     match rawConfig with
     | None => Ext.json_Marshal_am ext (PostableUserConfig.AlertmanagerConfig c)
     | Some raw => inr raw
     end = inr raw ->
     Ext.PersistTemplates ext (with_default_template ext c)
       (Base.WorkingDirectory (Base (am w))) (fs w) =
       (fs', (paths, templatesChanged, Some err)) ->
     exists w',
       applyConfig ext cfg rawConfig w = Ok (false, Some err) w' /\
       applyAndMarkConfig ext ctx hash cfg rawConfig w = Ok (Some err) w' /\
       am w' = am w /\
       fs w' = fs' /\
       heap w' !! cfg = Some (with_default_template ext c) /\
       calls w' =
         calls w ++
         match rawConfig with
         | None => [call_json_Marshal_am (PostableUserConfig.AlertmanagerConfig c)]
         | Some _ => []
         end ++
         [call_md5_Sum raw;
          call_PersistTemplates (with_default_template ext c)
            (Base.WorkingDirectory (Base (am w)))]) /\
  (forall raw fs' paths templatesChanged g,
     match rawConfig with
     | None => Ext.json_Marshal_am ext (PostableUserConfig.AlertmanagerConfig c)
     | Some raw => inr raw
     end = inr raw ->
     Ext.PersistTemplates ext (with_default_template ext c)
       (Base.WorkingDirectory (Base (am w))) (fs w) =
       (fs', (paths, templatesChanged, None)) ->
     Base.ConfigHash (Base (am w)) ≠ Ext.md5_Sum ext raw \/ templatesChanged = true ->
     Base.ApplyConfig
       (alerting_configuration ext raw (with_Templates paths (with_default_template ext c)))
       fs' (Base (am w)) = (g, Some err) ->
     exists w',
       applyConfig ext cfg rawConfig w = Ok (false, Some err) w' /\
       applyAndMarkConfig ext ctx hash cfg rawConfig w = Ok (Some err) w' /\
       Base (am w') = g /\
       ConfigMetrics (am w') = ConfigMetrics (am w) /\
       Store (am w') = Store (am w) /\
       fs w' = fs' /\
       heap w' !! cfg = Some (with_Templates paths (with_default_template ext c)) /\
       calls w' =
         calls w ++
         match rawConfig with
         | None => [call_json_Marshal_am (PostableUserConfig.AlertmanagerConfig c)]
         | Some _ => []
         end ++
         [call_md5_Sum raw;
          call_PersistTemplates (with_default_template ext c)
            (Base.WorkingDirectory (Base (am w)));
          call_Base_ApplyConfig
            (alerting_configuration ext raw
               (with_Templates paths (with_default_template ext c)))]) /\
  (forall changed e w',
     applyConfig ext cfg rawConfig w = Ok (changed, Some e) w' -> changed = false).
Proof.
  intros Hc.
  pose proof (applyConfig_paths cfg rawConfig c w Hc) as Hp. cbv zeta in Hp.
  assert (Hmark : forall e (w' : World),
    applyConfig ext cfg rawConfig w = Ok (false, Some e) w' ->
    applyAndMarkConfig ext ctx hash cfg rawConfig w = Ok (Some e) w')
    by (intros e w' Hrun; rewrite applyAndMarkConfig_run, Hrun; reflexivity).
  split; [| split; [| split]].
  - (* serializing fails *)
    intros -> Henc. rewrite Henc in Hp.
    eexists. split; [exact Hp |]. split; [apply Hmark, Hp |].
    cbn [am fs heap calls set_calls]. repeat split; reflexivity.
  - (* persisting the templates fails *)
    intros raw fs' paths templatesChanged Henc Hpersist.
    rewrite Henc, Hpersist in Hp.
    eexists. split; [exact Hp |]. split; [apply Hmark, Hp |].
    cbn [am fs heap calls].
    split; [reflexivity |]. split; [reflexivity |].
    split; [eapply heap_lookup_assign, Hc | reflexivity].
  - (* Base.ApplyConfig fails *)
    intros raw fs' paths templatesChanged g Henc Hpersist Hchanged Happly.
    rewrite Henc, Hpersist in Hp.
    assert (Hgo : negb (bool_decide (Base.ConfigHash (Base (am w)) ≠ Ext.md5_Sum ext raw))
                  && negb templatesChanged = false).
    { destruct Hchanged as [Hne | ->]; [| apply andb_false_r].
      rewrite bool_decide_eq_true_2 by exact Hne. reflexivity. }
    rewrite Hgo, Happly in Hp. rewrite <- !app_assoc in Hp.
    eexists. split; [exact Hp |]. split; [apply Hmark, Hp |].
    cbn [am fs heap calls Base ConfigMetrics Store set_Base].
    repeat (split; [reflexivity |]).
    split; [eapply heap_lookup_assign, heap_lookup_assign, Hc | reflexivity].
  - (* an error never comes with true *)
    intros changed e w' Hrun.
    destruct (match rawConfig with
              | None => Ext.json_Marshal_am ext (PostableUserConfig.AlertmanagerConfig c)
              | Some raw => inr raw
              end) as [e0 | raw].
    { rewrite Hp in Hrun. injection Hrun as <- _ _. reflexivity. }
    destruct (Ext.PersistTemplates ext (with_default_template ext c)
                (Base.WorkingDirectory (Base (am w))) (fs w))
      as [fs' [[paths templatesChanged] [perr |]]].
    { rewrite Hp in Hrun. injection Hrun as <- _ _. reflexivity. }
    destruct (negb (bool_decide (Base.ConfigHash (Base (am w)) ≠ Ext.md5_Sum ext raw))
              && negb templatesChanged);
      [rewrite Hp in Hrun; discriminate |].
    destruct (Base.ApplyConfig
                (alerting_configuration ext raw
                   (with_Templates paths (with_default_template ext c)))
                fs' (Base (am w))) as [g [aerr |]];
      [| destruct Hp as (v & _ & Hp); rewrite Hp in Hrun; discriminate].
    rewrite Hp in Hrun. injection Hrun as <- _ _. reflexivity.
Qed.

(** C5. Whenever the apply path gets to the templates (it was given raw
    bytes, or the serialization of the configuration succeeded), the
    configuration object afterwards has a template file map, nil or not
    before, in which ["__default__.tmpl"] is the default template and every
    other name is as the user supplied it; and this is the map that
    [PersistTemplates] was handed: the default template went in before the
    templates were persisted. *)
Theorem applyConfig_injects_default_template
    (cfg : ptr) (rawConfig : option bytes) (c : PostableUserConfig) (w : World) (raw : bytes) :
  heap w !! cfg = Some c ->
  match rawConfig with
  | None => Ext.json_Marshal_am ext (PostableUserConfig.AlertmanagerConfig c)
  | Some raw => inr raw
  end = inr raw ->
  exists r w' c' m,
    applyConfig ext cfg rawConfig w = Ok r w' /\
    heap w' !! cfg = Some c' /\
    PostableUserConfig.TemplateFiles c' = Some m /\
    m !! "__default__.tmpl" = Some (Ext.DefaultTemplateString ext) /\
    (forall name, name ≠ "__default__.tmpl" ->
       m !! name = default ∅ (PostableUserConfig.TemplateFiles c) !! name) /\
    (exists cp path,
       filter (fun k => is_PersistTemplates k = true) (drop (length (calls w)) (calls w')) =
       [call_PersistTemplates cp path] /\
       PostableUserConfig.TemplateFiles cp = Some m).
Proof.
  intros Hc Henc.
  pose proof (applyConfig_paths cfg rawConfig c w Hc) as Hp. cbv zeta in Hp.
  rewrite Henc in Hp.
  set (m := <["__default__.tmpl" := Ext.DefaultTemplateString ext]>
              (default ∅ (PostableUserConfig.TemplateFiles c))).
  assert (Hm1 : m !! "__default__.tmpl" = Some (Ext.DefaultTemplateString ext))
    by apply lookup_insert_eq.
  assert (Hm2 : forall name, name ≠ "__default__.tmpl" ->
            m !! name = default ∅ (PostableUserConfig.TemplateFiles c) !! name)
    by (intros name Hne; apply lookup_insert_ne; congruence).
  assert (Hpre : forall (l : list (@Call Ctx)) rest,
    Forall (fun k => is_PersistTemplates k = false) rest ->
    filter (fun k => is_PersistTemplates k = true)
      (drop (length l)
         (l ++ match rawConfig with
               | None => [call_json_Marshal_am (PostableUserConfig.AlertmanagerConfig c)]
               | Some _ => []
               end ++
          [call_md5_Sum raw;
           call_PersistTemplates (with_default_template ext c)
             (Base.WorkingDirectory (Base (am w)))] ++ rest)) =
    [call_PersistTemplates (with_default_template ext c)
       (Base.WorkingDirectory (Base (am w)))]).
  { intros l rest Hrest. rewrite drop_app_length.
    assert (filter (fun k : @Call Ctx => is_PersistTemplates k = true) rest = []) as Hnil.
    { induction Hrest as [|k rest Hk _ IH]; [reflexivity |].
      rewrite filter_cons. destruct (decide (is_PersistTemplates k = true)); [congruence | exact IH]. }
    destruct rawConfig; cbn [app]; rewrite ?filter_cons; cbn [is_PersistTemplates];
      repeat (destruct (decide _); try congruence); rewrite Hnil; reflexivity. }
  destruct (Ext.PersistTemplates ext (with_default_template ext c)
              (Base.WorkingDirectory (Base (am w))) (fs w))
    as [fs' [[paths templatesChanged] [perr |]]] eqn:Hpersist.
  { eexists _, _, (with_default_template ext c), m. split; [exact Hp |]. cbn [heap calls].
    split; [eapply heap_lookup_assign, Hc |]. split; [reflexivity |].
    split; [exact Hm1 |]. split; [exact Hm2 |].
    eexists _, _. split; [exact (Hpre (calls w) [] (Forall_nil_2 _)) | reflexivity]. }
  assert (Hfinal : forall heap0 : list PostableUserConfig,
            heap0 !! cfg = Some (with_default_template ext c) ->
            <[cfg := with_Templates paths (with_default_template ext c)]> heap0 !! cfg =
            Some (with_Templates paths (with_default_template ext c)))
    by (intros heap0 Hh0; eapply heap_lookup_assign, Hh0).
  destruct (negb (bool_decide (Base.ConfigHash (Base (am w)) ≠ Ext.md5_Sum ext raw))
            && negb templatesChanged).
  { eexists _, _, (with_Templates paths (with_default_template ext c)), m.
    split; [exact Hp |]. cbn [heap calls].
    split; [apply Hfinal; eapply heap_lookup_assign, Hc |]. split; [reflexivity |].
    split; [exact Hm1 |]. split; [exact Hm2 |].
    eexists _, _.
    split; [rewrite <- !app_assoc; apply Hpre; repeat constructor | reflexivity]. }
  destruct (Base.ApplyConfig
              (alerting_configuration ext raw (with_Templates paths (with_default_template ext c)))
              fs' (Base (am w))) as [g [aerr |]] eqn:Happly.
  { eexists _, _, (with_Templates paths (with_default_template ext c)), m.
    split; [exact Hp |]. cbn [heap calls].
    split; [apply Hfinal; eapply heap_lookup_assign, Hc |]. split; [reflexivity |].
    split; [exact Hm1 |]. split; [exact Hm2 |].
    eexists _, _.
    split; [rewrite <- !app_assoc; apply Hpre; repeat constructor | reflexivity]. }
  destruct Hp as (v & _ & Hp).
  eexists _, _, (with_Templates paths (with_default_template ext c)), m.
  split; [exact Hp |]. cbn [heap calls].
  split; [apply Hfinal; eapply heap_lookup_assign, Hc |]. split; [reflexivity |].
  split; [exact Hm1 |]. split; [exact Hm2 |].
  eexists _, _.
  split;
    [rewrite <- !app_assoc; apply Hpre; constructor;
       [reflexivity | apply Forall_calls_of_updates; reflexivity]
    | reflexivity].
Qed.


(** C10, as the code has it.  Whenever [applyConfig] gets to the templates,
    it changes the caller's configuration object in place: the template
    file map becomes a map (nil or not before) with
    ["__default__.tmpl"] in it; and when template persistence succeeds, also
    when the outcome is "unchanged", [cfg.AlertmanagerConfig.Templates] is
    overwritten with the paths it returned.  When template persistence fails,
    [Templates] is left as it was. *)
Theorem applyConfig_mutates_caller_config
    (cfg : ptr) (rawConfig : option bytes) (c : PostableUserConfig) (w : World) (raw : bytes) :
  heap w !! cfg = Some c ->
  match rawConfig with
  | None => Ext.json_Marshal_am ext (PostableUserConfig.AlertmanagerConfig c)
  | Some raw => inr raw
  end = inr raw ->
  exists r w' c' fs' paths templatesChanged perr,
    applyConfig ext cfg rawConfig w = Ok r w' /\
    Ext.PersistTemplates ext (with_default_template ext c)
      (Base.WorkingDirectory (Base (am w))) (fs w) = (fs', (paths, templatesChanged, perr)) /\
    heap w' !! cfg = Some c' /\
    PostableUserConfig.TemplateFiles c' =
      Some (<["__default__.tmpl" := Ext.DefaultTemplateString ext]>
              (default ∅ (PostableUserConfig.TemplateFiles c))) /\
    match perr with
    | None =>
        PostableUserConfig.AlertmanagerConfig c' =
        PostableApiAlertingConfig.set_Templates paths (PostableUserConfig.AlertmanagerConfig c)
    | Some err =>
        r = (false, Some err) /\
        PostableUserConfig.AlertmanagerConfig c' = PostableUserConfig.AlertmanagerConfig c
    end /\
    (r = (false, None) ->
     perr = None /\
     PostableApiAlertingConfig.Templates (PostableUserConfig.AlertmanagerConfig c') = paths).
Proof.
  intros Hc Henc.
  pose proof (applyConfig_paths cfg rawConfig c w Hc) as Hp. cbv zeta in Hp.
  rewrite Henc in Hp.
  destruct (Ext.PersistTemplates ext (with_default_template ext c)
              (Base.WorkingDirectory (Base (am w))) (fs w))
    as [fs' [[paths templatesChanged] [perr |]]] eqn:Hpersist.
  { eexists _, _, (with_default_template ext c), fs', paths, templatesChanged, (Some perr).
    split; [exact Hp |]. cbn [heap]. split; [reflexivity |].
    split; [eapply heap_lookup_assign, Hc |].
    split; [reflexivity |]. split; [split; reflexivity | discriminate]. }
  assert (Hgoal : forall r (w' : World),
    applyConfig ext cfg rawConfig w = Ok r w' ->
    heap w' = <[cfg := with_Templates paths (with_default_template ext c)]>
                (<[cfg := with_default_template ext c]> (heap w)) ->
    exists r w' c' fs'0 paths0 templatesChanged0 perr,
      applyConfig ext cfg rawConfig w = Ok r w' /\
      (fs', (paths, templatesChanged, @None error)) = (fs'0, (paths0, templatesChanged0, perr)) /\
      heap w' !! cfg = Some c' /\
      PostableUserConfig.TemplateFiles c' =
        Some (<["__default__.tmpl" := Ext.DefaultTemplateString ext]>
                (default ∅ (PostableUserConfig.TemplateFiles c))) /\
      match perr with
      | None =>
          PostableUserConfig.AlertmanagerConfig c' =
          PostableApiAlertingConfig.set_Templates paths0 (PostableUserConfig.AlertmanagerConfig c)
      | Some err =>
          r = (false, Some err) /\
          PostableUserConfig.AlertmanagerConfig c' = PostableUserConfig.AlertmanagerConfig c
      end /\
      (r = (false, None) ->
       perr = None /\
       PostableApiAlertingConfig.Templates (PostableUserConfig.AlertmanagerConfig c') = paths0)).
  { intros r w' Hrun Hheap.
    exists r, w', (with_Templates paths (with_default_template ext c)), fs', paths,
      templatesChanged, None.
    split; [exact Hrun |]. split; [reflexivity |]. rewrite Hheap.
    split; [eapply heap_lookup_assign, heap_lookup_assign, Hc |].
    split; [reflexivity |]. split; [reflexivity |]. intros _. split; reflexivity. }
  destruct (negb (bool_decide (Base.ConfigHash (Base (am w)) ≠ Ext.md5_Sum ext raw))
            && negb templatesChanged); [eapply Hgoal; [exact Hp | reflexivity] |].
  destruct (Base.ApplyConfig
              (alerting_configuration ext raw (with_Templates paths (with_default_template ext c)))
              fs' (Base (am w))) as [g [aerr |]] eqn:Happly;
    [eapply Hgoal; [exact Hp | reflexivity] |].
  destruct Hp as (v & _ & Hp). eapply Hgoal; [exact Hp | reflexivity].
Qed.

Lemma Load_run_ok (b : bytes) (cv : PostableUserConfig) (w : World) :
  Ext.Load ext b = inr cv ->
  Load ext b w =
  Ok (inr (length (heap w)))
     (mk_World (am w) (fs w) (heap w ++ [cv]) (clock w) (calls w ++ [call_Load b])).
Proof.
  intros HL. unfold Load. rewrite bind_run, log_run, HL. unfold new. mrun. reflexivity.
Qed.

Lemma Load_run_error (b : bytes) (e : error) (w : World) :
  Ext.Load ext b = inl e ->
  Load ext b w = Ok (inl e) (set_calls (calls w ++ [call_Load b]) w).
Proof.
  intros HL. unfold Load. rewrite bind_run, log_run, HL. reflexivity.
Qed.

Lemma heap_lookup_new (h : list PostableUserConfig) (cv : PostableUserConfig) :
  (h ++ [cv]) !! length h = Some cv.
Proof. rewrite lookup_app_r by lia. rewrite Nat.sub_diag. reflexivity. Qed.

(** C4, as the code has it.  Let the record parse, its configuration
    serialize and the templates persist.  When the digest of the serialized
    bytes differs from the active configuration hash, or the templates on
    disk changed, and [Base.ApplyConfig] and the store's marking succeed,
    [ApplyConfig] succeeds and [MarkConfigurationAsApplied] is the last
    call it makes, after [Base.ApplyConfig] and the gauges, with the
    tenant's org ID and the record's configuration hash.  When the digest
    is the active hash and the templates did not change, [ApplyConfig]
    succeeds without marking: nothing is called after the templates are
    persisted but the debug log, and the Alertmanager and its store are as
    they were.  So a successful [ApplyConfig] has called
    [MarkConfigurationAsApplied] exactly when something changed. *)
Theorem ApplyConfig_marks_applied_when_changed
    (ctx : Ctx) (dbCfg : AlertConfiguration) (w : World)
    (cv : PostableUserConfig) (raw : bytes) (fs' : FS) (paths : list string)
    (templatesChanged : bool) :
  Ext.Load ext (bytes_of_string (AlertConfiguration.AlertmanagerConfiguration dbCfg)) = inr cv ->
  Ext.json_Marshal_am ext (PostableUserConfig.AlertmanagerConfig cv) = inr raw ->
  Ext.PersistTemplates ext (with_default_template ext cv)
    (Base.WorkingDirectory (Base (am w))) (fs w) = (fs', (paths, templatesChanged, None)) ->
  (Base.ConfigHash (Base (am w)) ≠ Ext.md5_Sum ext raw \/ templatesChanged = true ->
   forall g db,
     Base.ApplyConfig
       (alerting_configuration ext raw (with_Templates paths (with_default_template ext cv)))
       fs' (Base (am w)) = (g, None) ->
     AlertingStore.MarkConfigurationAsApplied ctx
       (MarkConfigurationAsAppliedCmd.mk (orgID (am w))
          (AlertConfiguration.ConfigurationHash dbCfg)) (Store (am w)) = (db, None) ->
     exists w' v,
       ApplyConfig ext ctx dbCfg w = Ok None w' /\
       calls w' =
         calls w ++
         [call_Load (bytes_of_string (AlertConfiguration.AlertmanagerConfiguration dbCfg));
          call_json_Marshal_am (PostableUserConfig.AlertmanagerConfig cv);
          call_md5_Sum raw;
          call_PersistTemplates (with_default_template ext cv)
            (Base.WorkingDirectory (Base (am w)));
          call_Base_ApplyConfig
            (alerting_configuration ext raw
               (with_Templates paths (with_default_template ext cv)))] ++
         calls_of_updates
           (metrics_updates (orgID (am w))
              (with_Templates paths (with_default_template ext cv)) v) ++
         [call_MarkConfigurationAsApplied ctx
            (MarkConfigurationAsAppliedCmd.mk (orgID (am w))
               (AlertConfiguration.ConfigurationHash dbCfg))] /\
       Base (am w') = g /\
       Store (am w') = db) /\
  (Base.ConfigHash (Base (am w)) = Ext.md5_Sum ext raw ->
   templatesChanged = false ->
   exists w',
     ApplyConfig ext ctx dbCfg w = Ok None w' /\
     am w' = am w /\
     calls w' =
       calls w ++
       [call_Load (bytes_of_string (AlertConfiguration.AlertmanagerConfiguration dbCfg));
        call_json_Marshal_am (PostableUserConfig.AlertmanagerConfig cv);
        call_md5_Sum raw;
        call_PersistTemplates (with_default_template ext cv)
          (Base.WorkingDirectory (Base (am w)));
        call_Debug "Neither config nor template have changed, skipping configuration sync."]) /\
  (forall w',
     ApplyConfig ext ctx dbCfg w = Ok None w' ->
     existsb is_MarkConfigurationAsApplied (drop (length (calls w)) (calls w')) =
       bool_decide (Base.ConfigHash (Base (am w)) ≠ Ext.md5_Sum ext raw) || templatesChanged).
Proof.
  intros HL Henc Hpersist.
  assert (Hstart :
    ApplyConfig ext ctx dbCfg w =
    match applyAndMarkConfig ext ctx (AlertConfiguration.ConfigurationHash dbCfg)
            (length (heap w)) None
            (mk_World (am w) (fs w) (heap w ++ [cv]) (clock w)
               (calls w ++
                [call_Load (bytes_of_string
                   (AlertConfiguration.AlertmanagerConfiguration dbCfg))])) with
    | Ok (Some e) w' => Ok (Some (Errorf "unable to apply configuration" e)) w'
    | Ok None w' => Ok None w'
    | Panic => Panic
    end).
  { unfold ApplyConfig, Base_WithLock.
    rewrite bind_run, (Load_run_ok _ cv w HL), bind_run.
    destruct (applyAndMarkConfig _ _ _ _ _ _) as [[e |] w' |]; reflexivity. }
  rewrite Hstart, applyAndMarkConfig_run. clear Hstart.
  set (w0 := mk_World (am w) (fs w) (heap w ++ [cv]) (clock w)
               (calls w ++ [call_Load (bytes_of_string
                  (AlertConfiguration.AlertmanagerConfiguration dbCfg))])).
  assert (Hc : heap w0 !! length (heap w) = Some cv) by apply heap_lookup_new.
  pose proof (applyConfig_paths (length (heap w)) None cv w0 Hc) as Hp. cbv zeta in Hp.
  cbn [am fs calls w0] in Hp. rewrite Henc, Hpersist in Hp.
  split; [| split].
  - (* something changed *)
    intros Hchanged g db Happly Hmark.
    assert (Hgo : negb (bool_decide (Base.ConfigHash (Base (am w)) ≠ Ext.md5_Sum ext raw))
                  && negb templatesChanged = false).
    { destruct Hchanged as [Hne | ->]; [| apply andb_false_r].
      rewrite bool_decide_eq_true_2 by exact Hne. reflexivity. }
    rewrite Hgo, Happly in Hp. destruct Hp as (v & _ & Hp).
    rewrite Hp. cbn [am orgID set_ConfigMetrics set_Base].
    erewrite Store_MarkConfigurationAsApplied_run
      by (cbn [am Store set_ConfigMetrics set_Base]; exact Hmark).
    eexists _, v. split; [reflexivity |].
    cbn [am calls Base Store set_am set_Store set_calls set_ConfigMetrics set_Base].
    split; [| split; reflexivity].
    rewrite <- !app_assoc. reflexivity.
  - (* nothing changed *)
    intros Hsame ->.
    rewrite bool_decide_eq_false_2 in Hp by (intros Hne; apply Hne; exact Hsame).
    cbn [negb andb] in Hp. rewrite Hp.
    eexists. split; [reflexivity |]. cbn [am calls].
    split; [reflexivity |]. rewrite <- !app_assoc. reflexivity.
  - (* marked exactly when something changed *)
    intros w' Hrun.
    destruct (bool_decide (Base.ConfigHash (Base (am w)) ≠ Ext.md5_Sum ext raw));
      destruct templatesChanged; cbn [negb andb orb] in Hp |- *.
    4: { rewrite Hp in Hrun. injection Hrun as <-. cbn [calls].
         rewrite <- !app_assoc, drop_app_length. reflexivity. }
    all: destruct (Base.ApplyConfig
                     (alerting_configuration ext raw
                        (with_Templates paths (with_default_template ext cv)))
                     fs' (Base (am w))) as [g [aerr |]];
      [rewrite Hp in Hrun; discriminate |];
      destruct Hp as (v & _ & Hp); rewrite Hp in Hrun;
      cbn [am orgID set_ConfigMetrics set_Base] in Hrun;
      destruct (AlertingStore.MarkConfigurationAsApplied ctx
                  (MarkConfigurationAsAppliedCmd.mk (orgID (am w))
                     (AlertConfiguration.ConfigurationHash dbCfg)) (Store (am w)))
        as [db [merr |]] eqn:Hmark;
      erewrite Store_MarkConfigurationAsApplied_run in Hrun
        by (cbn [am Store set_ConfigMetrics set_Base]; exact Hmark);
      [discriminate |];
      injection Hrun as <-;
      cbn [calls set_am set_calls];
      rewrite <- !app_assoc, drop_app_length;
      unfold metrics_updates, calls_of_updates; reflexivity.
Qed.


(** ** The save operations *)

(** The callback of the save operations, run on an allocated configuration
    object with raw bytes at hand, always returns, keeps the object
    allocated, and calls nothing but what [callback_call] allows. *)
Lemma applyConfig_callback_calls (cfg : ptr) (raw : bytes) (c : PostableUserConfig) (w : World) :
  heap w !! cfg = Some c ->
  exists r w' c' new,
    applyConfig_callback ext cfg raw w = Ok r w' /\
    heap w' !! cfg = Some c' /\
    calls w' = calls w ++ new /\
    Forall (callback_call raw) new.
Proof.
  intros Hc. unfold applyConfig_callback. rewrite bind_run.
  pose proof (applyConfig_paths cfg (Some raw) c w Hc) as Hp. cbv zeta in Hp.
  destruct (Ext.PersistTemplates ext (with_default_template ext c)
              (Base.WorkingDirectory (Base (am w))) (fs w))
    as [fs' [[paths templatesChanged] [perr |]]].
  { rewrite Hp. eexists _, _, _, _. split; [reflexivity |]. cbn [heap calls].
    split; [eapply heap_lookup_assign, Hc |]. split; [reflexivity |].
    repeat constructor. }
  destruct (negb (bool_decide (Base.ConfigHash (Base (am w)) ≠ Ext.md5_Sum ext raw))
            && negb templatesChanged).
  { rewrite Hp. eexists _, _, _, ([_; _] ++ [_]). split; [reflexivity |]. cbn [heap calls].
    split; [eapply heap_lookup_assign, heap_lookup_assign, Hc |].
    split; [rewrite <- !app_assoc; reflexivity |]. repeat constructor. }
  destruct (Base.ApplyConfig
              (alerting_configuration ext raw (with_Templates paths (with_default_template ext c)))
              fs' (Base (am w))) as [g [aerr |]].
  { rewrite Hp. eexists _, _, _, ([_; _] ++ [_]). split; [reflexivity |]. cbn [heap calls].
    split; [eapply heap_lookup_assign, heap_lookup_assign, Hc |].
    split; [rewrite <- !app_assoc; reflexivity |]. repeat constructor. }
  destruct Hp as (v & _ & Hp).
  rewrite Hp.
  eexists _, _, _,
    ([call_md5_Sum raw; _] ++ [_] ++
     calls_of_updates (metrics_updates (orgID (am w))
                         (with_Templates paths (with_default_template ext c)) v)).
  split; [reflexivity |]. cbn [heap calls].
  split; [eapply heap_lookup_assign, heap_lookup_assign, Hc |].
  split; [rewrite <- !app_assoc; reflexivity |].
  repeat (apply Forall_app; split); [repeat constructor.. |].
  apply Forall_calls_of_updates. intros; exact I.
Qed.

(** Whatever the store does with the callback, it returns, and the calls
    made meanwhile are the callback's. *)
Lemma run_store_calls (cfg : ptr) (raw : bytes) (p : StoreProg DB) :
  forall (c : PostableUserConfig) (w : World),
    heap w !! cfg = Some c ->
    exists r w' c' new,
      run_store p (applyConfig_callback ext cfg raw) w = Ok r w' /\
      heap w' !! cfg = Some c' /\
      calls w' = calls w ++ new /\
      Forall (callback_call raw) new.
Proof.
  induction p as [db err | k IH]; intros c w Hc.
  - exists err, (set_am (set_Store db (am w)) w), c, [].
    split; [reflexivity |]. split; [exact Hc |].
    split; [cbn [calls set_am]; now rewrite app_nil_r | constructor].
  - cbn [run_store]. rewrite bind_run.
    destruct (applyConfig_callback_calls cfg raw c w Hc) as (r & w1 & c1 & new1 & -> & Hc1 & Hcalls1 & Hnew1).
    destruct (IH r c1 w1 Hc1) as (r2 & w2 & c2 & new2 & Hrun2 & Hc2 & Hcalls2 & Hnew2).
    exists r2, w2, c2, (new1 ++ new2).
    split; [exact Hrun2 |]. split; [exact Hc2 |].
    split; [rewrite Hcalls2, Hcalls1, app_assoc; reflexivity |].
    apply Forall_app. split; assumption.
Qed.

Lemma applyConfig_returns (cfg : ptr) (rawConfig : option bytes)
      (c : PostableUserConfig) (w : World) :
  heap w !! cfg = Some c ->
  exists r w', applyConfig ext cfg rawConfig w = Ok r w'.
Proof.
  intros Hc.
  pose proof (applyConfig_paths cfg rawConfig c w Hc) as Hp. cbv zeta in Hp.
  destruct (match rawConfig with
            | None => Ext.json_Marshal_am ext (PostableUserConfig.AlertmanagerConfig c)
            | Some raw => inr raw
            end) as [e0 | raw]; [eexists _, _; exact Hp |].
  destruct (Ext.PersistTemplates ext (with_default_template ext c)
              (Base.WorkingDirectory (Base (am w))) (fs w))
    as [fs' [[paths templatesChanged] [perr |]]]; [eexists _, _; exact Hp |].
  destruct (negb (bool_decide (Base.ConfigHash (Base (am w)) ≠ Ext.md5_Sum ext raw))
            && negb templatesChanged); [eexists _, _; exact Hp |].
  destruct (Base.ApplyConfig
              (alerting_configuration ext raw (with_Templates paths (with_default_template ext c)))
              fs' (Base (am w))) as [g [aerr |]]; [eexists _, _; exact Hp |].
  destruct Hp as (v & _ & Hp). eexists _, _; exact Hp.
Qed.

(** [SaveAndApplyConfig] is the serialization followed by the store's save. *)
Lemma SaveAndApplyConfig_run (ctx : Ctx) (cfg : ptr) (c : PostableUserConfig) (w : World) :
  heap w !! cfg = Some c ->
  SaveAndApplyConfig ext ctx cfg w =
  match Ext.json_Marshal_user ext c with
  | inl e =>
      Ok (Some (wrapError "failed to serialize to the Alertmanager configuration" e))
         (set_calls (calls w ++ [call_json_Marshal_user c]) w)
  | inr raw =>
      Store_SaveAlertmanagerConfigurationWithCallback ctx
        (SaveAlertmanagerConfigurationCmd.mk (string_of_bytes raw) false
           ("v" +:+ FormatInt (Ext.AlertConfigurationVersion ext)) (orgID (am w)) (clock w))
        (applyConfig_callback ext cfg raw)
        (set_calls (calls w ++ [call_json_Marshal_user c]) w)
  end.
Proof.
  intros Hc. unfold SaveAndApplyConfig, Base_WithLock, time_Now_Unix.
  rewrite bind_run, (json_Marshal_user_run cfg c w Hc).
  destruct (Ext.json_Marshal_user ext c) as [e | raw]; [reflexivity |].
  mrun.
  destruct (Store_SaveAlertmanagerConfigurationWithCallback _ _ _ _) as [[e |] w2 |];
    reflexivity.
Qed.

(** C7. [SaveAndApplyConfig] serializes the configuration once: of the
    calls it makes, the first is the one [json.Marshal] and no later one is
    a serialization.  The bytes that call returned are the ones the save
    command carries as its [AlertmanagerConfiguration] string, and every
    digest computed while the store runs the callback is computed over those
    same bytes.  Whenever the store runs the callback, the callback is
    [applyConfig] on those bytes: the first thing it does is to take their
    digest, and, the templates being persisted, [Base.ApplyConfig] is called
    exactly when that digest differs from the active configuration hash or
    the templates changed, and then with those bytes.  What is persisted and
    what is hashed are byte-identical. *)
Theorem SaveAndApplyConfig_persists_the_hashed_bytes
    (ctx : Ctx) (cfg : ptr) (c : PostableUserConfig) (w : World) (raw : bytes) :
  heap w !! cfg = Some c ->
  Ext.json_Marshal_user ext c = inr raw ->
  (exists r w' cmd rest,
     SaveAndApplyConfig ext ctx cfg w = Ok r w' /\
     calls w' =
       calls w ++
       [call_json_Marshal_user c; call_SaveAlertmanagerConfigurationWithCallback ctx cmd] ++
       rest /\
     SaveAlertmanagerConfigurationCmd.AlertmanagerConfiguration cmd = string_of_bytes raw /\
     bytes_of_string (SaveAlertmanagerConfigurationCmd.AlertmanagerConfiguration cmd) = raw /\
     Forall (callback_call raw) rest) /\
  (forall k,
     AlertingStore.SaveAlertmanagerConfigurationWithCallback ctx
       (SaveAlertmanagerConfigurationCmd.mk (string_of_bytes raw) false
          ("v" +:+ FormatInt (Ext.AlertConfigurationVersion ext)) (orgID (am w)) (clock w))
       (Store (am w)) = store_callback k ->
     exists changed r1 w1 rest1,
       applyConfig ext cfg (Some raw)
         (set_calls
            (calls w ++
             [call_json_Marshal_user c;
              call_SaveAlertmanagerConfigurationWithCallback ctx
                (SaveAlertmanagerConfigurationCmd.mk (string_of_bytes raw) false
                   ("v" +:+ FormatInt (Ext.AlertConfigurationVersion ext)) (orgID (am w))
                   (clock w))]) w) = Ok (changed, r1) w1 /\
       SaveAndApplyConfig ext ctx cfg w =
         run_store (k r1) (applyConfig_callback ext cfg raw) w1 /\
       calls w1 =
         calls w ++
         [call_json_Marshal_user c;
          call_SaveAlertmanagerConfigurationWithCallback ctx
            (SaveAlertmanagerConfigurationCmd.mk (string_of_bytes raw) false
               ("v" +:+ FormatInt (Ext.AlertConfigurationVersion ext)) (orgID (am w))
               (clock w));
          call_md5_Sum raw] ++ rest1 /\
       Forall (fun k0 => forall ac, k0 = call_Base_ApplyConfig ac ->
                 AlertingConfiguration.rawAlertmanagerConfig ac = raw) rest1 /\
       (forall fs' paths templatesChanged perr,
          Ext.PersistTemplates ext (with_default_template ext c)
            (Base.WorkingDirectory (Base (am w))) (fs w) =
            (fs', (paths, templatesChanged, perr)) ->
          existsb is_Base_ApplyConfig rest1 =
            match perr with
            | None =>
                bool_decide (Base.ConfigHash (Base (am w)) ≠ Ext.md5_Sum ext raw)
                || templatesChanged
            | Some _ => false
            end)).
Proof.
  intros Hc Hraw. split.
  { unfold SaveAndApplyConfig, Base_WithLock.
    rewrite bind_run, (json_Marshal_user_run cfg c w Hc), Hraw.
    unfold Store_SaveAlertmanagerConfigurationWithCallback, time_Now_Unix. mrun.
    match goal with
    | |- context [run_store ?p (applyConfig_callback ext cfg raw) ?w1] =>
        destruct (run_store_calls cfg raw p c w1 Hc)
          as (r & w2 & c2 & new & Hrun & _ & Hcalls & Hnew);
        rewrite Hrun
    end.
    cbn [calls set_calls] in Hcalls.
    exists r, w2. eexists _, new. split; [destruct r; reflexivity |].
    split; [rewrite Hcalls, <- !app_assoc; reflexivity |].
    cbn [SaveAlertmanagerConfigurationCmd.AlertmanagerConfiguration].
    split; [reflexivity |]. split; [| exact Hnew].
    unfold bytes_of_string, string_of_bytes. apply String.list_byte_of_string_of_list_byte. }
  intros k Hstore.
  set (w0 := set_calls
               (calls w ++
                [call_json_Marshal_user c;
                 call_SaveAlertmanagerConfigurationWithCallback ctx
                   (SaveAlertmanagerConfigurationCmd.mk (string_of_bytes raw) false
                      ("v" +:+ FormatInt (Ext.AlertConfigurationVersion ext)) (orgID (am w))
                      (clock w))]) w).
  assert (Hsave : forall changed r1 (w1 : World),
    applyConfig ext cfg (Some raw) w0 = Ok (changed, r1) w1 ->
    SaveAndApplyConfig ext ctx cfg w = run_store (k r1) (applyConfig_callback ext cfg raw) w1).
  { intros changed r1 w1 Happ.
    rewrite (SaveAndApplyConfig_run ctx cfg c w Hc), Hraw.
    unfold Store_SaveAlertmanagerConfigurationWithCallback. mrun.
    rewrite <- app_assoc. cbn [app]. rewrite Hstore. cbn [run_store].
    rewrite bind_run. unfold applyConfig_callback at 1. rewrite bind_run.
    match goal with
    | |- context [match applyConfig ext cfg (Some raw) ?w0' with _ => _ end] =>
        change w0' with w0
    end.
    rewrite Happ. mrun. reflexivity. }
  assert (Hc0 : heap w0 !! cfg = Some c) by exact Hc.
  pose proof (applyConfig_paths cfg (Some raw) c w0 Hc0) as Hp. cbv zeta in Hp.
  cbn [am fs calls set_calls w0 app] in Hp.
  destruct (Ext.PersistTemplates ext (with_default_template ext c)
              (Base.WorkingDirectory (Base (am w))) (fs w))
    as [fs' [[paths templatesChanged] [perr |]]] eqn:Hpersist.
  { eexists _, _, _, [_]. split; [exact Hp |]. split; [eapply Hsave, Hp |].
    cbn [calls]. split; [rewrite <- !app_assoc; reflexivity |].
    split; [repeat (constructor; [intros ac [= <-]; reflexivity |]); constructor |].
    intros ? ? ? ? [= <- <- <- <-]. reflexivity. }
  destruct (bool_decide (Base.ConfigHash (Base (am w)) ≠ Ext.md5_Sum ext raw)) eqn:Hbd;
    destruct templatesChanged; cbn [negb andb] in Hp.
  4: { eexists _, _, _, [_; _]. split; [exact Hp |]. split; [eapply Hsave, Hp |].
       cbn [calls]. split; [rewrite <- !app_assoc; reflexivity |].
       split; [repeat (constructor; [intros ac [= <-]; reflexivity |]); constructor |].
       intros ? ? ? ? [= <- <- <- <-]. reflexivity. }
  all: destruct (Base.ApplyConfig
                   (alerting_configuration ext raw
                      (with_Templates paths (with_default_template ext c)))
                   fs' (Base (am w))) as [g [aerr |]];
    [ eexists _, _, _, [_; _]; split; [exact Hp |]; split; [eapply Hsave, Hp |];
      cbn [calls]; split; [rewrite <- !app_assoc; reflexivity |];
      split; [repeat (constructor; [intros ac [= <-]; reflexivity |]); constructor |];
      intros ? ? ? ? [= <- <- <- <-]; reflexivity
    | destruct Hp as (v & _ & Hp);
      eexists _, _, _, ([_; _] ++ calls_of_updates _);
      split; [exact Hp |]; split; [eapply Hsave, Hp |];
      cbn [calls]; split; [rewrite <- !app_assoc; reflexivity |];
      split;
        [ repeat (constructor; [intros ac [= <-]; reflexivity |]); constructor
        | intros ? ? ? ? [= <- <- <- <-]; reflexivity ] ].
Qed.

(** C1, as the code has it.  When the default configuration parses and the
    store's save, run with the apply callback, returns a non-nil error,
    [SaveAndApplyDefaultConfig] returns nil: the error is assigned away, not
    handed to the caller. *)
Theorem SaveAndApplyDefaultConfig_discards_the_save_error
    (ctx : Ctx) (w w1 : World) (cv : PostableUserConfig) (err : error) :
  Ext.Load ext (bytes_of_string (DefaultConfiguration (UnifiedAlerting (Settings (am w))))) =
    inr cv ->
  Store_SaveAlertmanagerConfigurationWithCallback ctx
    (SaveAlertmanagerConfigurationCmd.mk
       (DefaultConfiguration (UnifiedAlerting (Settings (am w))))
       true
       ("v" +:+ FormatInt (Ext.AlertConfigurationVersion ext))
       (orgID (am w))
       (clock w))
    (applyConfig_callback ext (length (heap w))
       (bytes_of_string (DefaultConfiguration (UnifiedAlerting (Settings (am w))))))
    (mk_World (am w) (fs w) (heap w ++ [cv]) (clock w)
       (calls w ++
        [call_Load (bytes_of_string (DefaultConfiguration (UnifiedAlerting (Settings (am w)))))]))
  = Ok (Some err) w1 ->
  SaveAndApplyDefaultConfig ext ctx w = Ok None w1.
Proof.
  intros HL Hsave. unfold SaveAndApplyDefaultConfig, Base_WithLock, time_Now_Unix.
  mrun. rewrite (Load_run_ok _ cv w HL), bind_run, Hsave. reflexivity.
Qed.

(** The only error [SaveAndApplyDefaultConfig] ever returns is the one of
    parsing the default configuration. *)
Lemma SaveAndApplyDefaultConfig_returns_only_Load_errors
    (ctx : Ctx) (w w' : World) (r : option error) :
  SaveAndApplyDefaultConfig ext ctx w = Ok r w' ->
  r = match Ext.Load ext (bytes_of_string
                (DefaultConfiguration (UnifiedAlerting (Settings (am w))))) with
      | inl err => Some err
      | inr _ => None
      end.
Proof.
  unfold SaveAndApplyDefaultConfig, Base_WithLock, time_Now_Unix. mrun.
  destruct (Ext.Load ext _) as [e | cv] eqn:HL.
  - rewrite (Load_run_error _ e w HL). intros [= <- _]. reflexivity.
  - rewrite (Load_run_ok _ cv w HL), bind_run.
    destruct (Store_SaveAlertmanagerConfigurationWithCallback _ _ _ _) as [[e |] w2 |];
      [intros [= <- _]; reflexivity.. | discriminate].
Qed.

(** ** Further properties of the operations *)

(** X4. [updateConfigMetrics] sets the Matchers, MatchRE and Match gauges
    to the number of matchers of that style in the whole route tree plus
    those of the inhibit rules (sums as Go's [int] computes them), the
    ObjectMatchers gauge to the object matchers of the route tree alone,
    and the configuration-hash gauge of this tenant (label: its org ID in
    decimal) to the gauge value of the embedded Alertmanager's current
    hash.  The values are set, whatever the gauges held before; the hash
    gauges of other labels, and everything but the gauges, stay as they
    were. *)
Theorem updateConfigMetrics_gauges
    (p : ptr) (tf : option (gmap string string)) (r : Route) (rules : list InhibitRule)
    (tmpl : list string) (rcvs : list PostableApiReceiver) (w : World) :
  heap w !! p =
    Some (PostableUserConfig.mk tf (PostableApiAlertingConfig.mk r rules tmpl rcvs)) ->
  exists w',
    updateConfigMetrics p w = Ok tt w' /\
    AlertmanagerConfigMetrics.Matchers (ConfigMetrics (am w')) =
      float64_of_int (int_add (total count_Matchers r) (rules_total rule_Matchers rules)) /\
    AlertmanagerConfigMetrics.MatchRE (ConfigMetrics (am w')) =
      float64_of_int (int_add (total count_MatchRE r) (rules_total rule_MatchRE rules)) /\
    AlertmanagerConfigMetrics.Match (ConfigMetrics (am w')) =
      float64_of_int (int_add (total count_Match r) (rules_total rule_Match rules)) /\
    AlertmanagerConfigMetrics.ObjectMatchers (ConfigMetrics (am w')) =
      float64_of_int (wrap_int (total count_ObjectMatchers r)) /\
    AlertmanagerConfigMetrics.ConfigHash (ConfigMetrics (am w')) !! FormatInt (orgID (am w)) =
      hashAsMetricValue (Base.ConfigHash (Base (am w))) /\
    (forall label, label ≠ FormatInt (orgID (am w)) ->
       AlertmanagerConfigMetrics.ConfigHash (ConfigMetrics (am w')) !! label =
       AlertmanagerConfigMetrics.ConfigHash (ConfigMetrics (am w)) !! label) /\
    Base (am w') = Base (am w) /\ Store (am w') = Store (am w) /\
    Settings (am w') = Settings (am w) /\ orgID (am w') = orgID (am w) /\
    fs w' = fs w /\ heap w' = heap w /\ clock w' = clock w.
Proof.
  intros Hp.
  destruct (updateConfigMetrics_run p _ w Hp) as (v & Hv & Hrun).
  eexists. split; [exact Hrun |].
  world_norm.
  unfold metrics_updates, apply_updates, config_usage.
  cbn [PostableUserConfig.AlertmanagerConfig PostableApiAlertingConfig.Route
       PostableApiAlertingConfig.InhibitRules].
  rewrite aggregateRouteMatchers_usage_add.
  unfold usage_add, AggregateMatchersUsage.zero.
  cbn [AggregateMatchersUsage.Matchers AggregateMatchersUsage.MatchRE
       AggregateMatchersUsage.Match AggregateMatchersUsage.ObjectMatchers].
  unfold int_add. rewrite aggregateInhibitMatchers_wrapped, !Z.add_0_l.
  cbn [fold_left fst snd Gauge_Set_value
       AggregateMatchersUsage.Matchers AggregateMatchersUsage.MatchRE
       AggregateMatchersUsage.Match AggregateMatchersUsage.ObjectMatchers
       AlertmanagerConfigMetrics.Matchers AlertmanagerConfigMetrics.MatchRE
       AlertmanagerConfigMetrics.Match AlertmanagerConfigMetrics.ObjectMatchers
       AlertmanagerConfigMetrics.ConfigHash].
  repeat (split; [reflexivity |]).
  split; [rewrite Hv; apply lookup_insert_eq |].
  split; [intros label Hne; apply lookup_insert_ne; congruence |].
  repeat split; reflexivity.
Qed.

(** X5. Whatever way [applyConfig] takes, it leaves the store, the
    settings, the org ID and the clock alone; it reports a change only
    together with a nil error; and it never loads a document, saves a
    configuration or marks one as applied.  Given raw bytes, it serializes
    nothing either. *)
Theorem applyConfig_frame
    (cfg : ptr) (rawConfig : option bytes) (w w' : World) (r : bool * option error) :
  applyConfig ext cfg rawConfig w = Ok r w' ->
  Store (am w') = Store (am w) /\
  Settings (am w') = Settings (am w) /\
  orgID (am w') = orgID (am w) /\
  clock w' = clock w /\
  (fst r = true -> snd r = None) /\
  exists new,
    calls w' = calls w ++ new /\
    Forall (fun k => is_Load k = false /\ is_Save k = false /\
                     is_MarkConfigurationAsApplied k = false) new /\
    (rawConfig ≠ None -> Forall (fun k => is_json_Marshal k = false) new).
Proof.
  intros Hrun.
  destruct (heap w !! cfg) as [c |] eqn:Hc;
    [| rewrite (applyConfig_panic cfg rawConfig w Hc) in Hrun; discriminate].
  pose proof (applyConfig_paths cfg rawConfig c w Hc) as Hp. cbv zeta in Hp.
  assert (Hpre :
    Forall (fun k : @Call Ctx => is_Load k = false /\ is_Save k = false /\
                     is_MarkConfigurationAsApplied k = false)
      match rawConfig with
      | None => [call_json_Marshal_am (PostableUserConfig.AlertmanagerConfig c)]
      | Some _ => []
      end /\
    (rawConfig ≠ None ->
     Forall (fun k : @Call Ctx => is_json_Marshal k = false)
       match rawConfig with
       | None => [call_json_Marshal_am (PostableUserConfig.AlertmanagerConfig c)]
       | Some _ => []
       end)).
  { destruct rawConfig; (split; [repeat constructor | intros Hne]);
      [constructor | congruence]. }
  destruct Hpre as [Hpre1 Hpre2].
  assert (Hfinish : forall (a : alertmanager) f h new,
    w' = mk_World a f h (clock w)
           (calls w ++ match rawConfig with
                       | None => [call_json_Marshal_am (PostableUserConfig.AlertmanagerConfig c)]
                       | Some _ => []
                       end ++ new) ->
    Store a = Store (am w) -> Settings a = Settings (am w) -> orgID a = orgID (am w) ->
    (fst r = true -> snd r = None) ->
    Forall (fun k : @Call Ctx => is_Load k = false /\ is_Save k = false /\
                     is_MarkConfigurationAsApplied k = false) new ->
    Forall (fun k : @Call Ctx => is_json_Marshal k = false) new ->
    Store (am w') = Store (am w) /\
    Settings (am w') = Settings (am w) /\
    orgID (am w') = orgID (am w) /\
    clock w' = clock w /\
    (fst r = true -> snd r = None) /\
    exists new,
      calls w' = calls w ++ new /\
      Forall (fun k => is_Load k = false /\ is_Save k = false /\
                       is_MarkConfigurationAsApplied k = false) new /\
      (rawConfig ≠ None -> Forall (fun k => is_json_Marshal k = false) new)).
  { intros a f h new -> HS HSe Ho Hr Hn1 Hn2. world_norm.
    repeat (split; [assumption || reflexivity |]).
    eexists. split; [reflexivity |].
    split; [apply Forall_app; split; assumption |].
    intros Hne. apply Forall_app. split; [apply Hpre2, Hne | exact Hn2]. }
  destruct (match rawConfig with
            | None => Ext.json_Marshal_am ext (PostableUserConfig.AlertmanagerConfig c)
            | Some raw => inr raw
            end) as [e0 | raw].
  { rewrite Hp in Hrun. injection Hrun as <- <-.
    apply (Hfinish (am w) (fs w) (heap w) []);
      [rewrite app_nil_r; destruct w; reflexivity | try reflexivity; try constructor; try discriminate..]. }
  destruct (Ext.PersistTemplates ext (with_default_template ext c)
              (Base.WorkingDirectory (Base (am w))) (fs w))
    as [fs' [[paths templatesChanged] [perr |]]].
  { rewrite Hp in Hrun. injection Hrun as <- <-.
    eapply Hfinish; [reflexivity | reflexivity.. | discriminate | | ]; repeat constructor. }
  destruct (negb (bool_decide (Base.ConfigHash (Base (am w)) ≠ Ext.md5_Sum ext raw))
            && negb templatesChanged).
  { rewrite <- !app_assoc in Hp. rewrite Hp in Hrun. injection Hrun as <- <-.
    eapply Hfinish; [reflexivity | reflexivity.. | discriminate | | ]; repeat constructor. }
  destruct (Base.ApplyConfig
              (alerting_configuration ext raw (with_Templates paths (with_default_template ext c)))
              fs' (Base (am w))) as [g [aerr |]].
  { rewrite <- !app_assoc in Hp. rewrite Hp in Hrun. injection Hrun as <- <-.
    eapply Hfinish; [reflexivity | reflexivity.. | discriminate | | ]; repeat constructor. }
  destruct Hp as (v & _ & Hp). rewrite <- !app_assoc in Hp.
  rewrite Hp in Hrun. injection Hrun as <- <-.
  eapply Hfinish; [reflexivity | reflexivity.. | reflexivity | | ]; repeat constructor.
Qed.

(** X6. When the templates were persisted and either the digest of the raw
    bytes differs from the active configuration hash or the templates on
    disk changed, [applyConfig] calls [Base.ApplyConfig] exactly once, on the
    file system as template persistence left it, with the very bytes that
    were hashed (the ones given, or else the serialization of
    [cfg.AlertmanagerConfig] taken before it was changed) and with the
    caller's configuration whose [Templates] are the persisted paths.  It
    returns (true, nil) when that call succeeds and (false, err) when it
    fails; after a success the configuration-hash gauge of the tenant holds
    the value of the hash the embedded Alertmanager reports then; after a
    failure no gauge was touched. *)
Theorem applyConfig_reconfigures_when_changed
    (cfg : ptr) (rawConfig : option bytes) (c : PostableUserConfig) (w : World) (raw : bytes)
    (fs' : FS) (paths : list string) (templatesChanged : bool) :
  heap w !! cfg = Some c ->
  match rawConfig with
  | None => Ext.json_Marshal_am ext (PostableUserConfig.AlertmanagerConfig c)
  | Some raw => inr raw
  end = inr raw ->
  Ext.PersistTemplates ext (with_default_template ext c)
    (Base.WorkingDirectory (Base (am w))) (fs w) = (fs', (paths, templatesChanged, None)) ->
  Base.ConfigHash (Base (am w)) ≠ Ext.md5_Sum ext raw \/ templatesChanged = true ->
  exists ac g aerr w',
    ac = AlertingConfiguration.mk raw
           (PostableApiAlertingConfig.set_Templates paths (PostableUserConfig.AlertmanagerConfig c))
           (Ext.PostableApiAlertingConfigToApiReceivers ext
              (PostableApiAlertingConfig.set_Templates paths
                 (PostableUserConfig.AlertmanagerConfig c))) /\
    Base.ApplyConfig ac fs' (Base (am w)) = (g, aerr) /\
    applyConfig ext cfg rawConfig w =
      Ok match aerr with None => (true, None) | Some err => (false, Some err) end w' /\
    Base (am w') = g /\
    fs w' = fs' /\
    filter (fun k => is_Base_ApplyConfig k = true) (drop (length (calls w)) (calls w')) =
      [call_Base_ApplyConfig ac] /\
    match aerr with
    | None =>
        AlertmanagerConfigMetrics.ConfigHash (ConfigMetrics (am w')) !! FormatInt (orgID (am w)) =
        hashAsMetricValue (Base.ConfigHash g)
    | Some _ => ConfigMetrics (am w') = ConfigMetrics (am w)
    end.
Proof.
  intros Hc Henc Hpersist Hchanged.
  pose proof (applyConfig_paths cfg rawConfig c w Hc) as Hp. cbv zeta in Hp.
  rewrite Henc, Hpersist in Hp.
  assert (Hgo : negb (bool_decide (Base.ConfigHash (Base (am w)) ≠ Ext.md5_Sum ext raw))
                && negb templatesChanged = false).
  { destruct Hchanged as [Hne | ->]; [| apply andb_false_r].
    rewrite bool_decide_eq_true_2 by exact Hne. reflexivity. }
  rewrite Hgo in Hp.
  assert (Hfilter : forall (l : list (@Call Ctx)) k rest,
    Forall (fun k => is_Base_ApplyConfig k = false) rest ->
    filter (fun k => is_Base_ApplyConfig k = true)
      (drop (length l)
         (l ++ match rawConfig with
               | None => [call_json_Marshal_am (PostableUserConfig.AlertmanagerConfig c)]
               | Some _ => []
               end ++
          [call_md5_Sum raw;
           call_PersistTemplates (with_default_template ext c)
             (Base.WorkingDirectory (Base (am w)))] ++ [call_Base_ApplyConfig k] ++ rest)) =
    [call_Base_ApplyConfig k]).
  { intros l k rest Hrest. rewrite drop_app_length.
    assert (filter (fun k : @Call Ctx => is_Base_ApplyConfig k = true) rest = []) as Hnil.
    { induction Hrest as [|k0 rest Hk _ IH]; [reflexivity |].
      rewrite filter_cons. destruct (decide (is_Base_ApplyConfig k0 = true)); [congruence | exact IH]. }
    destruct rawConfig; cbn [app]; rewrite ?filter_cons; cbn [is_Base_ApplyConfig];
      repeat (destruct (decide _); try congruence); rewrite Hnil; reflexivity. }
  destruct (Base.ApplyConfig
              (alerting_configuration ext raw (with_Templates paths (with_default_template ext c)))
              fs' (Base (am w))) as [g aerr] eqn:Happly.
  exists (alerting_configuration ext raw (with_Templates paths (with_default_template ext c))),
    g, aerr.
  destruct aerr as [err |].
  - eexists. split; [reflexivity |]. split; [exact Happly |]. split; [exact Hp |].
    cbn [am fs calls Base set_Base ConfigMetrics].
    split; [reflexivity |]. split; [reflexivity |]. split; [| reflexivity].
    rewrite <- !app_assoc.
    apply (Hfilter (calls w) _ []). constructor.
  - destruct Hp as (v & Hv & Hp).
    eexists. split; [reflexivity |]. split; [exact Happly |]. split; [exact Hp |].
    cbn [am fs calls Base set_Base set_ConfigMetrics ConfigMetrics].
    split; [reflexivity |]. split; [reflexivity |]. split.
    + rewrite <- !app_assoc. apply Hfilter.
      apply Forall_calls_of_updates. reflexivity.
    + rewrite Hv. unfold metrics_updates, apply_updates.
      cbn [fold_left fst snd Gauge_Set_value AlertmanagerConfigMetrics.ConfigHash].
      apply lookup_insert_eq.
Qed.

(** X7. [ApplyConfig] never hands an error on as it is.  When the record
    does not parse, the error is the parser's, wrapped with "failed to parse
    Alertmanager config", and nothing but the parser was called: the
    Alertmanager, the files and the configuration objects are as they were.
    When the record parses, the error is the one of applying and marking,
    wrapped with "unable to apply configuration". *)
Theorem ApplyConfig_wraps_every_error
    (ctx : Ctx) (dbCfg : AlertConfiguration) (w w' : World) (err : error) :
  ApplyConfig ext ctx dbCfg w = Ok (Some err) w' ->
  match Ext.Load ext (bytes_of_string (AlertConfiguration.AlertmanagerConfiguration dbCfg)) with
  | inl e =>
      err = wrapError "failed to parse Alertmanager config" e /\
      Error err = "failed to parse Alertmanager config: " +:+ Error e /\
      am w' = am w /\ fs w' = fs w /\ heap w' = heap w /\
      calls w' =
        calls w ++ [call_Load (bytes_of_string (AlertConfiguration.AlertmanagerConfiguration dbCfg))]
  | inr cv =>
      exists e,
        err = wrapError "unable to apply configuration" e /\
        Error err = "unable to apply configuration: " +:+ Error e /\
        applyAndMarkConfig ext ctx (AlertConfiguration.ConfigurationHash dbCfg)
          (length (heap w)) None
          (mk_World (am w) (fs w) (heap w ++ [cv]) (clock w)
             (calls w ++
              [call_Load (bytes_of_string (AlertConfiguration.AlertmanagerConfiguration dbCfg))]))
        = Ok (Some e) w'
  end.
Proof.
  intros Hrun. unfold ApplyConfig, Base_WithLock in Hrun. rewrite bind_run in Hrun.
  destruct (Ext.Load ext (bytes_of_string (AlertConfiguration.AlertmanagerConfiguration dbCfg)))
    as [e | cv] eqn:HL.
  - rewrite (Load_run_error _ e w HL) in Hrun. injection Hrun as <- <-.
    repeat split; reflexivity.
  - rewrite (Load_run_ok _ cv w HL), bind_run in Hrun.
    destruct (applyAndMarkConfig ext ctx _ _ None _) as [[e |] w1 |] eqn:Hmark;
      [| discriminate..].
    injection Hrun as <- <-. exists e. repeat split; reflexivity.
Qed.

(** X8. Marking comes after applying and is not undone with it.  When
    [ApplyConfig] fails although it asked the store to mark the record as
    applied, the error is the store's, wrapped; the command named the
    tenant's org ID and the record's hash; and by then [Base.ApplyConfig] had
    succeeded: the embedded Alertmanager keeps the new configuration, and
    the configuration-hash gauge shows it. *)
Theorem ApplyConfig_failed_mark_keeps_the_new_configuration
    (ctx : Ctx) (dbCfg : AlertConfiguration) (w w' : World) (err : error)
    (cmd : MarkConfigurationAsAppliedCmd) :
  ApplyConfig ext ctx dbCfg w = Ok (Some err) w' ->
  In (call_MarkConfigurationAsApplied ctx cmd) (drop (length (calls w)) (calls w')) ->
  exists e ac g db,
    cmd = MarkConfigurationAsAppliedCmd.mk (orgID (am w))
            (AlertConfiguration.ConfigurationHash dbCfg) /\
    AlertingStore.MarkConfigurationAsApplied ctx cmd (Store (am w)) = (db, Some e) /\
    err = wrapError "unable to apply configuration" e /\
    Store (am w') = db /\
    In (call_Base_ApplyConfig ac) (drop (length (calls w)) (calls w')) /\
    Base.ApplyConfig ac (fs w') (Base (am w)) = (g, None) /\
    Base (am w') = g /\
    AlertmanagerConfigMetrics.ConfigHash (ConfigMetrics (am w')) !! FormatInt (orgID (am w)) =
      hashAsMetricValue (Base.ConfigHash g).
Proof.
  intros Hrun Hin. unfold ApplyConfig, Base_WithLock in Hrun. rewrite bind_run in Hrun.
  destruct (Ext.Load ext (bytes_of_string (AlertConfiguration.AlertmanagerConfiguration dbCfg)))
    as [e | cv] eqn:HL.
  { rewrite (Load_run_error _ e w HL) in Hrun. injection Hrun as <- <-.
    cbn [calls set_calls] in Hin. rewrite drop_app_length in Hin.
    destruct Hin as [Hin | []]; discriminate. }
  rewrite (Load_run_ok _ cv w HL), bind_run, applyAndMarkConfig_run in Hrun.
  set (w0 := mk_World (am w) (fs w) (heap w ++ [cv]) (clock w)
               (calls w ++ [call_Load (bytes_of_string
                  (AlertConfiguration.AlertmanagerConfiguration dbCfg))])) in *.
  assert (Hc : heap w0 !! length (heap w) = Some cv) by apply heap_lookup_new.
  pose proof (applyConfig_paths (length (heap w)) None cv w0 Hc) as Hp. cbv zeta in Hp.
  destruct (Ext.json_Marshal_am ext (PostableUserConfig.AlertmanagerConfig cv)) as [e | raw].
  { rewrite Hp in Hrun. injection Hrun as <- <-.
    cbn [calls set_calls w0] in Hin. rewrite <- !app_assoc, drop_app_length in Hin.
    cbn [app In] in Hin.
    repeat (destruct Hin as [Hin | Hin]; [discriminate |]). destruct Hin. }
  destruct (Ext.PersistTemplates ext (with_default_template ext cv)
              (Base.WorkingDirectory (Base (am w0))) (fs w0))
    as [fs' [[paths templatesChanged] [perr |]]].
  { rewrite Hp in Hrun. injection Hrun as <- <-.
    cbn [calls set_calls w0] in Hin. rewrite <- !app_assoc, drop_app_length in Hin.
    cbn [app In] in Hin.
    repeat (destruct Hin as [Hin | Hin]; [discriminate |]). destruct Hin. }
  destruct (negb (bool_decide (Base.ConfigHash (Base (am w0)) ≠ Ext.md5_Sum ext raw))
            && negb templatesChanged).
  { rewrite Hp in Hrun. discriminate. }
  destruct (Base.ApplyConfig
              (alerting_configuration ext raw (with_Templates paths (with_default_template ext cv)))
              fs' (Base (am w0))) as [g [aerr |]] eqn:Happly.
  { rewrite Hp in Hrun. injection Hrun as <- <-.
    cbn [calls set_calls w0] in Hin. rewrite <- !app_assoc, drop_app_length in Hin.
    cbn [app In] in Hin.
    repeat (destruct Hin as [Hin | Hin]; [discriminate |]). destruct Hin. }
  destruct Hp as (v & Hv & Hp). rewrite Hp in Hrun. clear Hp.
  cbn [am orgID set_ConfigMetrics set_Base w0] in Hrun.
  match type of Hrun with
  | context [Store_MarkConfigurationAsApplied ctx ?cmd ?w1] =>
      destruct (AlertingStore.MarkConfigurationAsApplied ctx cmd (Store (am w1)))
        as [db merr] eqn:Hmark;
      rewrite (Store_MarkConfigurationAsApplied_run ctx cmd w1 db merr Hmark) in Hrun
  end.
  cbn [am Store set_ConfigMetrics set_Base] in Hmark.
  cbv beta iota in Hrun. destruct merr as [e |]; [| discriminate]. injection Hrun as <- <-.
  cbn [am fs calls Store Base ConfigMetrics set_am set_Store set_calls set_ConfigMetrics
       set_Base w0] in Hin |- *.
  rewrite <- !app_assoc, drop_app_length in Hin |- *.
  unfold metrics_updates, calls_of_updates in Hin. cbn [app In map] in Hin.
  repeat (destruct Hin as [Hin | Hin]; [discriminate |]).
  destruct Hin as [Hin | []]. injection Hin as <-.
  exists e, (alerting_configuration ext raw (with_Templates paths (with_default_template ext cv))),
    g, db.
  split; [reflexivity |]. split; [exact Hmark |]. split; [reflexivity |].
  split; [reflexivity |].
  split; [cbn [app]; do 4 right; left; reflexivity |].
  split; [exact Happly |]. split; [reflexivity |].
  rewrite Hv. unfold metrics_updates, apply_updates.
  cbn [fold_left fst snd Gauge_Set_value AlertmanagerConfigMetrics.ConfigHash].
  apply lookup_insert_eq.
Qed.

(** ** The save operations, further *)

(** X9. [SaveAndApplyConfig] returns an error in two cases only.  When the
    configuration cannot be serialized, it returns the serializer's error
    wrapped with "failed to serialize to the Alertmanager configuration",
    and the store was not asked for anything: nothing was saved or applied.
    Otherwise what it returns, error or nil, is what the store's save
    returned, as it is, for a command that carries the serialized bytes,
    the version, the tenant's org ID, the time of the call and no default
    flag. *)
Theorem SaveAndApplyConfig_returns_the_save_result
    (ctx : Ctx) (cfg : ptr) (c : PostableUserConfig) (w w' : World) (r : option error) :
  heap w !! cfg = Some c ->
  SaveAndApplyConfig ext ctx cfg w = Ok r w' ->
  match Ext.json_Marshal_user ext c with
  | inl e =>
      r = Some (wrapError "failed to serialize to the Alertmanager configuration" e) /\
      am w' = am w /\ fs w' = fs w /\ heap w' = heap w /\
      calls w' = calls w ++ [call_json_Marshal_user c]
  | inr raw =>
      Store_SaveAlertmanagerConfigurationWithCallback ctx
        (SaveAlertmanagerConfigurationCmd.mk (string_of_bytes raw) false
           ("v" +:+ FormatInt (Ext.AlertConfigurationVersion ext)) (orgID (am w)) (clock w))
        (applyConfig_callback ext cfg raw)
        (set_calls (calls w ++ [call_json_Marshal_user c]) w) = Ok r w'
  end.
Proof.
  intros Hc Hrun. rewrite (SaveAndApplyConfig_run ctx cfg c w Hc) in Hrun.
  destruct (Ext.json_Marshal_user ext c) as [e | raw]; [| exact Hrun].
  injection Hrun as <- <-. repeat split; reflexivity.
Qed.

(** X10. Save and apply are coupled through the store.  With a store that
    runs the callback once and returns what the callback returned,
    [SaveAndApplyConfig] returns the error of [applyConfig], run on the
    serialized bytes, or nil when it succeeded; the Alertmanager is as
    [applyConfig] left it, except for the database, which is the one the
    store chose for that outcome. *)
Theorem SaveAndApplyConfig_couples_save_and_apply
    (ctx : Ctx) (cfg : ptr) (c : PostableUserConfig) (w : World) (raw : bytes)
    (k : option error -> StoreProg DB) :
  heap w !! cfg = Some c ->
  Ext.json_Marshal_user ext c = inr raw ->
  AlertingStore.SaveAlertmanagerConfigurationWithCallback ctx
    (SaveAlertmanagerConfigurationCmd.mk (string_of_bytes raw) false
       ("v" +:+ FormatInt (Ext.AlertConfigurationVersion ext)) (orgID (am w)) (clock w))
    (Store (am w)) = store_callback k ->
  (forall r, exists db, k r = store_return db r) ->
  exists changed r w1 db,
    applyConfig ext cfg (Some raw)
      (set_calls
         (calls w ++
          [call_json_Marshal_user c;
           call_SaveAlertmanagerConfigurationWithCallback ctx
             (SaveAlertmanagerConfigurationCmd.mk (string_of_bytes raw) false
                ("v" +:+ FormatInt (Ext.AlertConfigurationVersion ext)) (orgID (am w))
                (clock w))]) w) = Ok (changed, r) w1 /\
    k r = store_return db r /\
    SaveAndApplyConfig ext ctx cfg w = Ok r (set_am (set_Store db (am w1)) w1).
Proof.
  intros Hc Hraw Hstore Hk.
  match goal with
  | |- context [applyConfig ext cfg (Some raw) ?w0] =>
      destruct (applyConfig_returns cfg (Some raw) c w0 Hc) as ([changed r] & w1 & Happ)
  end.
  destruct (Hk r) as [db Hdb].
  exists changed, r, w1, db. split; [exact Happ |]. split; [exact Hdb |].
  rewrite (SaveAndApplyConfig_run ctx cfg c w Hc), Hraw.
  unfold Store_SaveAlertmanagerConfigurationWithCallback. mrun.
  rewrite <- app_assoc. cbn [app]. rewrite Hstore. cbn [run_store].
  unfold applyConfig_callback. rewrite !bind_run.
  match goal with
  | |- context [applyConfig ext cfg (Some raw) ?w0] =>
      match type of Happ with
      | applyConfig ext cfg (Some raw) ?w0' = _ => change w0 with w0'
      end
  end.
  rewrite Happ. mrun. rewrite Hdb. cbn [run_store]. mrun. reflexivity.
Qed.

(** X11. When the store refuses the save without running the callback,
    [SaveAndApplyConfig] returns the store's error as it is, and nothing was
    applied: the embedded Alertmanager, the gauges, the files and the
    configuration objects are as they were, and the only calls made are the
    serialization and the save. *)
Theorem SaveAndApplyConfig_refused_save_applies_nothing
    (ctx : Ctx) (cfg : ptr) (c : PostableUserConfig) (w : World) (raw : bytes)
    (db : DB) (e : error) :
  heap w !! cfg = Some c ->
  Ext.json_Marshal_user ext c = inr raw ->
  AlertingStore.SaveAlertmanagerConfigurationWithCallback ctx
    (SaveAlertmanagerConfigurationCmd.mk (string_of_bytes raw) false
       ("v" +:+ FormatInt (Ext.AlertConfigurationVersion ext)) (orgID (am w)) (clock w))
    (Store (am w)) = store_return db (Some e) ->
  exists w',
    SaveAndApplyConfig ext ctx cfg w = Ok (Some e) w' /\
    Base (am w') = Base (am w) /\
    ConfigMetrics (am w') = ConfigMetrics (am w) /\
    Store (am w') = db /\
    fs w' = fs w /\ heap w' = heap w /\
    calls w' =
      calls w ++
      [call_json_Marshal_user c;
       call_SaveAlertmanagerConfigurationWithCallback ctx
         (SaveAlertmanagerConfigurationCmd.mk (string_of_bytes raw) false
            ("v" +:+ FormatInt (Ext.AlertConfigurationVersion ext)) (orgID (am w)) (clock w))].
Proof.
  intros Hc Hraw Hstore.
  rewrite (SaveAndApplyConfig_run ctx cfg c w Hc), Hraw.
  unfold Store_SaveAlertmanagerConfigurationWithCallback. mrun.
  rewrite Hstore. cbn [run_store]. mrun.
  eexists. split; [reflexivity |]. world_norm.
  repeat (split; [reflexivity |]). rewrite <- app_assoc. reflexivity.
Qed.

(** X12. [SaveAndApplyDefaultConfig] always returns.  When the default
    configuration of the settings does not parse, it returns the parser's
    error as it is, and nothing was saved or applied.  When it parses, the
    store is asked once, right after parsing, to save a command that carries
    the default configuration text, the default flag, the version, the
    tenant's org ID and the time of the call; every digest taken while the
    store runs the callback is over the bytes of that text; and nil is
    returned. *)
Theorem SaveAndApplyDefaultConfig_outcome (ctx : Ctx) (w : World) :
  exists r w',
    SaveAndApplyDefaultConfig ext ctx w = Ok r w' /\
    match Ext.Load ext (bytes_of_string (DefaultConfiguration (UnifiedAlerting (Settings (am w)))))
    with
    | inl e =>
        r = Some e /\
        am w' = am w /\ fs w' = fs w /\ heap w' = heap w /\
        calls w' =
          calls w ++
          [call_Load (bytes_of_string (DefaultConfiguration (UnifiedAlerting (Settings (am w)))))]
    | inr cv =>
        r = None /\
        exists rest,
          calls w' =
            calls w ++
            [call_Load (bytes_of_string (DefaultConfiguration (UnifiedAlerting (Settings (am w)))));
             call_SaveAlertmanagerConfigurationWithCallback ctx
               (SaveAlertmanagerConfigurationCmd.mk
                  (DefaultConfiguration (UnifiedAlerting (Settings (am w))))
                  true
                  ("v" +:+ FormatInt (Ext.AlertConfigurationVersion ext))
                  (orgID (am w))
                  (clock w))] ++ rest /\
          Forall (callback_call
                    (bytes_of_string (DefaultConfiguration (UnifiedAlerting (Settings (am w))))))
                 rest
    end.
Proof.
  unfold SaveAndApplyDefaultConfig, Base_WithLock, time_Now_Unix. mrun.
  destruct (Ext.Load ext _) as [e | cv] eqn:HL.
  - rewrite (Load_run_error _ e w HL). eexists _, _. split; [reflexivity |].
    repeat split; reflexivity.
  - rewrite (Load_run_ok _ cv w HL), bind_run.
    unfold Store_SaveAlertmanagerConfigurationWithCallback. mrun.
    match goal with
    | |- context [run_store ?p (applyConfig_callback ext ?cfg ?raw) ?w1] =>
        destruct (run_store_calls cfg raw p cv w1 (heap_lookup_new (heap w) cv))
          as (r & w2 & c2 & new & Hrun & _ & Hcalls & Hnew);
        rewrite Hrun
    end.
    cbn [calls set_calls] in Hcalls.
    exists None, w2. split; [destruct r; reflexivity |].
    split; [reflexivity |]. exists new.
    split; [rewrite Hcalls, <- !app_assoc; reflexivity | exact Hnew].
Qed.

(** X13. Applying the same raw bytes twice reconfigures once.  Let a first
    [applyConfig] go through: the templates are persisted, something
    changed, and [Base.ApplyConfig] succeeds.  When the embedded
    Alertmanager then reports the digest of those bytes as its configuration
    hash and persisting the templates again changes nothing on disk, a
    second [applyConfig] with the same bytes returns (false, nil), leaves
    the Alertmanager as the first left it, and over both calls
    [Base.ApplyConfig] was called exactly once. *)
Theorem applyConfig_twice_reconfigures_once
    (cfg : ptr) (raw : bytes) (c : PostableUserConfig) (w : World)
    (fs1 fs2 : FS) (paths paths2 : list string) (templatesChanged : bool) (g : G) :
  heap w !! cfg = Some c ->
  Ext.PersistTemplates ext (with_default_template ext c)
    (Base.WorkingDirectory (Base (am w))) (fs w) = (fs1, (paths, templatesChanged, None)) ->
  Base.ConfigHash (Base (am w)) ≠ Ext.md5_Sum ext raw \/ templatesChanged = true ->
  Base.ApplyConfig
    (alerting_configuration ext raw (with_Templates paths (with_default_template ext c)))
    fs1 (Base (am w)) = (g, None) ->
  Base.ConfigHash g = Ext.md5_Sum ext raw ->
  Ext.PersistTemplates ext
    (with_default_template ext (with_Templates paths (with_default_template ext c)))
    (Base.WorkingDirectory g) fs1 = (fs2, (paths2, false, None)) ->
  exists w1 w2,
    applyConfig ext cfg (Some raw) w = Ok (true, None) w1 /\
    applyConfig ext cfg (Some raw) w1 = Ok (false, None) w2 /\
    am w2 = am w1 /\
    length (filter (fun k => is_Base_ApplyConfig k = true)
              (drop (length (calls w)) (calls w2))) = 1%nat.
Proof.
  intros Hc Hpersist Hchanged Happly Hhash Hpersist2.
  pose proof (applyConfig_paths cfg (Some raw) c w Hc) as Hp. cbv zeta in Hp.
  rewrite Hpersist in Hp.
  assert (Hgo : negb (bool_decide (Base.ConfigHash (Base (am w)) ≠ Ext.md5_Sum ext raw))
                && negb templatesChanged = false).
  { destruct Hchanged as [Hne | ->]; [| apply andb_false_r].
    rewrite bool_decide_eq_true_2 by exact Hne. reflexivity. }
  rewrite Hgo, Happly in Hp. destruct Hp as (v & _ & Hp).
  eexists _, _. split; [exact Hp |].
  match type of Hp with
  | _ = Ok _ ?w1 =>
      assert (Hc1 : heap w1 !! cfg =
                    Some (with_Templates paths (with_default_template ext c)))
        by (cbn [heap]; eapply heap_lookup_assign, heap_lookup_assign, Hc);
      pose proof (applyConfig_paths cfg (Some raw) _ w1 Hc1) as Hp2
  end.
  cbv zeta in Hp2.
  cbn [am fs Base set_ConfigMetrics set_Base] in Hp2.
  rewrite Hpersist2 in Hp2.
  rewrite bool_decide_eq_false_2 in Hp2 by (intros Hne; apply Hne; exact Hhash).
  cbn [negb andb] in Hp2.
  split; [exact Hp2 |]. cbn [am calls].
  split; [reflexivity |].
  rewrite <- !app_assoc, drop_app_length.
  unfold metrics_updates, calls_of_updates. cbn [app map]. reflexivity.
Qed.

End Run.

(** * The statements, tried on the example installation *)

#[local] Existing Instance Example.base_ops.
#[local] Existing Instance Example.store_ops.

(** C2 on a tenant that already runs the configuration. *)
Lemma applyConfig_unchanged_is_noop_witness :
  heap Example.settled !! 0%nat = Some (Example.config None []) /\
  Ext.md5_Sum Example.ext Example.raw = Base.ConfigHash (Base (am Example.settled)) /\
  Ext.PersistTemplates Example.ext
    (with_default_template Example.ext (Example.config None []))
    (Base.WorkingDirectory (Base (am Example.settled))) (fs Example.settled) =
    (Example.default_files, (["/var/lib/grafana/alerting/1/__default__.tmpl"], false, None)) /\
  exists w',
    applyConfig Example.ext 0%nat (Some Example.raw) Example.settled = Ok (false, None) w' /\
    am w' = am Example.settled.
Proof.
  assert (Hheap : heap Example.settled !! 0%nat = Some (Example.config None []))
    by reflexivity.
  assert (Hsum : Ext.md5_Sum Example.ext Example.raw =
                 Base.ConfigHash (Base (am Example.settled)))
    by reflexivity.
  assert (Hpersist :
    Ext.PersistTemplates Example.ext
      (with_default_template Example.ext (Example.config None []))
      (Base.WorkingDirectory (Base (am Example.settled))) (fs Example.settled) =
    (Example.default_files, (["/var/lib/grafana/alerting/1/__default__.tmpl"], false, None)))
    by (vm_compute; reflexivity).
  split; [exact Hheap |]. split; [exact Hsum |]. split; [exact Hpersist |].
  destruct (applyConfig_unchanged_is_noop Example.ext 0%nat Example.raw
              (Example.config None []) Example.settled Example.default_files
              ["/var/lib/grafana/alerting/1/__default__.tmpl"] Hheap Hsum Hpersist)
    as (w' & c' & Hrun & Ham & _).
  exists w'. split; [exact Hrun | exact Ham].
Defined.

(** C3, as the code has it, on a configuration with a template name that
    is refused. *)
Lemma applyConfig_failure_is_clean_witness :
  exists w',
    applyConfig Example.ext 0%nat (Some Example.raw) Example.invalid_template =
      Ok (false, Some (errorString "template file name is not valid")) w' /\
    am w' = am Example.invalid_template /\
    applyAndMarkConfig Example.ext tt "6d3ae1" 0%nat (Some Example.raw) Example.invalid_template =
      Ok (Some (errorString "template file name is not valid")) w'.
Proof.
  assert (Hpersist :
    Ext.PersistTemplates Example.ext
      (with_default_template Example.ext
         (Example.config (Some {[ "../outside.tmpl" := "{{ define x }}{{ end }}" ]})
            ["stale.tmpl"]))
      (Base.WorkingDirectory (Base (am Example.invalid_template)))
      (fs Example.invalid_template) =
    (∅, ([], false, Some (errorString "template file name is not valid"))))
    by (vm_compute; reflexivity).
  destruct (applyConfig_failure_is_clean Example.ext tt "6d3ae1" 0%nat (Some Example.raw)
              (Example.config (Some {[ "../outside.tmpl" := "{{ define x }}{{ end }}" ]})
                 ["stale.tmpl"])
              Example.invalid_template (errorString "template file name is not valid")
              eq_refl)
    as (_ & Hstage & _).
  destruct (Hstage Example.raw ∅ [] false eq_refl Hpersist)
    as (w' & Hrun & Hmark & Ham & _).
  exists w'. split; [exact Hrun | split; [exact Ham | exact Hmark]].
Defined.

(** C3 does not hold as the specification states it.  On a tenant whose
    configuration the embedded Alertmanager refuses, [applyConfig] fails
    after [Base.ApplyConfig] was called, and what it did before is still
    there: the default template, which was not on disk, is on disk, and the
    caller's object holds the default template and lists the persisted path
    in place of the one it listed. *)
Lemma applyConfig_failed_apply_is_not_undone :
  exists w' c' err,
    applyConfig Example.ext 0%nat (Some Example.raw) Example.no_receivers =
      Ok (false, Some err) w' /\
    existsb is_Base_ApplyConfig (calls w') = true /\
    fs Example.no_receivers !! "__default__.tmpl" = None /\
    fs w' !! "__default__.tmpl" = Some (Ext.DefaultTemplateString Example.ext) /\
    heap Example.no_receivers !! 0%nat =
      Some (PostableUserConfig.mk None
              (PostableApiAlertingConfig.mk
                 (Route.mk "grafana-default-email" [] ∅ ∅ [] []) [] ["stale.tmpl"] [])) /\
    heap w' !! 0%nat = Some c' /\
    PostableUserConfig.TemplateFiles c' = Some Example.default_files /\
    PostableApiAlertingConfig.Templates (PostableUserConfig.AlertmanagerConfig c') =
      ["/var/lib/grafana/alerting/1/__default__.tmpl"].
Proof.
  eexists _, _, _. split; [vm_compute; reflexivity |].
  repeat split; vm_compute; reflexivity.
Qed.

(** C4 does not hold as the specification states it.  On a tenant that
    already runs what the record parses to, the record parses,
    [ApplyConfig] succeeds, and [MarkConfigurationAsApplied] is not called;
    nothing is marked. *)
Lemma ApplyConfig_unchanged_does_not_mark :
  exists cv w',
    Ext.Load Example.ext (bytes_of_string "{}") = inr cv /\
    ApplyConfig Example.ext tt (AlertConfiguration.mk "{}" "6d3ae1") Example.settled_loaded =
      Ok None w' /\
    existsb is_MarkConfigurationAsApplied (calls w') = false /\
    Example.applied (Store (am w')) = [].
Proof.
  eexists _, _. split; [reflexivity |].
  split; [vm_compute; reflexivity |]. split; reflexivity.
Qed.

(** C4 as amended, on a tenant that runs no configuration yet. *)
Lemma ApplyConfig_marks_applied_when_changed_witness :
  exists w',
    ApplyConfig Example.ext tt (AlertConfiguration.mk "{}" "6d3ae1") Example.fresh = Ok None w' /\
    exists pre,
      calls w' =
      pre ++ [call_MarkConfigurationAsApplied tt (MarkConfigurationAsAppliedCmd.mk 1 "6d3ae1")].
Proof.
  assert (HL : Ext.Load Example.ext (bytes_of_string "{}") = inr (Example.config None []))
    by reflexivity.
  assert (Henc :
    Ext.json_Marshal_am Example.ext (PostableUserConfig.AlertmanagerConfig (Example.config None []))
    = inr (bytes_of_string "{templates:[]}"))
    by reflexivity.
  assert (Hpersist :
    Ext.PersistTemplates Example.ext
      (with_default_template Example.ext (Example.config None []))
      (Base.WorkingDirectory (Base (am Example.fresh))) (fs Example.fresh) =
    (Example.default_files, (["/var/lib/grafana/alerting/1/__default__.tmpl"], true, None)))
    by (vm_compute; reflexivity).
  destruct (ApplyConfig_marks_applied_when_changed Example.ext tt
              (AlertConfiguration.mk "{}" "6d3ae1") Example.fresh
              (Example.config None []) (bytes_of_string "{templates:[]}")
              Example.default_files ["/var/lib/grafana/alerting/1/__default__.tmpl"] true
              HL Henc Hpersist)
    as [Hchanged _].
  assert (Happly :
    Base.ApplyConfig
      (alerting_configuration Example.ext (bytes_of_string "{templates:[]}")
         (with_Templates ["/var/lib/grafana/alerting/1/__default__.tmpl"]
            (with_default_template Example.ext (Example.config None []))))
      Example.default_files (Base (am Example.fresh)) =
    (Example.digest (bytes_of_string "{templates:[]}"), None))
    by reflexivity.
  assert (Hmark :
    AlertingStore.MarkConfigurationAsApplied tt
      (MarkConfigurationAsAppliedCmd.mk (orgID (am Example.fresh))
         (AlertConfiguration.ConfigurationHash (AlertConfiguration.mk "{}" "6d3ae1")))
      (Store (am Example.fresh)) =
    (Example.mk_Database [] [MarkConfigurationAsAppliedCmd.mk 1 "6d3ae1"] None, None))
    by reflexivity.
  destruct (Hchanged (or_intror eq_refl) _ _ Happly Hmark) as (w' & v & Hrun & Hcalls & _).
  exists w'. split; [exact Hrun |].
  lazymatch type of Hcalls with
  | _ = ?a ++ ?b ++ ?c ++ [_] => exists (a ++ b ++ c)
  end.
  rewrite Hcalls, <- !app_assoc. reflexivity.
Defined.

(** C5 on a configuration object without template files. *)
Lemma applyConfig_injects_default_template_witness :
  heap Example.fresh !! 0%nat = Some (Example.config None []) /\
  exists r w' c' m,
    applyConfig Example.ext 0%nat (Some Example.raw) Example.fresh = Ok r w' /\
    heap w' !! 0%nat = Some c' /\
    PostableUserConfig.TemplateFiles c' = Some m /\
    m !! "__default__.tmpl" = Some (Ext.DefaultTemplateString Example.ext).
Proof.
  destruct (applyConfig_injects_default_template Example.ext 0%nat (Some Example.raw)
              (Example.config None []) Example.fresh Example.raw)
    as (r & w' & c' & m & Hrun & Hc' & Hfiles & Hdefault & _);
    [reflexivity | reflexivity |].
  split; [reflexivity |].
  exists r, w', c', m. repeat split; assumption.
Defined.

(** C7 on the example installation. *)
Lemma SaveAndApplyConfig_persists_the_hashed_bytes_witness :
  heap Example.fresh !! 0%nat = Some (Example.config None []) /\
  Ext.json_Marshal_user Example.ext (Example.config None []) =
    inr (bytes_of_string "{alertmanager_config:{templates:[]}}") /\
  (exists r w' cmd rest,
     SaveAndApplyConfig Example.ext tt 0%nat Example.fresh = Ok r w' /\
     calls w' =
       [call_json_Marshal_user (Example.config None []);
        call_SaveAlertmanagerConfigurationWithCallback tt cmd] ++ rest /\
     bytes_of_string (SaveAlertmanagerConfigurationCmd.AlertmanagerConfiguration cmd) =
       bytes_of_string "{alertmanager_config:{templates:[]}}" /\
     Forall (callback_call (bytes_of_string "{alertmanager_config:{templates:[]}}")) rest) /\
  (exists changed r1 w1 rest1,
     applyConfig Example.ext 0%nat
       (Some (bytes_of_string "{alertmanager_config:{templates:[]}}"))
       (set_calls
          [call_json_Marshal_user (Example.config None []);
           call_SaveAlertmanagerConfigurationWithCallback tt
             (SaveAlertmanagerConfigurationCmd.mk "{alertmanager_config:{templates:[]}}" false
                "v1" 1 1700000000)]
          Example.fresh) = Ok (changed, r1) w1 /\
     calls w1 =
       [call_json_Marshal_user (Example.config None []);
        call_SaveAlertmanagerConfigurationWithCallback tt
          (SaveAlertmanagerConfigurationCmd.mk "{alertmanager_config:{templates:[]}}" false
             "v1" 1 1700000000);
        call_md5_Sum (bytes_of_string "{alertmanager_config:{templates:[]}}")] ++ rest1 /\
     existsb is_Base_ApplyConfig rest1 = true).
Proof.
  assert (Hstore :
    AlertingStore.SaveAlertmanagerConfigurationWithCallback tt
      (SaveAlertmanagerConfigurationCmd.mk
         (string_of_bytes (bytes_of_string "{alertmanager_config:{templates:[]}}")) false
         ("v" +:+ FormatInt (Ext.AlertConfigurationVersion Example.ext))
         (orgID (am Example.fresh)) (clock Example.fresh))
      (Store (am Example.fresh)) =
    store_callback
      (fun r =>
         match r with
         | Some err => store_return (Store (am Example.fresh)) (Some err)
         | None =>
             store_return
               (Example.mk_Database
                  [SaveAlertmanagerConfigurationCmd.mk
                     "{alertmanager_config:{templates:[]}}" false "v1" 1 1700000000]
                  [] None) None
         end))
    by (vm_compute; reflexivity).
  assert (Hpersist :
    Ext.PersistTemplates Example.ext
      (with_default_template Example.ext (Example.config None []))
      (Base.WorkingDirectory (Base (am Example.fresh))) (fs Example.fresh) =
    (Example.default_files, (["/var/lib/grafana/alerting/1/__default__.tmpl"], true, None)))
    by (vm_compute; reflexivity).
  destruct (SaveAndApplyConfig_persists_the_hashed_bytes Example.ext tt 0%nat
              (Example.config None []) Example.fresh
              (bytes_of_string "{alertmanager_config:{templates:[]}}"))
    as [(r & w' & cmd & rest & Hrun & Hcalls & _ & Hbytes & Hrest) Hcallback];
    [reflexivity | reflexivity |].
  destruct (Hcallback _ Hstore)
    as (changed & r1 & w1 & rest1 & Happ & _ & Hcalls1 & _ & Hbase).
  split; [reflexivity |]. split; [reflexivity |]. split.
  - exists r, w', cmd, rest. repeat split; assumption.
  - exists changed, r1, w1, rest1. split; [exact Happ |]. split; [exact Hcalls1 |].
    rewrite (Hbase _ _ _ _ Hpersist). apply orb_true_r.
Defined.

(** C10 does not hold as the specification states it.  Where template
    persistence fails, the step is reached, [PersistTemplates] returns no
    path and an error, and [Templates] still lists the stale path it listed
    before: it was not overwritten. *)
Lemma applyConfig_failed_persist_keeps_Templates :
  exists w' c' err,
    applyConfig Example.ext 0%nat (Some Example.raw) Example.invalid_template =
      Ok (false, Some err) w' /\
    existsb is_PersistTemplates (calls w') = true /\
    snd (Ext.PersistTemplates Example.ext
           (with_default_template Example.ext
              (Example.config (Some {[ "../outside.tmpl" := "{{ define x }}{{ end }}" ]})
                 ["stale.tmpl"]))
           "/var/lib/grafana/alerting/1" ∅) = ([], false, Some err) /\
    heap w' !! 0%nat = Some c' /\
    PostableApiAlertingConfig.Templates (PostableUserConfig.AlertmanagerConfig c') =
      ["stale.tmpl"] /\
    PostableApiAlertingConfig.Templates (PostableUserConfig.AlertmanagerConfig c') ≠ [].
Proof.
  eexists _, _, _. split; [vm_compute; reflexivity |].
  split; [reflexivity |]. split; [vm_compute; reflexivity |].
  split; [reflexivity |]. split; [reflexivity | discriminate].
Qed.

(** C10 as amended, on a configuration object without template files. *)
Lemma applyConfig_mutates_caller_config_witness :
  heap Example.fresh !! 0%nat = Some (Example.config None []) /\
  exists r w' c',
    applyConfig Example.ext 0%nat (Some Example.raw) Example.fresh = Ok r w' /\
    heap w' !! 0%nat = Some c' /\
    PostableUserConfig.TemplateFiles c' =
      Some (<["__default__.tmpl" := Ext.DefaultTemplateString Example.ext]> ∅).
Proof.
  destruct (applyConfig_mutates_caller_config Example.ext 0%nat (Some Example.raw)
              (Example.config None []) Example.fresh Example.raw)
    as (r & w' & c' & fs' & paths & tc & perr & Hrun & _ & Hc' & Hfiles & _);
    [reflexivity | reflexivity |].
  split; [reflexivity |].
  exists r, w', c'. repeat split; assumption.
Defined.

(** C1 on a database that cannot be written: the save fails and
    [SaveAndApplyDefaultConfig] returns nil all the same. *)
Lemma SaveAndApplyDefaultConfig_discards_the_save_error_witness :
  Ext.Load Example.ext (bytes_of_string "{}") = inr (Example.config None []) /\
  exists w1,
    Store_SaveAlertmanagerConfigurationWithCallback tt
      (SaveAlertmanagerConfigurationCmd.mk "{}" true "v1" 1 1700000000)
      (applyConfig_callback Example.ext 1%nat (bytes_of_string "{}"))
      (mk_World (am Example.database_down) (fs Example.database_down)
         (heap Example.database_down ++ [Example.config None []])
         (clock Example.database_down)
         (calls Example.database_down ++ [call_Load (bytes_of_string "{}")]))
    = Ok (Some (errorString "database is locked")) w1 /\
    SaveAndApplyDefaultConfig Example.ext tt Example.database_down = Ok None w1.
Proof.
  assert (Hex : exists w1,
    Store_SaveAlertmanagerConfigurationWithCallback tt
      (SaveAlertmanagerConfigurationCmd.mk "{}" true "v1" 1 1700000000)
      (applyConfig_callback Example.ext 1%nat (bytes_of_string "{}"))
      (mk_World (am Example.database_down) (fs Example.database_down)
         (heap Example.database_down ++ [Example.config None []])
         (clock Example.database_down)
         (calls Example.database_down ++ [call_Load (bytes_of_string "{}")]))
    = Ok (Some (errorString "database is locked")) w1)
    by (eexists; vm_compute; reflexivity).
  destruct Hex as [w1 Hsave]. split; [reflexivity |]. exists w1. split; [exact Hsave |].
  exact (SaveAndApplyDefaultConfig_discards_the_save_error Example.ext tt
           Example.database_down w1 (Example.config None [])
           (errorString "database is locked") eq_refl Hsave).
Defined.

(** * The further properties, tried on the example installation *)

(** X4 on a configuration with a route tree and an inhibit rule. *)
Lemma updateConfigMetrics_gauges_witness :
  exists w',
    updateConfigMetrics 0%nat
      (Example.world (Example.digest Example.raw) Example.default_files
         (PostableUserConfig.mk None
            (PostableApiAlertingConfig.mk
               (Route.mk "root" [Build_Matcher MatchEqual "team" "a"] ∅ ∅ []
                  [Route.mk "child" [] ∅ {[ "severity" := "critical" ]} [] []])
               [Build_InhibitRule ∅ ∅ [Build_Matcher MatchEqual "alertname" "NodeDown"]
                  ∅ ∅ [Build_Matcher MatchEqual "severity" "warning"]]
               [] []))
         None) = Ok tt w' /\
    AlertmanagerConfigMetrics.Matchers (ConfigMetrics (am w')) = float64_of_int 3 /\
    AlertmanagerConfigMetrics.Match (ConfigMetrics (am w')) = float64_of_int 1.
Proof.
  destruct (updateConfigMetrics_gauges 0%nat None
              (Route.mk "root" [Build_Matcher MatchEqual "team" "a"] ∅ ∅ []
                 [Route.mk "child" [] ∅ {[ "severity" := "critical" ]} [] []])
              [Build_InhibitRule ∅ ∅ [Build_Matcher MatchEqual "alertname" "NodeDown"]
                 ∅ ∅ [Build_Matcher MatchEqual "severity" "warning"]]
              [] []
              (Example.world (Example.digest Example.raw) Example.default_files
                 (PostableUserConfig.mk None
                    (PostableApiAlertingConfig.mk
                       (Route.mk "root" [Build_Matcher MatchEqual "team" "a"] ∅ ∅ []
                          [Route.mk "child" [] ∅ {[ "severity" := "critical" ]} [] []])
                       [Build_InhibitRule ∅ ∅ [Build_Matcher MatchEqual "alertname" "NodeDown"]
                          ∅ ∅ [Build_Matcher MatchEqual "severity" "warning"]]
                       [] []))
                 None)
              eq_refl)
    as (w' & Hrun & HM & _ & HMa & _).
  exists w'. split; [exact Hrun |].
  split; [rewrite HM | rewrite HMa]; vm_compute; reflexivity.
Defined.

(** X5 on a tenant that runs no configuration yet. *)
Lemma applyConfig_frame_witness :
  exists r w',
    applyConfig Example.ext 0%nat (Some Example.raw) Example.fresh = Ok r w' /\
    Store (am w') = Store (am Example.fresh) /\
    clock w' = clock Example.fresh.
Proof.
  assert (Hex : exists r w',
            applyConfig Example.ext 0%nat (Some Example.raw) Example.fresh = Ok r w')
    by (eexists _, _; vm_compute; reflexivity).
  destruct Hex as (r & w' & Hrun). exists r, w'.
  destruct (applyConfig_frame Example.ext 0%nat (Some Example.raw) Example.fresh w' r Hrun)
    as (HS & _ & _ & Hclock & _).
  split; [exact Hrun | split; [exact HS | exact Hclock]].
Defined.

(** X6 on a tenant that runs no configuration yet: the configuration is
    applied, with the given bytes. *)
Lemma applyConfig_reconfigures_when_changed_witness :
  exists ac w',
    applyConfig Example.ext 0%nat (Some Example.raw) Example.fresh = Ok (true, None) w' /\
    AlertingConfiguration.rawAlertmanagerConfig ac = Example.raw /\
    filter (fun k => is_Base_ApplyConfig k = true)
      (drop (length (calls Example.fresh)) (calls w')) = [call_Base_ApplyConfig ac].
Proof.
  assert (Hpersist :
    Ext.PersistTemplates Example.ext
      (with_default_template Example.ext (Example.config None []))
      (Base.WorkingDirectory (Base (am Example.fresh))) (fs Example.fresh) =
    (Example.default_files, (["/var/lib/grafana/alerting/1/__default__.tmpl"], true, None)))
    by (vm_compute; reflexivity).
  destruct (applyConfig_reconfigures_when_changed Example.ext 0%nat (Some Example.raw)
              (Example.config None []) Example.fresh Example.raw Example.default_files
              ["/var/lib/grafana/alerting/1/__default__.tmpl"] true
              eq_refl eq_refl Hpersist (or_intror eq_refl))
    as (ac & g & aerr & w' & Hac & Happly & Hrun & _ & _ & Hcalls & _).
  subst ac. injection Happly as <- <-.
  eexists _, w'. split; [exact Hrun |]. split; [| exact Hcalls]. reflexivity.
Defined.

(** X7 on a record whose configuration is empty. *)
Lemma ApplyConfig_wraps_every_error_witness :
  exists w',
    ApplyConfig Example.ext tt (AlertConfiguration.mk "" "6d3ae1") Example.settled =
      Ok (Some (wrapError "failed to parse Alertmanager config"
                  (errorString "unexpected end of JSON input"))) w' /\
    am w' = am Example.settled.
Proof.
  assert (Hex : exists w',
            ApplyConfig Example.ext tt (AlertConfiguration.mk "" "6d3ae1") Example.settled =
            Ok (Some (wrapError "failed to parse Alertmanager config"
                        (errorString "unexpected end of JSON input"))) w')
    by (eexists; vm_compute; reflexivity).
  destruct Hex as [w' Hrun]. exists w'. split; [exact Hrun |].
  pose proof (ApplyConfig_wraps_every_error Example.ext tt _ _ _ _ Hrun) as H.
  cbn in H. destruct H as (_ & _ & Ham & _). exact Ham.
Defined.

(** X8 on a tenant whose database cannot be written: the configuration is
    applied and the failure to mark it is returned. *)
Lemma ApplyConfig_failed_mark_keeps_the_new_configuration_witness :
  exists w' ac g,
    ApplyConfig Example.ext tt (AlertConfiguration.mk "{}" "6d3ae1") Example.database_down =
      Ok (Some (wrapError "unable to apply configuration" (errorString "database is locked"))) w' /\
    Base.ApplyConfig ac (fs w') (Base (am Example.database_down)) = (g, None) /\
    Base (am w') = g.
Proof.
  assert (Hex : exists w',
            ApplyConfig Example.ext tt (AlertConfiguration.mk "{}" "6d3ae1")
              Example.database_down =
            Ok (Some (wrapError "unable to apply configuration"
                        (errorString "database is locked"))) w' /\
            In (call_MarkConfigurationAsApplied tt (MarkConfigurationAsAppliedCmd.mk 1 "6d3ae1"))
               (drop (length (calls Example.database_down)) (calls w'))).
  { eexists. split; [vm_compute; reflexivity |].
    vm_compute. repeat (first [left; reflexivity | right]). }
  destruct Hex as (w' & Hrun & Hin).
  destruct (ApplyConfig_failed_mark_keeps_the_new_configuration Example.ext tt _ _ _ _ _ Hrun Hin)
    as (e & ac & g & db & _ & _ & _ & _ & _ & Happly & HB & _).
  exists w', ac, g. split; [exact Hrun | split; [exact Happly | exact HB]].
Defined.

(** X9 on the example installation. *)
Lemma SaveAndApplyConfig_returns_the_save_result_witness :
  exists r w',
    SaveAndApplyConfig Example.ext tt 0%nat Example.fresh = Ok r w' /\
    Store_SaveAlertmanagerConfigurationWithCallback tt
      (SaveAlertmanagerConfigurationCmd.mk "{alertmanager_config:{templates:[]}}" false "v1" 1
         1700000000)
      (applyConfig_callback Example.ext 0%nat
         (bytes_of_string "{alertmanager_config:{templates:[]}}"))
      (set_calls [call_json_Marshal_user (Example.config None [])] Example.fresh) = Ok r w'.
Proof.
  assert (Hex : exists r w', SaveAndApplyConfig Example.ext tt 0%nat Example.fresh = Ok r w')
    by (eexists _, _; vm_compute; reflexivity).
  destruct Hex as (r & w' & Hrun). exists r, w'. split; [exact Hrun |].
  exact (SaveAndApplyConfig_returns_the_save_result Example.ext tt 0%nat
           (Example.config None []) Example.fresh w' r eq_refl Hrun).
Defined.

(** X10 on the example installation, whose store runs the callback once. *)
Lemma SaveAndApplyConfig_couples_save_and_apply_witness :
  exists changed r w1 db,
    applyConfig Example.ext 0%nat
      (Some (bytes_of_string "{alertmanager_config:{templates:[]}}"))
      (set_calls
         [call_json_Marshal_user (Example.config None []);
          call_SaveAlertmanagerConfigurationWithCallback tt
            (SaveAlertmanagerConfigurationCmd.mk "{alertmanager_config:{templates:[]}}" false
               "v1" 1 1700000000)]
         Example.fresh) = Ok (changed, r) w1 /\
    SaveAndApplyConfig Example.ext tt 0%nat Example.fresh =
      Ok r (set_am (set_Store db (am w1)) w1).
Proof.
  assert (Hstore :
    AlertingStore.SaveAlertmanagerConfigurationWithCallback tt
      (SaveAlertmanagerConfigurationCmd.mk
         (string_of_bytes (bytes_of_string "{alertmanager_config:{templates:[]}}")) false
         ("v" +:+ FormatInt (Ext.AlertConfigurationVersion Example.ext))
         (orgID (am Example.fresh)) (clock Example.fresh))
      (Store (am Example.fresh)) =
    store_callback
      (fun r =>
         match r with
         | Some err => store_return (Store (am Example.fresh)) (Some err)
         | None =>
             store_return
               (Example.mk_Database
                  [SaveAlertmanagerConfigurationCmd.mk
                     "{alertmanager_config:{templates:[]}}" false "v1" 1 1700000000]
                  [] None) None
         end))
    by (vm_compute; reflexivity).
  destruct (SaveAndApplyConfig_couples_save_and_apply Example.ext tt 0%nat
              (Example.config None []) Example.fresh
              (bytes_of_string "{alertmanager_config:{templates:[]}}") _
              eq_refl eq_refl Hstore)
    as (changed & r & w1 & db & Happ & _ & Hrun).
  { intros [e |]; eexists; reflexivity. }
  exists changed, r, w1, db. split; [exact Happ | exact Hrun].
Defined.

(** X11 on a tenant whose database cannot be written. *)
Lemma SaveAndApplyConfig_refused_save_applies_nothing_witness :
  exists w',
    SaveAndApplyConfig Example.ext tt 0%nat Example.database_down =
      Ok (Some (errorString "database is locked")) w' /\
    Base (am w') = Base (am Example.database_down) /\
    heap w' = heap Example.database_down.
Proof.
  assert (Hstore :
    AlertingStore.SaveAlertmanagerConfigurationWithCallback tt
      (SaveAlertmanagerConfigurationCmd.mk
         (string_of_bytes (bytes_of_string "{alertmanager_config:{templates:[]}}")) false
         ("v" +:+ FormatInt (Ext.AlertConfigurationVersion Example.ext))
         (orgID (am Example.database_down)) (clock Example.database_down))
      (Store (am Example.database_down)) =
    store_return (Store (am Example.database_down)) (Some (errorString "database is locked")))
    by reflexivity.
  destruct (SaveAndApplyConfig_refused_save_applies_nothing Example.ext tt 0%nat
              (Example.config None []) Example.database_down
              (bytes_of_string "{alertmanager_config:{templates:[]}}")
              (Store (am Example.database_down)) (errorString "database is locked")
              eq_refl eq_refl Hstore)
    as (w' & Hrun & HB & _ & _ & _ & Hh & _).
  exists w'. split; [exact Hrun | split; [exact HB | exact Hh]].
Defined.

(** X13 on a tenant that runs no configuration yet. *)
Lemma applyConfig_twice_reconfigures_once_witness :
  exists w1 w2,
    applyConfig Example.ext 0%nat (Some Example.raw) Example.fresh = Ok (true, None) w1 /\
    applyConfig Example.ext 0%nat (Some Example.raw) w1 = Ok (false, None) w2 /\
    am w2 = am w1.
Proof.
  assert (Hpersist :
    Ext.PersistTemplates Example.ext
      (with_default_template Example.ext (Example.config None []))
      (Base.WorkingDirectory (Base (am Example.fresh))) (fs Example.fresh) =
    (Example.default_files, (["/var/lib/grafana/alerting/1/__default__.tmpl"], true, None)))
    by (vm_compute; reflexivity).
  assert (Happly :
    Base.ApplyConfig
      (alerting_configuration Example.ext Example.raw
         (with_Templates ["/var/lib/grafana/alerting/1/__default__.tmpl"]
            (with_default_template Example.ext (Example.config None []))))
      Example.default_files (Base (am Example.fresh)) = (Example.digest Example.raw, None))
    by reflexivity.
  assert (Hpersist2 :
    Ext.PersistTemplates Example.ext
      (with_default_template Example.ext
         (with_Templates ["/var/lib/grafana/alerting/1/__default__.tmpl"]
            (with_default_template Example.ext (Example.config None []))))
      (Base.WorkingDirectory (Example.digest Example.raw)) Example.default_files =
    (Example.default_files, (["/var/lib/grafana/alerting/1/__default__.tmpl"], false, None)))
    by (vm_compute; reflexivity).
  destruct (applyConfig_twice_reconfigures_once Example.ext 0%nat Example.raw
              (Example.config None []) Example.fresh Example.default_files
              Example.default_files ["/var/lib/grafana/alerting/1/__default__.tmpl"]
              ["/var/lib/grafana/alerting/1/__default__.tmpl"] true
              (Example.digest Example.raw)
              eq_refl Hpersist (or_intror eq_refl) Happly eq_refl Hpersist2)
    as (w1 & w2 & H1 & H2 & Ham & _).
  exists w1, w2. split; [exact H1 | split; [exact H2 | exact Ham]].
Defined.

(** * The folder-UID migration *)



(** X16. Every statement [Exec] sends, for MySQL or for another driver,
    carries exactly as many arguments as it has [?] placeholders: one. *)
Theorem Exec_statements_match_their_arguments {S R : Type}
    (Session_Exec : string -> list string -> S -> S * (error + R))
    (RowsAffected : R -> Z * option error)
    (MySQL : string) (sess : S) (mgrtr : FolderUIDMigration.Migrator) :
  Forall (fun st => FolderUIDMigration.placeholders (fst st) = length (snd st) /\
                    length (snd st) = 1%nat)
    (FolderUIDMigration.statements
       (snd (fst (FolderUIDMigration.Exec Session_Exec RowsAffected MySQL sess mgrtr)))).
Proof.
  unfold FolderUIDMigration.Exec.
  destruct (String.eqb _ MySQL);
    (destruct (Session_Exec _ _ sess) as [s1 [e | r1]]; [repeat constructor |];
     destruct (RowsAffected r1) as [n1 [e1 |]];
       (destruct (Session_Exec _ _ s1) as [s2 [e | r2]]; [repeat constructor |];
        destruct (RowsAffected r2) as [n2 [e2 |]]; repeat constructor)).
Qed.
